(** * Study-plan generator: shallow embedding of [backend/app.js]

    The file embeds the pieces of [app.js] that carry behaviour: the
    function [generateFallbackPlan], the handler registered with
    [app.post('/generate-plan')], and the handlers of [GET /check-models],
    [GET /study-plans] and [GET /study-plan/:id].  JavaScript values are
    modelled as the language defines them: strings are sequences of UTF-16
    code units, numbers are IEEE-754 binary64 values (the Standard
    Library's [SpecFloat]), and the two external services (text generation
    and the document store) are oracles whose calls are recorded in an
    explicit world state.

    Contents: the JavaScript primitives the source uses; the generator
    and the handlers; the model loop and the theorems on the handler of
    [POST /generate-plan]; the lines of a plan; integers as binary64
    numbers and their decimal numerals; the theorems on the fallback plan;
    what a request does to the world; the text of an AI plan; the
    handlers that read; the collection over a sequence of requests. *)

From Stdlib Require Import ZArith NArith List Bool Ascii String Lia.
From Stdlib Require Import Floats.SpecFloat.
From Stdlib Require Import Sorting.Permutation Sorting.Sorted.
Import ListNotations.

Local Open Scope Z_scope.

(** ** JavaScript primitives used by the source *)

Module JS.

(** *** Strings: lists of UTF-16 code units *)

Definition jsstring : Type := list N.

(** An ASCII literal of the source, as code units. *)
Fixpoint lit (s : string) : jsstring :=
  match s with
  | EmptyString => []
  | String c s' => N_of_ascii c :: lit s'
  end.

Definition LF : N := 10%N.

Fixpoint jsstring_eqb (a b : jsstring) : bool :=
  match a, b with
  | [], [] => true
  | x :: a', y :: b' => N.eqb x y && jsstring_eqb a' b'
  | _, _ => false
  end.

(** [s.length] *)
Definition strlen (s : jsstring) : Z := Z.of_nat (List.length s).

Definition inRange (lo hi c : N) : bool := (N.leb lo c && N.leb c hi)%bool.

(** WhiteSpace and LineTerminator code units, as [String.prototype.trim]
    strips them. *)
Definition isWhiteSpace (c : N) : bool :=
  (inRange 9 13 c || N.eqb c 32 || N.eqb c 160 || N.eqb c 5760
   || inRange 8192 8202 c || N.eqb c 8232 || N.eqb c 8233
   || N.eqb c 8239 || N.eqb c 8287 || N.eqb c 12288 || N.eqb c 65279)%bool.

Fixpoint trimStart (s : jsstring) : jsstring :=
  match s with
  | [] => []
  | c :: s' => if isWhiteSpace c then trimStart s' else s
  end.

Definition trimEnd (s : jsstring) : jsstring := rev (trimStart (rev s)).

(** [s.trim()] *)
Definition trim (s : jsstring) : jsstring := trimEnd (trimStart s).

Fixpoint startsWith (p s : jsstring) : bool :=
  match p, s with
  | [], _ => true
  | x :: p', y :: s' => N.eqb x y && startsWith p' s'
  | _ :: _, [] => false
  end.

(** [s.replace(pat, '')] for a string pattern: the first occurrence of
    [pat] is removed, the rest of [s] is kept. *)
Fixpoint replace_first_empty (pat s : jsstring) : jsstring :=
  if startsWith pat s then skipn (List.length pat) s
  else match s with
       | [] => []
       | c :: s' => c :: replace_first_empty pat s'
       end.

(** [s.split('\n')], used to name the lines of a text. *)
Fixpoint lines (s : jsstring) : list jsstring :=
  match s with
  | [] => [[]]
  | c :: s' =>
      if N.eqb c LF then [] :: lines s'
      else match lines s' with
           | [] => [[c]]
           | l :: ls => (c :: l) :: ls
           end
  end.

(** [xs.join('\n')]: a template literal written over several source lines
    is the join of those lines. *)
Fixpoint joinLines (xs : list jsstring) : jsstring :=
  match xs with
  | [] => []
  | [x] => x
  | x :: xs' => x ++ LF :: joinLines xs'
  end.

(** *** The regular expression [/\d+/] *)

Definition isDigit (c : N) : bool := inRange 48 57 c.

Fixpoint takeDigits (s : jsstring) : jsstring :=
  match s with
  | [] => []
  | c :: s' => if isDigit c then c :: takeDigits s' else []
  end.

(** [s.match(/\d+/)]: [None] is [null]; [Some m] is the match array, whose
    only element is the leftmost, longest run of digits. *)
Fixpoint match_digits (s : jsstring) : option jsstring :=
  match s with
  | [] => None
  | c :: s' => if isDigit c then Some (takeDigits s) else match_digits s'
  end.

(** [ToString] of the value [match] returns: [null] prints as "null", a
    one-element array prints as its element. *)
Definition ToString_match (m : option jsstring) : jsstring :=
  match m with
  | None => lit "null"
  | Some s => s
  end.

(** *** Numbers: IEEE-754 binary64 *)

Definition number : Type := spec_float.

Definition prec : Z := 53.
Definition emax : Z := 1024.

Definition NaN : number := S754_nan.
Definition Infinity : number := S754_infinity false.

(** The Number value of a mathematical integer (round to nearest, ties to
    even). *)
Definition ofZ (z : Z) : number := binary_normalize prec emax z 0 false.

(** The literal [0.7]: the double nearest to 7/10. *)
Definition lit_0_7 : number := S754_finite false 6305039478318694 (-53).

Definition mul (x y : number) : number := SFmul prec emax x y.
Definition add (x y : number) : number := SFadd prec emax x y.
Definition sub (x y : number) : number := SFsub prec emax x y.

(** [x > y] *)
Definition gt (x y : number) : bool := SFltb y x.

Definition ToBoolean (x : number) : bool :=
  match x with
  | S754_zero _ | S754_nan => false
  | _ => true
  end.

(** [x || y] on numbers *)
Definition or_else (x y : number) : number := if ToBoolean x then x else y.

(** [Math.ceil] *)
Definition Math_ceil (x : number) : number :=
  match x with
  | S754_finite s m e =>
      if 0 <=? e then x
      else
        let d := 2 ^ (- e) in
        let q := Z.pos m / d in
        let r := Z.pos m mod d in
        if s then binary_normalize prec emax (- q) 0 true
        else binary_normalize prec emax (if r =? 0 then q else q + 1) 0 false
  | _ => x
  end.

(** *** [parseInt(string)] with no radix argument

    The integer read is rounded to the nearest number, as engines do (the
    standard leaves the digits after the twentieth to the
    implementation). *)

Definition digitValue (R : Z) (c : N) : option Z :=
  let v :=
    if inRange 48 57 c then Some (Z.of_N c - 48)
    else if inRange 97 122 c then Some (Z.of_N c - 87)
    else if inRange 65 90 c then Some (Z.of_N c - 55)
    else None in
  match v with
  | Some d => if d <? R then Some d else None
  | None => None
  end.

(** The longest prefix of radix-[R] digits, as a mathematical integer;
    [acc] is [None] until a digit has been read. *)
Fixpoint parseDigits (R : Z) (s : jsstring) (acc : option Z) : option Z :=
  match s with
  | [] => acc
  | c :: s' =>
      match digitValue R c with
      | Some d =>
          parseDigits R s'
            (Some (R * match acc with Some a => a | None => 0 end + d))
      | None => acc
      end
  end.

Definition parseInt (input : jsstring) : number :=
  let s := trimStart input in
  let '(sign, s) :=
    match s with
    | 45%N :: s' => (true, s')
    | 43%N :: s' => (false, s')
    | _ => (false, s)
    end in
  let '(R, s) :=
    match s with
    | 48%N :: 120%N :: s' => (16, s')
    | 48%N :: 88%N :: s' => (16, s')
    | _ => (10, s)
    end in
  match parseDigits R s None with
  | None => NaN
  | Some mathInt =>
      if mathInt =? 0 then S754_zero sign
      else binary_normalize prec emax (if sign then - mathInt else mathInt) 0 false
  end.

(** *** [Number::toString] (radix 10) *)

(** Decimal digits of a non-negative integer, most significant first. *)
Fixpoint digitsFuel (fuel : nat) (z : Z) (acc : jsstring) : jsstring :=
  match fuel with
  | O => acc
  | S fuel' =>
      if z <=? 0 then acc
      else digitsFuel fuel' (z / 10) (N.add 48 (Z.to_N (z mod 10)) :: acc)
  end.

Definition decimal (z : Z) : jsstring :=
  if z <=? 0 then [48%N] else digitsFuel (S (Z.to_nat (Z.log2 z))) z [].

Definition zeros (n : Z) : jsstring := repeat 48%N (Z.to_nat n).

(** A finite number [M * 2^e] is printed with the fewest digits that
    read back as the same number: digits [s] ([k] of them) and a decimal
    exponent [n] with [s * 10^(n-k)] in the interval of the reals that
    round to the number, [s] nearest to the number when several fit.
    Below, the number and the ends of its interval are [X], [L] and [H]
    in units of [2^q], and [s * 10^p] is compared with [N * 2^q] after
    both are scaled to integers. *)
Definition scaleL (s p q : Z) : Z := s * 10 ^ Z.max p 0 * 2 ^ Z.max (- q) 0.
Definition scaleR (N p q : Z) : Z := N * 2 ^ Z.max q 0 * 10 ^ Z.max (- p) 0.

(** The least [n] with [X * 2^q < 10^n], searched upwards from [n]. *)
Fixpoint magnitudeFrom (fuel : nat) (X q n : Z) : Z :=
  match fuel with
  | O => n
  | S fuel' =>
      if scaleR X n q <? scaleL 1 n q then n
      else magnitudeFrom fuel' X q (n + 1)
  end.

(** The least [n] with [X * 2^q < 10^n]: the number of decimal digits of
    the integer part when the number is at least 1; below 1 it is searched
    from an estimate that is at most 2 too low. *)
Definition magnitude (X q : Z) : Z :=
  let integerPart := if 0 <=? q then X * 2 ^ q else X / 2 ^ (- q) in
  if 1 <=? integerPart then Z.of_nat (List.length (decimal integerPart))
  else magnitudeFrom 8 X q ((Z.log2 X + q - 1) * 30103 / 100000 - 1).

(** For [k] digits and decimal exponent [n]: the [s] with
    [10^(k-1) <= s < 10^k] for which [s * 10^(n-k)] lies in the rounding
    interval [L*2^q, H*2^q] of the number [X*2^q] (closed when [closed]) and
    is nearest to it. *)
Definition candidate (closed : bool) (L X H q k n : Z) : option Z :=
  let p := n - k in
  let den := scaleL 1 p q in
  let lo := scaleR L p q in
  let hi := scaleR H p q in
  let x := scaleR X p q in
  let smin := if closed then (lo + den - 1) / den else lo / den + 1 in
  let smax := if closed then hi / den else (hi + den - 1) / den - 1 in
  let smin := Z.max smin (10 ^ (k - 1)) in
  let smax := Z.min smax (10 ^ k - 1) in
  if smax <? smin then None
  else
    let f := x / den in
    let r := x mod den in
    let near :=
      match Z.compare (2 * r) den with
      | Lt => f
      | Gt => f + 1
      | Eq => if Z.even f then f else f + 1
      end in
    Some (Z.max smin (Z.min smax near)).

(** Distance of [s * 10^(n-k)] to [X * 2^q], as a fraction. *)
Definition distance (X q k n s : Z) : Z * Z :=
  let p := n - k in
  (Z.abs (scaleL s p q - scaleR X p q), scaleL 1 p q).

Definition closer (X q k : Z) (a b : Z * Z) : Z * Z :=
  let '(na, da) := distance X q k (snd a) (fst a) in
  let '(nb, db) := distance X q k (snd b) (fst b) in
  if na * db <=? nb * da then a else b.

(** The shortest digits: the least [k] for which a candidate exists
    (17 digits always suffice for binary64). *)
Fixpoint shortest (fuel : nat) (closed : bool) (L X H q nx k : Z) : Z * Z * Z :=
  match fuel with
  | O => (X, k, nx)
  | S fuel' =>
      match candidate closed L X H q k nx, candidate closed L X H q k (nx + 1) with
      | Some s1, Some s2 =>
          let '(s, n) := closer X q k (s1, nx) (s2, nx + 1) in (s, k, n)
      | Some s1, None => (s1, k, nx)
      | None, Some s2 => (s2, k, nx + 1)
      | None, None => shortest fuel' closed L X H q nx (k + 1)
      end
  end.

Definition formatDigits (s k n : Z) : jsstring :=
  let ds := decimal s in
  if (k <=? n) && (n <=? 21) then ds ++ zeros (n - k)
  else if (0 <? n) && (n <=? 21) then
    firstn (Z.to_nat n) ds ++ lit "." ++ skipn (Z.to_nat n) ds
  else if (-6 <? n) && (n <=? 0) then
    lit "0." ++ zeros (- n) ++ ds
  else
    let e := n - 1 in
    let es := (if e <? 0 then lit "-" else lit "+") ++ decimal (Z.abs e) in
    if k =? 1 then ds ++ lit "e" ++ es
    else firstn 1 ds ++ lit "." ++ skipn 1 ds ++ lit "e" ++ es.

Definition ToString (x : number) : jsstring :=
  match x with
  | S754_nan => lit "NaN"
  | S754_zero _ => lit "0"
  | S754_infinity s => (if s then lit "-" else []) ++ lit "Infinity"
  | S754_finite sg m e =>
      let M := Z.pos m in
      let boundary := (M =? 2 ^ (prec - 1)) && (emin prec emax <? e) in
      let L := if boundary then 4 * M - 1 else 4 * M - 2 in
      let X := 4 * M in
      let H := 4 * M + 2 in
      let q := e - 2 in
      let '(s, k, n) := shortest 17 (Z.even M) L X H q (magnitude X q) 1 in
      (if sg then lit "-" else []) ++ formatDigits s k n
  end.

End JS.

Import JS.

(** ** The fallback plan generator ([generateFallbackPlan], app.js 33-83) *)

(** [parseInt(duration.match(/\d+/)) || 4] *)
Definition durationWeeksOf (duration : jsstring) : number :=
  or_else (parseInt (ToString_match (match_digits duration))) (ofZ 4).

(** [durationWeeks > 1 ? 'weeks' : 'week'] (bound by the source, not used
    by its template). *)
Definition weeksTextOf (durationWeeks : number) : jsstring :=
  if gt durationWeeks (ofZ 1) then lit "weeks" else lit "week".

(** The three template lines that interpolate request text. *)
Definition planHeader (subject level duration goals : jsstring) : list jsstring :=
  [ lit "Study Plan for " ++ subject ++ lit " (" ++ level ++ lit " Level)";
    lit "Duration: " ++ duration;
    lit "Goals: " ++ goals ].

(** The remaining template lines, in source order (app.js 40-82); an
    entry is one line of the template literal. *)
Definition planBody (durationWeeks : number) : list jsstring :=
  [ [];
    lit "=== STUDY PLAN OVERVIEW ===";
    [];
    lit "Phase 1: Foundation (Week 1"
      ++ (if gt durationWeeks (ofZ 2) then lit "-2" else []) ++ lit ")";
    lit "- Review fundamental concepts";
    lit "- Gather materials";
    lit "- Establish routine (1-2 hrs/day)";
    lit "- Do basic exercises";
    [];
    lit "Phase 2: Core Learning (Week "
      ++ (if gt durationWeeks (ofZ 2)
          then lit "3-" ++ ToString (Math_ceil (mul durationWeeks lit_0_7))
          else lit "2")
      ++ lit ")";
    lit "- Deep dive into core topics";
    lit "- Practice problem-solving";
    lit "- Create notes/mind maps";
    [];
    lit "Phase 3: Advanced Application (Week "
      ++ ToString (add (Math_ceil (mul durationWeeks lit_0_7)) (ofZ 1))
      ++ lit "-" ++ ToString (sub durationWeeks (ofZ 1)) ++ lit ")";
    lit "- Complex topics + real-world use";
    lit "- Case studies and scenarios";
    lit "- Integration of topics";
    [];
    lit "Phase 4: Review & Mastery (Final Week)";
    lit "- Final revision";
    lit "- Mock tests";
    lit "- Confidence boosting";
    [];
    lit "=== DAILY STRUCTURE ===";
    [];
    lit "Morning: Recap previous, prep new (~30 min)";
    lit "Midday: Learn/practice new (~60" ++ [8211%N] ++ lit "90 min)";
    lit "Evening: Summarize & plan (~15 min)";
    [];
    lit "=== WEEKLY MILESTONES ===";
    [];
    lit "Week 1: Foundation";
    lit "Week 2: Core modules";
    (if gt durationWeeks (ofZ 2) then lit "Week 3: Applications" ++ [LF] else [])
      ++ (if gt durationWeeks (ofZ 3) then lit "Week 4: Mastery" ++ [LF] else [])
      ++ lit "Final Week: Goal ready!";
    [];
    lit "Tips:";
    lit "- Use Pomodoro";
    lit "- Review often";
    lit "- Join groups / Ask questions";
    lit "- Be consistent";
    [];
    lit "(This is a fallback plan when AI is unavailable.)" ].

(** The template literal, for a given value of [durationWeeks]. *)
Definition planTemplate (subject level duration goals : jsstring)
    (durationWeeks : number) : jsstring :=
  joinLines (planHeader subject level duration goals ++ planBody durationWeeks).

Definition generateFallbackPlan (subject level duration goals : jsstring) : jsstring :=
  let durationWeeks := durationWeeksOf duration in
  let weeksText := weeksTextOf durationWeeks in
  planTemplate subject level duration goals durationWeeks.

(** ** The handler of [POST /generate-plan] (app.js 114-216) *)

(** The stored document. *)
Module PlanRecord.
Variant FieldValue := serverTimestamp.
Record t := mk {
  subject : jsstring;
  level : jsstring;
  duration : jsstring;
  goals : jsstring;
  plan : jsstring;
  modelUsed : jsstring;
  createdAt : FieldValue;
  isAiGenerated : bool
}.
End PlanRecord.

(** [req.body].  A field is a string when it is present, as the data
    model of the service has it; a field that is absent is [None]. *)
Module Body.
Record t := mk {
  subject : option jsstring;
  level : option jsstring;
  duration : option jsstring;
  goals : option jsstring
}.
End Body.

(** The JSON object sent with a plan. *)
Module Reply.
Record t := mk {
  success : bool;
  plan : jsstring;
  planId : option jsstring;
  modelUsed : jsstring;
  isAiGenerated : bool;
  message : option jsstring;
  warning : option jsstring
}.
End Reply.

Variant Json :=
  | ErrorJson (error : jsstring)
  | PlanJson (reply : Reply.t).

Record HttpResponse := { statusCode : Z; json : Json }.

(** [res.json(v)] and [res.status(c).json(v)] *)
Definition res_json (v : Json) : HttpResponse := {| statusCode := 200; json := v |}.
Definition res_status_json (c : Z) (v : Json) : HttpResponse :=
  {| statusCode := c; json := v |}.

(** A settled promise. *)
Variant Settled (A : Type) :=
  | Fulfilled (value : A)
  | Rejected (error : jsstring).
Arguments Fulfilled {A} value.
Arguments Rejected {A} error.

(** Calls issued to the two external services. *)
Variant Call :=
  | TextGeneration (model inputs : jsstring)
  | CollectionAdd (record : PlanRecord.t).

(** The world the handler runs in: the documents of the collection
    [studyPlans] (oldest first) and the calls issued so far (oldest
    first). *)
Record World := {
  studyPlans : list (jsstring * PlanRecord.t);
  calls : list Call
}.

(** The external services.  What a call answers may depend on everything
    that happened before it.  A text-generation response is [None] when it
    carries no [generated_text]. *)
Record Services := {
  textGeneration : World -> jsstring -> jsstring -> Settled (option jsstring);
  collectionAdd : World -> PlanRecord.t -> Settled jsstring
}.

Definition issue (c : Call) (w : World) : World :=
  {| studyPlans := studyPlans w; calls := calls w ++ [c] |}.

Definition store (id : jsstring) (r : PlanRecord.t) (w : World) : World :=
  {| studyPlans := studyPlans w ++ [(id, r)]; calls := calls w |}.

(** [await inference.textGeneration({model, inputs, parameters})] *)
Definition await_textGeneration (svc : Services) (model inputs : jsstring)
    (w : World) : Settled (option jsstring) * World :=
  (textGeneration svc w model inputs, issue (TextGeneration model inputs) w).

(** [await db.collection('studyPlans').add(record)] *)
Definition await_add (svc : Services) (record : PlanRecord.t) (w : World)
    : Settled jsstring * World :=
  let w1 := issue (CollectionAdd record) w in
  match collectionAdd svc w record with
  | Fulfilled id => (Fulfilled id, store id record w1)
  | Rejected e => (Rejected e, w1)
  end.

(** JavaScript truthiness of a request field. *)
Definition truthy (v : option jsstring) : bool :=
  match v with
  | None => false
  | Some [] => false
  | Some (_ :: _) => true
  end.

(** A field as the destructuring binds it and a template prints it. *)
Definition fieldText (v : option jsstring) : jsstring :=
  match v with
  | None => lit "undefined"
  | Some s => s
  end.

Definition models : list jsstring :=
  [ lit "mistralai/Mistral-7B-Instruct-v0.3";
    lit "microsoft/DialoGPT-medium";
    lit "google/flan-t5-large";
    lit "facebook/blenderbot-400M-distill";
    lit "bigscience/bloom-560m" ].

(** The prompt template (app.js 121-135). *)
Definition promptOf (subject level duration goals : jsstring) : jsstring :=
  joinLines
    [ lit "Create a personalized study plan:";
      [];
      lit "Subject: " ++ subject;
      lit "Level: " ++ level;
      lit "Duration: " ++ duration;
      lit "Goals: " ++ goals;
      [];
      lit "Include:";
      lit "1. Overview";
      lit "2. Weekly breakdown";
      lit "3. Daily study schedule";
      lit "4. Milestones";
      lit "5. Assessments";
      lit "6. Resources";
      lit "7. Learning tips" ].

(** [response.generated_text], read where the guard below has passed. *)
Definition generated_text (response : option jsstring) : jsstring :=
  match response with
  | None => []
  | Some text => text
  end.

(** [response?.generated_text && response.generated_text.length >= 100] *)
Definition acceptable (response : option jsstring) : bool :=
  match response with
  | None => false
  | Some text =>
      match text with [] => false | _ :: _ => true end
      && (100 <=? strlen text)
  end.

(** The two variables the loop assigns. *)
Record Locals := { lastError : option jsstring; modelUsed : option jsstring }.

(** The [for (const model of models)] loop (app.js 148-186).  The result is
    [Some r] when the body returned the response [r], and [None] when the
    loop ran to its end.  The [try] block contains both awaits, so a
    rejection of either one is caught and the loop goes on. *)
Fixpoint tryModels (svc : Services) (subject level duration goals prompt : jsstring)
    (ms : list jsstring) (vars : Locals) (w : World)
    : option HttpResponse * Locals * World :=
  match ms with
  | [] => (None, vars, w)
  | model :: rest =>
      let continue := tryModels svc subject level duration goals prompt rest in
      match await_textGeneration svc model prompt w with
      | (Rejected error, w1) =>
          continue {| lastError := Some error; modelUsed := modelUsed vars |} w1
      | (Fulfilled response, w1) =>
          if acceptable response then
            let generatedText :=
              trim (replace_first_empty prompt (generated_text response)) in
            let vars1 := {| lastError := lastError vars; modelUsed := Some model |} in
            let record :=
              PlanRecord.mk subject level duration goals generatedText model
                PlanRecord.serverTimestamp true in
            match await_add svc record w1 with
            | (Fulfilled studyPlanRef_id, w2) =>
                (Some (res_json (PlanJson
                   (Reply.mk true generatedText (Some studyPlanRef_id) model true
                      None None))),
                 vars1, w2)
            | (Rejected error, w2) =>
                continue {| lastError := Some error; modelUsed := Some model |} w2
            end
          else continue vars w1
      end
  end.

Definition post_generate_plan (svc : Services) (body : Body.t) (w : World)
    : HttpResponse * World :=
  if negb (truthy (Body.subject body)) || negb (truthy (Body.level body))
     || negb (truthy (Body.duration body)) || negb (truthy (Body.goals body))
  then (res_status_json 400 (ErrorJson (lit "All fields are required")), w)
  else
    let subject := fieldText (Body.subject body) in
    let level := fieldText (Body.level body) in
    let duration := fieldText (Body.duration body) in
    let goals := fieldText (Body.goals body) in
    let prompt := promptOf subject level duration goals in
    match tryModels svc subject level duration goals prompt models
            {| lastError := None; modelUsed := None |} w with
    | (Some response, _, w1) => (response, w1)
    | (None, _, w1) =>
        let fallbackPlan := generateFallbackPlan subject level duration goals in
        let record :=
          PlanRecord.mk subject level duration goals fallbackPlan (lit "fallback")
            PlanRecord.serverTimestamp false in
        match await_add svc record w1 with
        | (Fulfilled fallbackRef_id, w2) =>
            (res_json (PlanJson
               (Reply.mk true fallbackPlan (Some fallbackRef_id) (lit "fallback") false
                  (Some (lit "AI service unavailable, fallback used")) None)),
             w2)
        | (Rejected error, w2) =>
            (res_json (PlanJson
               (Reply.mk true fallbackPlan None (lit "fallback") false None
                  (Some (lit "Fallback plan not saved due to DB error")))),
             w2)
        end
    end.

(** ** The model loop *)

(** A text-generation call that does not lead to a response: it failed, it
    carried no text, or its [generated_text] has fewer than 100 code
    units. *)
Variant Declined : Settled (option jsstring) -> Prop :=
  | call_failed (e : jsstring) : Declined (Rejected e)
  | no_text : Declined (Fulfilled None)
  | short_text (t : jsstring) : strlen t < 100 -> Declined (Fulfilled (Some t)).

(** The world after one text-generation call to each of [ms], in order. *)
Definition afterCalls (prompt : jsstring) (ms : list jsstring) (w : World) : World :=
  fold_left (fun w' m => issue (TextGeneration m prompt) w') ms w.

(** Every candidate of [ms], called in order from [w], is declined. *)
Definition allDeclined (svc : Services) (prompt : jsstring) (ms : list jsstring)
    (w : World) : Prop :=
  forall pre m post, ms = pre ++ m :: post ->
    Declined (textGeneration svc (afterCalls prompt pre w) m prompt).


(** ** Naming the lines of a plan *)

(** The text has no line feed. *)
Definition oneLine (s : jsstring) : bool := forallb (fun c => negb (N.eqb c LF)) s.

(** Line [i] of the fallback plan, counted from the end of the lines the
    header occupies; the header is the only part of the template that
    prints request text, so when no field contains a line feed this is
    line [3 + i] of the plan. *)
Definition bodyLine (subject level duration goals : jsstring) (i : nat)
    : option jsstring :=
  nth_error (lines (generateFallbackPlan subject level duration goals))
    (List.length (lines (joinLines (planHeader subject level duration goals))) + i).

(** [x <= y] on numbers *)
Definition leq (x y : number) : bool := SFleb x y.

(** ** Week counts as integers *)

(** The ceiling of [a / b], for [b > 0]. *)
Definition ceilDiv (a b : Z) : Z := (a + b - 1) / b.

(** The text does not begin with a digit. *)
Definition noLeadingDigit (s : jsstring) : Prop :=
  match s with
  | [] => True
  | c :: _ => isDigit c = false
  end.

(** The week count as an integer: the value of the first run of digits
    of the duration, and 4 when there is none or when it is 0. *)
Definition weekCount (duration : jsstring) : Z :=
  match match_digits duration with
  | None => 4
  | Some ds =>
      match parseDigits 10 ds None with
      | Some n => if n =? 0 then 4 else n
      | None => 4
      end
  end.

(** ** Concrete requests and services *)

Module Sample.

Definition subject : jsstring := lit "Math".
Definition level : jsstring := lit "Beginner".
Definition duration : jsstring := lit "4 weeks".
Definition goals : jsstring := lit "Pass the exam".

Definition body : Body.t :=
  Body.mk (Some subject) (Some level) (Some duration) (Some goals).

(** The same request without its [goals] field. *)
Definition body_without_goals : Body.t :=
  Body.mk (Some subject) (Some level) (Some duration) None.

Definition prompt : jsstring := promptOf subject level duration goals.

Definition emptyWorld : World := {| studyPlans := []; calls := [] |}.

Definition mistral : jsstring := lit "mistralai/Mistral-7B-Instruct-v0.3".
Definition dialogpt : jsstring := lit "microsoft/DialoGPT-medium".

(** A generated text of 120 code units. *)
Definition longText : jsstring :=
  lit "Week 1: numbers and fractions. Week 2: equations. Week 3: geometry. Week 4: revision, mock test and exam preparation."
  ++ lit "   ".

(** The first model echoes the prompt, followed by " ok"; the store
    accepts every write. *)
Definition echoing : Services :=
  {| textGeneration := fun _ model inputs =>
       if jsstring_eqb model mistral
       then Fulfilled (Some (inputs ++ lit " ok"))
       else Rejected (lit "Service Unavailable");
     collectionAdd := fun _ _ => Fulfilled (lit "doc-1") |}.

Definition isAdd (c : Call) : bool :=
  match c with CollectionAdd _ => true | TextGeneration _ _ => false end.

(** The first two models answer [longText]; the store rejects its first
    write and accepts later ones. *)
Definition storeFailsOnce : Services :=
  {| textGeneration := fun _ model _ =>
       if jsstring_eqb model mistral || jsstring_eqb model dialogpt
       then Fulfilled (Some longText)
       else Rejected (lit "Service Unavailable");
     collectionAdd := fun w _ =>
       if existsb isAdd (calls w) then Fulfilled (lit "doc-2")
       else Rejected (lit "UNAVAILABLE") |}.

(** Only the first model answers; the store rejects every write. *)
Definition storeDown : Services :=
  {| textGeneration := fun _ model _ =>
       if jsstring_eqb model mistral
       then Fulfilled (Some longText)
       else Rejected (lit "Service Unavailable");
     collectionAdd := fun _ _ => Rejected (lit "UNAVAILABLE") |}.

(** No model answers; the store accepts every write. *)
Definition modelsDown : Services :=
  {| textGeneration := fun _ _ _ => Rejected (lit "Service Unavailable");
     collectionAdd := fun _ _ => Fulfilled (lit "doc-3") |}.

(** No model answers with enough text; the store rejects every write. *)
Definition allDown : Services :=
  {| textGeneration := fun _ model _ =>
       if jsstring_eqb model mistral then Fulfilled (Some (lit "Sorry."))
       else Rejected (lit "Service Unavailable");
     collectionAdd := fun _ _ => Rejected (lit "UNAVAILABLE") |}.

End Sample.

(** ** What a request does to the world *)

(** The four fields pass the guard of app.js 117: each one is present
    and is not the empty string. *)
Definition allFieldsTruthy (body : Body.t) : bool :=
  truthy (Body.subject body) && truthy (Body.level body)
  && truthy (Body.duration body) && truthy (Body.goals body).

(** The text-generation calls of a log, as (model, inputs), and the
    records of its write attempts, both oldest first. *)
Fixpoint textCalls (cs : list Call) : list (jsstring * jsstring) :=
  match cs with
  | [] => []
  | TextGeneration model inputs :: cs' => (model, inputs) :: textCalls cs'
  | CollectionAdd _ :: cs' => textCalls cs'
  end.

Fixpoint writes (cs : list Call) : list PlanRecord.t :=
  match cs with
  | [] => []
  | TextGeneration _ _ :: cs' => writes cs'
  | CollectionAdd record :: cs' => record :: writes cs'
  end.

(** The document a plan reply stands for: the fields of the request, the
    plan, the model and the flag of the reply. *)
Definition recordOf (body : Body.t) (reply : Reply.t) : PlanRecord.t :=
  PlanRecord.mk (fieldText (Body.subject body)) (fieldText (Body.level body))
    (fieldText (Body.duration body)) (fieldText (Body.goals body))
    (Reply.plan reply) (Reply.modelUsed reply) PlanRecord.serverTimestamp
    (Reply.isAiGenerated reply).

(** The prompt of a request. *)
Definition promptOfBody (body : Body.t) : jsstring :=
  promptOf (fieldText (Body.subject body)) (fieldText (Body.level body))
    (fieldText (Body.duration body)) (fieldText (Body.goals body)).

(** ** The handlers that read: [GET /check-models], [GET /study-plans]
    and [GET /study-plan/:id] *)

(** An object used as a map from strings to strings, with its keys in
    the order they were added (none of the keys used here is an array
    index). *)
Definition JsObject : Type := list (jsstring * jsstring).

(** [obj[key] = value]: an existing key keeps its place and takes the
    new value, a new key is added last. *)
Fixpoint setProperty (key value : jsstring) (obj : JsObject) : JsObject :=
  match obj with
  | [] => [(key, value)]
  | (k, v) :: rest =>
      if jsstring_eqb k key then (k, value) :: rest
      else (k, v) :: setProperty key value rest
  end.

(** [obj[key]] *)
Fixpoint getProperty (key : jsstring) (obj : JsObject) : option jsstring :=
  match obj with
  | [] => None
  | (k, v) :: rest => if jsstring_eqb k key then Some v else getProperty key rest
  end.

(** A time of the store's clock (Firestore orders timestamps by time). *)
Definition Timestamp : Type := Z.

(** The [Date] that [timestamp.toDate()] returns. *)
Variant Date := toDate (t : Timestamp).

(** A stored plan as it is sent: [{id: doc.id, ...doc.data(), createdAt:
    doc.data().createdAt?.toDate()}]. *)
Module PlanView.
Record t := mk {
  id : jsstring;
  subject : jsstring;
  level : jsstring;
  duration : jsstring;
  goals : jsstring;
  plan : jsstring;
  modelUsed : jsstring;
  createdAt : Date;
  isAiGenerated : bool
}.
End PlanView.

(** The JSON objects these handlers send:
    [{timestamp, modelStatus}], [{success: true, plans}],
    [{success: true, plan}], [{success: false, error}] and
    [{status, server, version, timestamp}]. *)
Variant ApiJson :=
  | ModelStatusJson (timestamp : jsstring) (modelStatus : JsObject)
  | PlansJson (plans : list PlanView.t)
  | OnePlanJson (plan : PlanView.t)
  | FailureJson (error : jsstring)
  | HealthJson (status server version timestamp : jsstring).

Record ApiResponse := { apiStatus : Z; apiJson : ApiJson }.

Definition api_json (v : ApiJson) : ApiResponse := {| apiStatus := 200; apiJson := v |}.
Definition api_status_json (c : Z) (v : ApiJson) : ApiResponse :=
  {| apiStatus := c; apiJson := v |}.

(** *** [GET /check-models] (app.js 86-111) *)

(** The [for (const model of models)] loop of app.js 97-108: one call per
    model with the input "Hello" (and the parameters [{max_new_tokens:
    5}]); a call that resolves marks the model "Available" whatever it
    returned, a call that rejects marks it "Unavailable: " followed by the
    message of the error. *)
Fixpoint probeModels (svc : Services) (ms : list jsstring) (modelStatus : JsObject)
    (w : World) : JsObject * World :=
  match ms with
  | [] => (modelStatus, w)
  | model :: rest =>
      match await_textGeneration svc model (lit "Hello") w with
      | (Fulfilled _, w1) =>
          probeModels svc rest (setProperty model (lit "Available") modelStatus) w1
      | (Rejected message, w1) =>
          probeModels svc rest
            (setProperty model (lit "Unavailable: " ++ message) modelStatus) w1
      end
  end.

(** The handler; [now] is [new Date().toISOString()], read when the
    response is built. *)
Definition get_check_models (svc : Services) (now : jsstring) (w : World)
    : ApiResponse * World :=
  let '(modelStatus, w1) := probeModels svc models [] w in
  (api_json (ModelStatusJson now modelStatus), w1).

(** What the loop records for the outcome of a call. *)
Definition verdict (outcome : Settled (option jsstring)) : jsstring :=
  match outcome with
  | Fulfilled _ => lit "Available"
  | Rejected message => lit "Unavailable: " ++ message
  end.

(** *** Reading the collection *)

(** What a read of the store depends on.  A read that is served sees the
    documents written so far ([studyPlans]); the [serverTimestamp()] of a
    document is resolved by the store to the time of its write,
    [commitTime] of its id; a read can also be rejected, with the message
    of its error.  Reads leave the world as it is. *)
Record Reads := {
  commitTime : jsstring -> Timestamp;
  docRead : World -> jsstring -> Settled unit;
  queryRead : World -> Settled unit
}.

(** A document snapshot: [doc.id] and [doc.data()]; [doc.exists] is true
    exactly when there is data. *)
Record DocumentSnapshot := {
  snapshot_id : jsstring;
  snapshot_data : option PlanRecord.t
}.

Definition hasId (id : jsstring) (d : jsstring * PlanRecord.t) : bool :=
  jsstring_eqb (fst d) id.

(** [await db.collection('studyPlans').doc(id).get()] *)
Definition await_doc_get (rd : Reads) (id : jsstring) (w : World)
    : Settled DocumentSnapshot :=
  match docRead rd w id with
  | Rejected error => Rejected error
  | Fulfilled _ =>
      Fulfilled {| snapshot_id := id;
                   snapshot_data := option_map snd (find (hasId id) (studyPlans w)) |}
  end.

(** [{id: doc.id, ...doc.data(), createdAt: doc.data().createdAt?.toDate()}] *)
Definition viewOf (rd : Reads) (id : jsstring) (data : PlanRecord.t) : PlanView.t :=
  PlanView.mk id (PlanRecord.subject data) (PlanRecord.level data)
    (PlanRecord.duration data) (PlanRecord.goals data) (PlanRecord.plan data)
    (PlanRecord.modelUsed data) (toDate (commitTime rd id))
    (PlanRecord.isAiGenerated data).

(** *** [GET /study-plan/:id] (app.js 239-250) *)

Definition get_study_plan (rd : Reads) (id : jsstring) (w : World) : ApiResponse :=
  match await_doc_get rd id w with
  | Fulfilled doc =>
      match snapshot_data doc with
      | None => api_status_json 404 (FailureJson (lit "Not found"))
      | Some data => api_json (OnePlanJson (viewOf rd (snapshot_id doc) data))
      end
  | Rejected message => api_status_json 500 (FailureJson message)
  end.

(** *** [GET /study-plans] (app.js 219-236) *)

(** Order of two document ids (code unit by code unit). *)
Fixpoint jsstring_leb (a b : jsstring) : bool :=
  match a, b with
  | [], _ => true
  | _ :: _, [] => false
  | x :: a', y :: b' => N.ltb x y || (N.eqb x y && jsstring_leb a' b')
  end.

(** [a] is listed before [b] by [orderBy('createdAt', 'desc')]: the later
    time first; documents of the same time by id, in the same direction. *)
Definition listedBefore (rd : Reads) (a b : jsstring * PlanRecord.t) : bool :=
  let ta := commitTime rd (fst a) in
  let tb := commitTime rd (fst b) in
  (tb <? ta) || ((ta =? tb) && jsstring_leb (fst b) (fst a)).

Fixpoint insertDoc (rd : Reads) (d : jsstring * PlanRecord.t)
    (sorted : list (jsstring * PlanRecord.t)) : list (jsstring * PlanRecord.t) :=
  match sorted with
  | [] => [d]
  | e :: rest =>
      if listedBefore rd e d then e :: insertDoc rd d rest else d :: e :: rest
  end.

(** [.orderBy('createdAt', 'desc')] and [.limit(n)] *)
Definition orderBy_createdAt_desc (rd : Reads) (docs : list (jsstring * PlanRecord.t))
    : list (jsstring * PlanRecord.t) :=
  fold_right (insertDoc rd) [] docs.

Definition limit (n : nat) (docs : list (jsstring * PlanRecord.t))
    : list (jsstring * PlanRecord.t) :=
  firstn n docs.

(** [await db.collection('studyPlans').orderBy('createdAt', 'desc')
    .limit(50).get()], as [snapshot.docs]. *)
Definition await_query_get (rd : Reads) (w : World)
    : Settled (list (jsstring * PlanRecord.t)) :=
  match queryRead rd w with
  | Rejected error => Rejected error
  | Fulfilled _ => Fulfilled (limit 50 (orderBy_createdAt_desc rd (studyPlans w)))
  end.

Definition get_study_plans (rd : Reads) (w : World) : ApiResponse :=
  match await_query_get rd w with
  | Fulfilled docs =>
      let plans := map (fun doc => viewOf rd (fst doc) (snd doc)) docs in
      api_json (PlansJson plans)
  | Rejected message => api_status_json 500 (FailureJson message)
  end.

(** [a] was not created before [b]. *)
Definition notOlder (rd : Reads) (a b : jsstring * PlanRecord.t) : Prop :=
  commitTime rd (fst b) <= commitTime rd (fst a).

(** The time a listed plan was created at. *)
Definition createdAtTime (p : PlanView.t) : Timestamp :=
  match PlanView.createdAt p with toDate t => t end.

(** *** [GET /health] (app.js 253-260) and the catch-all (app.js 263-265) *)

(** [now] is [new Date().toISOString()]. *)
Definition get_health (now : jsstring) : ApiResponse :=
  api_json (HealthJson (lit "healthy") (lit "study-plan-generator") (lit "1.0.0") now).

(** The handler of [app.use('*', ...)], which answers every request that
    reaches it. *)
Definition not_found : ApiResponse :=
  api_status_json 404 (FailureJson (lit "Not found")).

(** ** The routes together *)

(** A request, by the route that serves it; the two routes that print
    the time come with the time their response is built at, and
    [Unmatched] is a request that reaches the catch-all. *)
Variant Request :=
  | POST_generate_plan (body : Body.t)
  | GET_check_models (now : jsstring)
  | GET_study_plans
  | GET_study_plan (id : jsstring)
  | GET_health (now : jsstring)
  | Unmatched.

Definition isPost (req : Request) : bool :=
  match req with POST_generate_plan _ => true | _ => false end.

Variant Response :=
  | PlanResponse (r : HttpResponse)
  | ApiResponseOf (r : ApiResponse).


(** The response to a request and the world after it. *)
Definition serve (svc : Services) (rd : Reads) (req : Request) (w : World)
    : Response * World :=
  match req with
  | POST_generate_plan body =>
      let '(r, w1) := post_generate_plan svc body w in (PlanResponse r, w1)
  | GET_check_models now =>
      let '(r, w1) := get_check_models svc now w in (ApiResponseOf r, w1)
  | GET_study_plans => (ApiResponseOf (get_study_plans rd w), w)
  | GET_study_plan id => (ApiResponseOf (get_study_plan rd id w), w)
  | GET_health now => (ApiResponseOf (get_health now), w)
  | Unmatched => (ApiResponseOf not_found, w)
  end.

(** The world after a sequence of requests, served one after the other. *)
Definition worldAfterAll (svc : Services) (rd : Reads) (reqs : list Request)
    (w : World) : World :=
  fold_left (fun w' req => snd (serve svc rd req w')) reqs w.

(** What the handler writes: a record of an AI plan names one of the
    candidates; a fallback record names "fallback" and holds the
    fallback plan of its own four fields. *)
Definition writtenByHandler (r : PlanRecord.t) : Prop :=
  PlanRecord.createdAt r = PlanRecord.serverTimestamp
  /\ if PlanRecord.isAiGenerated r
     then In (PlanRecord.modelUsed r) models
     else PlanRecord.modelUsed r = lit "fallback"
          /\ PlanRecord.plan r
             = generateFallbackPlan (PlanRecord.subject r) (PlanRecord.level r)
                 (PlanRecord.duration r) (PlanRecord.goals r).

(** ** Occurrences of a pattern *)

(** The pattern occurs somewhere in the text. *)
Fixpoint occurs (pat s : jsstring) : bool :=
  startsWith pat s
  || match s with
     | [] => false
     | _ :: s' => occurs pat s'
     end.

(** ** Further concrete services *)

Module Scenario.

(** Every model answers the prompt and nothing else; the store accepts
    every write. *)
Definition bareEcho : Services :=
  {| textGeneration := fun _ _ inputs => Fulfilled (Some inputs);
     collectionAdd := fun _ _ => Fulfilled (lit "doc-4") |}.

(** Every model answers the prompt followed by a text between white
    space; the store accepts every write. *)
Definition padded : Services :=
  {| textGeneration := fun _ _ inputs =>
       Fulfilled (Some (inputs ++ LF :: lit "  Week 1: read.  " ++ [LF]));
     collectionAdd := fun _ _ => Fulfilled (lit "doc-5") |}.

(** The store serves every read; documents are stamped with the length
    of their id. *)
Definition served : Reads :=
  {| commitTime := fun id => strlen id;
     docRead := fun _ _ => Fulfilled tt;
     queryRead := fun _ => Fulfilled tt |}.

(** The first model answers [Sample.longText], which does not repeat the
    prompt; the store accepts every write. *)
Definition answering : Services :=
  {| textGeneration := fun _ _ _ => Fulfilled (Some Sample.longText);
     collectionAdd := fun _ _ => Fulfilled (lit "doc-6") |}.

(** A collection that holds one document, of id "a". *)
Definition oneStored : World :=
  {| studyPlans :=
       [(lit "a", PlanRecord.mk Sample.subject Sample.level Sample.duration
                    Sample.goals (lit "Read.") (lit "fallback")
                    PlanRecord.serverTimestamp false)];
     calls := [] |}.

End Scenario.

(** ** The model loop *)

Lemma acceptable_length (response : option jsstring) :
  acceptable response = true <->
  exists t, response = Some t /\ 100 <= strlen t.
Proof.
  destruct response as [t|]; cbn [acceptable].
  - split.
    + intros H. apply andb_true_iff in H. destruct H as [_ H].
      exists t. split; [reflexivity | now apply Z.leb_le].
    + intros [t' [E H]]. injection E as <-.
      apply andb_true_iff. split; [| now apply Z.leb_le].
      destruct t; [cbn in H; lia | reflexivity].
  - split; [discriminate | intros [t [E _]]; discriminate].
Qed.

Lemma Declined_not_acceptable (response : option jsstring) :
  Declined (Fulfilled response) -> acceptable response = false.
Proof.
  intros H. destruct (acceptable response) eqn:E; [| reflexivity].
  apply acceptable_length in E. destruct E as [t [-> Ht]].
  inversion H; subst; lia.
Qed.

Section Loop.

Variable svc : Services.
Variables subject level duration goals prompt : jsstring.

Lemma afterCalls_studyPlans (ms : list jsstring) (w : World) :
  studyPlans (afterCalls prompt ms w) = studyPlans w.
Proof.
  revert w. induction ms as [|m ms IH]; intros w; cbn; [reflexivity|].
  unfold afterCalls in IH. now rewrite IH.
Qed.

Lemma afterCalls_calls (ms : list jsstring) (w : World) :
  calls (afterCalls prompt ms w)
  = calls w ++ map (fun m => TextGeneration m prompt) ms.
Proof.
  revert w. induction ms as [|m ms IH]; intros w; cbn.
  - now rewrite app_nil_r.
  - unfold afterCalls in IH. rewrite IH. cbn. now rewrite <- app_assoc.
Qed.

Lemma allDeclined_nil (w : World) : allDeclined svc prompt [] w.
Proof. intros pre m post E. destruct pre; discriminate E. Qed.

Lemma allDeclined_cons (m : jsstring) (ms : list jsstring) (w : World) :
  allDeclined svc prompt (m :: ms) w ->
  Declined (textGeneration svc w m prompt)
  /\ allDeclined svc prompt ms (issue (TextGeneration m prompt) w).
Proof.
  intros H. split.
  - apply (H [] m ms). reflexivity.
  - intros pre m' post E. apply (H (m :: pre) m' post). now rewrite E.
Qed.

(** A declined candidate costs one call and hands the loop to the next
    candidate. *)
Lemma tryModels_declined (m : jsstring) (ms : list jsstring) (vars : Locals)
    (w : World) :
  Declined (textGeneration svc w m prompt) ->
  exists vars1,
    tryModels svc subject level duration goals prompt (m :: ms) vars w
    = tryModels svc subject level duration goals prompt ms vars1
        (issue (TextGeneration m prompt) w).
Proof.
  intros H. cbn [tryModels await_textGeneration].
  destruct (textGeneration svc w m prompt) as [response|e].
  - rewrite (Declined_not_acceptable _ H). now exists vars.
  - eexists. reflexivity.
Qed.

(** A candidate whose text passes the guard but whose record the store
    rejects is passed over like a declined one: the rejection is caught
    by the loop, and the next candidate is called. *)
Lemma tryModels_store_rejected (m : jsstring) (ms : list jsstring) (vars : Locals)
    (w : World) (t e : jsstring) :
  let w1 := issue (TextGeneration m prompt) w in
  let record :=
    PlanRecord.mk subject level duration goals (trim (replace_first_empty prompt t)) m
      PlanRecord.serverTimestamp true in
  textGeneration svc w m prompt = Fulfilled (Some t) ->
  100 <= strlen t ->
  collectionAdd svc w1 record = Rejected e ->
  tryModels svc subject level duration goals prompt (m :: ms) vars w
  = tryModels svc subject level duration goals prompt ms
      {| lastError := Some e; modelUsed := Some m |}
      (issue (CollectionAdd record) w1).
Proof.
  intros w1 record Ht Hlen Hadd.
  cbn [tryModels await_textGeneration]. rewrite Ht.
  assert (A : acceptable (Some t) = true) by (apply acceptable_length; eauto).
  rewrite A. cbn [generated_text]. unfold await_add.
  fold w1. fold record. now rewrite Hadd.
Qed.

(** When every candidate is declined the loop runs to its end: one
    text-generation call per candidate, no write. *)
Lemma tryModels_all_declined (ms : list jsstring) :
  forall (vars : Locals) (w : World),
    allDeclined svc prompt ms w ->
    exists vars',
      tryModels svc subject level duration goals prompt ms vars w
      = (None, vars', afterCalls prompt ms w).
Proof.
  induction ms as [|m ms IH]; intros vars w H.
  - exists vars. reflexivity.
  - apply allDeclined_cons in H. destruct H as [Hm Hrest].
    destruct (tryModels_declined m ms vars w Hm) as [vars1 ->].
    now apply IH.
Qed.

(** The first candidate whose text passes the guard, when its record is
    stored, ends the loop. *)
Lemma tryModels_first_acceptable
    (pre : list jsstring) (m : jsstring) (post : list jsstring) (t id : jsstring) :
  forall (vars : Locals) (w : World),
    allDeclined svc prompt pre w ->
    let w1 := afterCalls prompt pre w in
    let w2 := issue (TextGeneration m prompt) w1 in
    let generatedText := trim (replace_first_empty prompt t) in
    let record :=
      PlanRecord.mk subject level duration goals generatedText m
        PlanRecord.serverTimestamp true in
    textGeneration svc w1 m prompt = Fulfilled (Some t) ->
    100 <= strlen t ->
    collectionAdd svc w2 record = Fulfilled id ->
    exists vars',
      tryModels svc subject level duration goals prompt (pre ++ m :: post) vars w
      = (Some (res_json (PlanJson
           (Reply.mk true generatedText (Some id) m true None None))),
         vars',
         store id record (issue (CollectionAdd record) w2)).
Proof.
  induction pre as [|m0 pre IH]; intros vars w H w1 w2 generatedText record Ht Hlen Hadd.
  - cbn [app tryModels await_textGeneration].
    cbn in w1. subst w1. rewrite Ht.
    assert (A : acceptable (Some t) = true)
      by (apply acceptable_length; eauto).
    rewrite A. cbn [generated_text]. unfold await_add.
    fold generatedText. fold record. fold w2. rewrite Hadd.
    eexists. reflexivity.
  - apply allDeclined_cons in H. destruct H as [Hm Hrest].
    cbn [app].
    destruct (tryModels_declined m0 (pre ++ m :: post) vars w Hm) as [vars1 ->].
    now apply IH.
Qed.

(** A response that leaves the loop was produced from a text of at least
    100 code units, measured before the prompt is stripped and the text
    trimmed; the call that returned the text and the write of its record
    are the last two calls issued. *)
Lemma tryModels_returns (ms : list jsstring) :
  forall (vars vars' : Locals) (w w' : World) (r : HttpResponse),
    tryModels svc subject level duration goals prompt ms vars w = (Some r, vars', w') ->
    exists m t id w0,
      let generatedText := trim (replace_first_empty prompt t) in
      let record :=
        PlanRecord.mk subject level duration goals generatedText m
          PlanRecord.serverTimestamp true in
      In m ms
      /\ textGeneration svc w0 m prompt = Fulfilled (Some t)
      /\ 100 <= strlen t
      /\ r = res_json (PlanJson
               (Reply.mk true generatedText (Some id) m true None None))
      /\ w' = store id record
                (issue (CollectionAdd record) (issue (TextGeneration m prompt) w0)).
Proof.
  induction ms as [|m ms IH]; intros vars vars' w w' r H.
  - discriminate.
  - assert (Next : forall vars1 w1,
               tryModels svc subject level duration goals prompt ms vars1 w1
               = (Some r, vars', w') ->
               exists m' t id w0,
                 In m' (m :: ms)
                 /\ textGeneration svc w0 m' prompt = Fulfilled (Some t)
                 /\ 100 <= strlen t
                 /\ r = res_json (PlanJson
                          (Reply.mk true (trim (replace_first_empty prompt t))
                             (Some id) m' true None None))
                 /\ w' = store id
                           (PlanRecord.mk subject level duration goals
                              (trim (replace_first_empty prompt t)) m'
                              PlanRecord.serverTimestamp true)
                           (issue
                              (CollectionAdd
                                 (PlanRecord.mk subject level duration goals
                                    (trim (replace_first_empty prompt t)) m'
                                    PlanRecord.serverTimestamp true))
                              (issue (TextGeneration m' prompt) w0))).
    { intros vars1 w1 H1. apply IH in H1.
      destruct H1 as (m' & t' & id' & w0 & Hin & H1).
      exists m', t', id', w0. split; [now right | exact H1]. }
    cbn [tryModels await_textGeneration] in H.
    destruct (textGeneration svc w m prompt) as [response|e] eqn:Et;
      [| exact (Next _ _ H)].
    destruct (acceptable response) eqn:A; [| exact (Next _ _ H)].
    apply acceptable_length in A. destruct A as [t [-> Hlen]].
    cbn [generated_text] in H. unfold await_add in H.
    match type of H with
    | context [collectionAdd svc ?w1 ?rec] =>
        destruct (collectionAdd svc w1 rec) as [id|e] eqn:Ea
    end; [| exact (Next _ _ H)].
    injection H as <- _ <-.
    exists m, t, id, w. cbn zeta. repeat split; try assumption. now left.
Qed.

End Loop.

(** ** The handler *)

Lemma models_down_allDeclined (prompt : jsstring) (ms : list jsstring) (w : World) :
  allDeclined Sample.modelsDown prompt ms w.
Proof. intros pre m post _. constructor. Qed.

(** C8.  A request in which one of the four fields is absent is answered
    with status 400, and the world is left as it was: no document is
    written and no service is called. *)
Theorem missing_field_is_rejected (svc : Services) (body : Body.t) (w : World) :
  Body.subject body = None \/ Body.level body = None
  \/ Body.duration body = None \/ Body.goals body = None ->
  statusCode (fst (post_generate_plan svc body w)) = 400
  /\ json (fst (post_generate_plan svc body w))
     = ErrorJson (lit "All fields are required")
  /\ snd (post_generate_plan svc body w) = w.
Proof.
  intros H. unfold post_generate_plan.
  destruct body as [s l d g]. cbn [Body.subject Body.level Body.duration Body.goals] in *.
  assert (E : negb (truthy s) || negb (truthy l) || negb (truthy d) || negb (truthy g)
              = true).
  { destruct H as [-> | [-> | [-> | ->]]]; cbn [truthy negb];
      rewrite ?orb_true_r; reflexivity. }
  rewrite E. cbn. repeat split.
Qed.

Lemma missing_field_is_rejected_witness :
  Body.goals Sample.body_without_goals = None
  /\ statusCode (fst (post_generate_plan Sample.modelsDown Sample.body_without_goals
                        Sample.emptyWorld)) = 400
  /\ snd (post_generate_plan Sample.modelsDown Sample.body_without_goals
            Sample.emptyWorld) = Sample.emptyWorld.
Proof.
  split; [reflexivity|].
  pose proof (missing_field_is_rejected Sample.modelsDown Sample.body_without_goals
                Sample.emptyWorld) as H.
  destruct H as [H1 [_ H3]].
  - right. right. right. reflexivity.
  - split; [exact H1 | exact H3].
Defined.

Lemma truthy_Some (s : jsstring) : s <> [] -> truthy (Some s) = true.
Proof. destruct s; [congruence | reflexivity]. Qed.

Lemma valid_request_passes (subject level duration goals : jsstring) :
  subject <> [] -> level <> [] -> duration <> [] -> goals <> [] ->
  negb (truthy (Some subject)) || negb (truthy (Some level))
  || negb (truthy (Some duration)) || negb (truthy (Some goals)) = false.
Proof. intros. now rewrite !truthy_Some. Qed.

(** A request that carries its four fields passes the validation. *)
Ltac enter_handler Hs Hl Hd Hg :=
  unfold post_generate_plan;
  cbn [Body.subject Body.level Body.duration Body.goals fieldText];
  rewrite (valid_request_passes _ _ _ _ Hs Hl Hd Hg).

Ltac split_on_add svc :=
  unfold await_add;
  match goal with
  | |- context [collectionAdd svc ?w ?record] => destruct (collectionAdd svc w record)
  end.

(** C4.  For a request that carries its four fields, when every candidate
    model call fails, returns no text, or returns a [generated_text] of
    fewer than 100 code units, the response has [isAiGenerated] false and
    its plan is [generateFallbackPlan] of the four fields; this holds
    whether or not the write of the record succeeds. *)
Theorem exhaustion_returns_fallback_plan (svc : Services)
    (subject level duration goals : jsstring) (w : World) :
  subject <> [] -> level <> [] -> duration <> [] -> goals <> [] ->
  allDeclined svc (promptOf subject level duration goals) models w ->
  exists reply,
    fst (post_generate_plan svc
           (Body.mk (Some subject) (Some level) (Some duration) (Some goals)) w)
    = res_json (PlanJson reply)
    /\ Reply.isAiGenerated reply = false
    /\ Reply.modelUsed reply = lit "fallback"
    /\ Reply.plan reply = generateFallbackPlan subject level duration goals.
Proof.
  intros Hs Hl Hd Hg H. enter_handler Hs Hl Hd Hg.
  destruct (tryModels_all_declined svc subject level duration goals _ models
              {| lastError := None; modelUsed := None |} w H) as [vars' ->].
  split_on_add svc; eexists; cbn [fst]; repeat split.
Qed.

Lemma exhaustion_returns_fallback_plan_witness :
  exists reply,
    fst (post_generate_plan Sample.modelsDown Sample.body Sample.emptyWorld)
    = res_json (PlanJson reply)
    /\ Reply.isAiGenerated reply = false
    /\ Reply.modelUsed reply = lit "fallback"
    /\ Reply.plan reply
       = generateFallbackPlan Sample.subject Sample.level Sample.duration Sample.goals.
Proof.
  apply (exhaustion_returns_fallback_plan Sample.modelsDown
           Sample.subject Sample.level Sample.duration Sample.goals Sample.emptyWorld);
    try discriminate.
  apply models_down_allDeclined.
Defined.

(** On exhaustion every candidate has been called once, in the order of
    the list, and the only write is that of the fallback record. *)
Lemma exhaustion_calls (svc : Services)
    (subject level duration goals : jsstring) (w : World) :
  subject <> [] -> level <> [] -> duration <> [] -> goals <> [] ->
  let prompt := promptOf subject level duration goals in
  let body := Body.mk (Some subject) (Some level) (Some duration) (Some goals) in
  let record :=
    PlanRecord.mk subject level duration goals
      (generateFallbackPlan subject level duration goals) (lit "fallback")
      PlanRecord.serverTimestamp false in
  allDeclined svc prompt models w ->
  calls (snd (post_generate_plan svc body w))
  = calls w ++ map (fun m => TextGeneration m prompt) models ++ [CollectionAdd record].
Proof.
  intros Hs Hl Hd Hg prompt body record H.
  unfold body. enter_handler Hs Hl Hd Hg. fold prompt.
  destruct (tryModels_all_declined svc subject level duration goals prompt models
              {| lastError := None; modelUsed := None |} w H) as [vars' ->].
  fold record. split_on_add svc; cbn [snd issue store calls];
    rewrite afterCalls_calls; now rewrite <- app_assoc.
Qed.

(** C1, as the code has it.  The threshold of 100 is applied to
    [generated_text] as the service returned it, before the prompt is
    stripped and the text trimmed.  For a request that carries its four
    fields:
    - when the candidates before [m] are declined, [m] returns a text [t]
      of at least 100 code units and the write of the record succeeds, the
      response is the one built from [m]: its plan is [t] stripped of the
      prompt and trimmed, and [modelUsed] is [m];
    - every response with [isAiGenerated] true was built from a text of at
      least 100 code units returned by one of the candidates, by the last
      text-generation call issued; a text of fewer than 100 code units is
      never accepted. *)
Theorem acceptance_by_raw_length (svc : Services)
    (subject level duration goals : jsstring) (w : World) :
  subject <> [] -> level <> [] -> duration <> [] -> goals <> [] ->
  let prompt := promptOf subject level duration goals in
  let body := Body.mk (Some subject) (Some level) (Some duration) (Some goals) in
  let stored (m t : jsstring) :=
    PlanRecord.mk subject level duration goals (trim (replace_first_empty prompt t)) m
      PlanRecord.serverTimestamp true in
  (forall pre m post t id,
      models = pre ++ m :: post ->
      allDeclined svc prompt pre w ->
      textGeneration svc (afterCalls prompt pre w) m prompt = Fulfilled (Some t) ->
      100 <= strlen t ->
      collectionAdd svc (issue (TextGeneration m prompt) (afterCalls prompt pre w))
        (stored m t) = Fulfilled id ->
      fst (post_generate_plan svc body w)
      = res_json (PlanJson
          (Reply.mk true (trim (replace_first_empty prompt t)) (Some id) m true
             None None)))
  /\ (forall reply,
      json (fst (post_generate_plan svc body w)) = PlanJson reply ->
      Reply.isAiGenerated reply = true ->
      exists t w0,
        In (Reply.modelUsed reply) models
        /\ textGeneration svc w0 (Reply.modelUsed reply) prompt = Fulfilled (Some t)
        /\ 100 <= strlen t
        /\ Reply.plan reply = trim (replace_first_empty prompt t)
        /\ calls (snd (post_generate_plan svc body w))
           = calls w0 ++ [TextGeneration (Reply.modelUsed reply) prompt;
                          CollectionAdd (stored (Reply.modelUsed reply) t)]).
Proof.
  intros Hs Hl Hd Hg prompt body stored. split.
  - intros pre m post t id Hms Hpre Ht Hlen Hadd.
    unfold body. enter_handler Hs Hl Hd Hg. fold prompt. rewrite Hms.
    destruct (tryModels_first_acceptable svc subject level duration goals prompt
                pre m post t id {| lastError := None; modelUsed := None |} w
                Hpre Ht Hlen Hadd) as [vars' ->].
    reflexivity.
  - intros reply Hjson Hai. revert Hjson.
    unfold body. enter_handler Hs Hl Hd Hg. fold prompt.
    destruct (tryModels svc subject level duration goals prompt models
                {| lastError := None; modelUsed := None |} w)
      as [[[r|] vars'] w'] eqn:E.
    + apply tryModels_returns in E.
      destruct E as (m & t & id & w0 & Hin & Ht & Hlen & -> & ->).
      cbn. intros [= <-]. cbn. exists t, w0. repeat split; try assumption.
      now rewrite <- app_assoc.
    + split_on_add svc; cbn; intros [= <-]; discriminate Hai.
Qed.

Lemma acceptance_by_raw_length_witness :
  fst (post_generate_plan Sample.echoing Sample.body Sample.emptyWorld)
  = res_json (PlanJson
      (Reply.mk true (lit "ok") (Some (lit "doc-1")) Sample.mistral true None None)).
Proof.
  refine (proj1 (acceptance_by_raw_length Sample.echoing
                   Sample.subject Sample.level Sample.duration Sample.goals
                   Sample.emptyWorld _ _ _ _)
            [] Sample.mistral (tl models) (Sample.prompt ++ lit " ok") (lit "doc-1")
            eq_refl _ eq_refl _ eq_refl);
    try discriminate.
  apply allDeclined_nil.
Defined.

(** C1, as stated, fails: the first model echoes the prompt followed by
    " ok"; stripped of the prompt and trimmed its text has 2 code units,
    and the response is built from it. *)
Lemma short_stripped_text_is_accepted :
  textGeneration Sample.echoing Sample.emptyWorld Sample.mistral Sample.prompt
  = Fulfilled (Some (Sample.prompt ++ lit " ok"))
  /\ strlen (trim (replace_first_empty Sample.prompt (Sample.prompt ++ lit " ok"))) = 2
  /\ post_generate_plan Sample.echoing Sample.body Sample.emptyWorld
     = (res_json (PlanJson
          (Reply.mk true (lit "ok") (Some (lit "doc-1")) Sample.mistral true None None)),
        {| studyPlans :=
             [(lit "doc-1",
               PlanRecord.mk Sample.subject Sample.level Sample.duration Sample.goals
                 (lit "ok") Sample.mistral PlanRecord.serverTimestamp true)];
           calls :=
             [TextGeneration Sample.mistral Sample.prompt;
              CollectionAdd
                (PlanRecord.mk Sample.subject Sample.level Sample.duration Sample.goals
                   (lit "ok") Sample.mistral PlanRecord.serverTimestamp true)] |}).
Proof. repeat split; vm_compute; reflexivity. Qed.

(** When the first candidate returns a text of at least 100 code units
    and the write of its record succeeds, no other candidate is called
    and [modelUsed] is the first candidate. *)
Lemma first_candidate_stored_ends_loop (svc : Services)
    (subject level duration goals : jsstring) (w : World) (t id : jsstring) :
  subject <> [] -> level <> [] -> duration <> [] -> goals <> [] ->
  let prompt := promptOf subject level duration goals in
  let body := Body.mk (Some subject) (Some level) (Some duration) (Some goals) in
  let record :=
    PlanRecord.mk subject level duration goals (trim (replace_first_empty prompt t))
      Sample.mistral PlanRecord.serverTimestamp true in
  textGeneration svc w Sample.mistral prompt = Fulfilled (Some t) ->
  100 <= strlen t ->
  collectionAdd svc (issue (TextGeneration Sample.mistral prompt) w) record
  = Fulfilled id ->
  exists reply,
    json (fst (post_generate_plan svc body w)) = PlanJson reply
    /\ Reply.modelUsed reply = Sample.mistral
    /\ calls (snd (post_generate_plan svc body w))
       = calls w ++ [TextGeneration Sample.mistral prompt; CollectionAdd record].
Proof.
  intros Hs Hl Hd Hg prompt body record Ht Hlen Hadd.
  unfold body. enter_handler Hs Hl Hd Hg. fold prompt.
  pose proof (allDeclined_nil svc prompt w) as Hpre.
  destruct (tryModels_first_acceptable svc subject level duration goals prompt
              [] Sample.mistral (tl models) t id
              {| lastError := None; modelUsed := None |} w Hpre Ht Hlen Hadd)
    as [vars' E].
  change ([] ++ Sample.mistral :: tl models) with models in E. rewrite E.
  eexists. cbn. repeat split. now rewrite <- app_assoc.
Qed.

(** C2 at its failing input.  The first candidate returns 120 code units
    and the store rejects the write of its record: the rejection is caught
    by the loop's [catch], the second candidate is called, and [modelUsed]
    is the second candidate. *)
Lemma store_failure_moves_to_next_candidate :
  let prompt := Sample.prompt in
  let text := trim (replace_first_empty prompt Sample.longText) in
  let record (m : jsstring) :=
    PlanRecord.mk Sample.subject Sample.level Sample.duration Sample.goals text m
      PlanRecord.serverTimestamp true in
  textGeneration Sample.storeFailsOnce Sample.emptyWorld Sample.mistral prompt
  = Fulfilled (Some Sample.longText)
  /\ strlen Sample.longText = 120
  /\ post_generate_plan Sample.storeFailsOnce Sample.body Sample.emptyWorld
     = (res_json (PlanJson
          (Reply.mk true text (Some (lit "doc-2")) Sample.dialogpt true None None)),
        {| studyPlans := [(lit "doc-2", record Sample.dialogpt)];
           calls :=
             [TextGeneration Sample.mistral prompt;
              CollectionAdd (record Sample.mistral);
              TextGeneration Sample.dialogpt prompt;
              CollectionAdd (record Sample.dialogpt)] |}).
Proof. repeat split; vm_compute; reflexivity. Qed.

(** On the fallback path a rejected write is swallowed: the response
    carries the fallback plan and the warning, and nothing is stored. *)
Lemma fallback_store_failure_is_swallowed (svc : Services)
    (subject level duration goals : jsstring) (w : World) (e : jsstring) :
  subject <> [] -> level <> [] -> duration <> [] -> goals <> [] ->
  let prompt := promptOf subject level duration goals in
  let body := Body.mk (Some subject) (Some level) (Some duration) (Some goals) in
  let fallbackPlan := generateFallbackPlan subject level duration goals in
  let record :=
    PlanRecord.mk subject level duration goals fallbackPlan (lit "fallback")
      PlanRecord.serverTimestamp false in
  allDeclined svc prompt models w ->
  collectionAdd svc (afterCalls prompt models w) record = Rejected e ->
  fst (post_generate_plan svc body w)
  = res_json (PlanJson
      (Reply.mk true fallbackPlan None (lit "fallback") false None
         (Some (lit "Fallback plan not saved due to DB error"))))
  /\ studyPlans (snd (post_generate_plan svc body w)) = studyPlans w.
Proof.
  intros Hs Hl Hd Hg prompt body fallbackPlan record H Hadd.
  unfold body. enter_handler Hs Hl Hd Hg. fold prompt.
  destruct (tryModels_all_declined svc subject level duration goals prompt models
              {| lastError := None; modelUsed := None |} w H) as [vars' ->].
  unfold await_add. fold fallbackPlan. fold record. rewrite Hadd.
  split; [reflexivity|]. cbn [snd issue studyPlans].
  apply afterCalls_studyPlans.
Qed.

(** C3 at its failing input.  The first candidate returns 120 code units,
    from which the plan [text] is computed; the store rejects every write.
    The response does not carry [text]: the remaining candidates are
    called, and the fallback plan is sent with the warning. *)
Lemma computed_plan_is_lost_on_store_failure :
  let prompt := Sample.prompt in
  let text := trim (replace_first_empty prompt Sample.longText) in
  let fallbackPlan :=
    generateFallbackPlan Sample.subject Sample.level Sample.duration Sample.goals in
  let record (plan m : jsstring) (ai : bool) :=
    PlanRecord.mk Sample.subject Sample.level Sample.duration Sample.goals plan m
      PlanRecord.serverTimestamp ai in
  textGeneration Sample.storeDown Sample.emptyWorld Sample.mistral prompt
  = Fulfilled (Some Sample.longText)
  /\ strlen Sample.longText = 120
  /\ fallbackPlan <> text
  /\ post_generate_plan Sample.storeDown Sample.body Sample.emptyWorld
     = (res_json (PlanJson
          (Reply.mk true fallbackPlan None (lit "fallback") false None
             (Some (lit "Fallback plan not saved due to DB error")))),
        {| studyPlans := [];
           calls :=
             [TextGeneration Sample.mistral prompt;
              CollectionAdd (record text Sample.mistral true)]
             ++ map (fun m => TextGeneration m prompt) (tl models)
             ++ [CollectionAdd (record fallbackPlan (lit "fallback") false)] |}).
Proof.
  repeat split; try (vm_compute; reflexivity).
  vm_compute. discriminate.
Qed.

(** ** Lines of a joined text *)

Lemma lines_not_nil (s : jsstring) : lines s <> [].
Proof.
  induction s as [|c s IH]; cbn; [discriminate|].
  destruct (N.eqb c LF); [discriminate|].
  destruct (lines s); discriminate.
Qed.

Lemma lines_app_LF (a b : jsstring) : lines (a ++ LF :: b) = lines a ++ lines b.
Proof.
  induction a as [|c a IH]; [reflexivity|].
  cbn [app lines]. rewrite IH.
  destruct (N.eqb c LF); [reflexivity|].
  pose proof (lines_not_nil a) as Ha.
  destruct (lines a) as [|l ls]; [congruence | reflexivity].
Qed.

Lemma lines_joinLines (xs : list jsstring) :
  xs <> [] -> lines (joinLines xs) = List.concat (map lines xs).
Proof.
  induction xs as [|x xs IH]; [congruence|]. intros _.
  destruct xs as [|y ys].
  - cbn. now rewrite app_nil_r.
  - cbn [joinLines map List.concat]. rewrite lines_app_LF. f_equal.
    apply IH. discriminate.
Qed.

Lemma lines_oneLine (s : jsstring) : oneLine s = true -> lines s = [s].
Proof.
  induction s as [|c s IH]; [reflexivity|].
  cbn [oneLine forallb lines]. intros H.
  apply andb_true_iff in H. destruct H as [Hc Hs].
  apply negb_true_iff in Hc. rewrite Hc.
  unfold oneLine in IH. now rewrite (IH Hs).
Qed.

Lemma oneLine_app (a b : jsstring) : oneLine (a ++ b) = oneLine a && oneLine b.
Proof. apply forallb_app. Qed.

Lemma concat_lines_oneLine (xs : list jsstring) :
  forallb oneLine xs = true -> List.concat (map lines xs) = xs.
Proof.
  induction xs as [|x xs IH]; [reflexivity|].
  cbn [forallb map List.concat]. intros H.
  apply andb_true_iff in H. destruct H as [Hx Hxs].
  now rewrite (lines_oneLine _ Hx), (IH Hxs).
Qed.

(** A one-line entry of a list of template lines is a line of their
    join, at the position it has in the list. *)
Lemma nth_concat_lines (pre : list jsstring) (e : jsstring) (post : list jsstring) :
  forallb oneLine pre = true -> oneLine e = true ->
  nth_error (List.concat (map lines (pre ++ e :: post))) (List.length pre) = Some e.
Proof.
  intros Hpre He.
  rewrite map_app, List.concat_app, (concat_lines_oneLine _ Hpre).
  cbn [map List.concat]. rewrite (lines_oneLine _ He).
  rewrite nth_error_app2 by lia. now rewrite Nat.sub_diag.
Qed.

Lemma bodyLine_planBody (subject level duration goals : jsstring) (i : nat) :
  bodyLine subject level duration goals i
  = nth_error (List.concat (map lines (planBody (durationWeeksOf duration)))) i.
Proof.
  unfold bodyLine, generateFallbackPlan, planTemplate.
  rewrite !lines_joinLines by discriminate.
  rewrite map_app, List.concat_app.
  rewrite nth_error_app2 by lia. f_equal. lia.
Qed.

(** ** The printed form of a number has no line feed *)

Lemma oneLine_digitsFuel (fuel : nat) :
  forall z acc, oneLine acc = true -> oneLine (digitsFuel fuel z acc) = true.
Proof.
  induction fuel as [|fuel IH]; intros z acc H; cbn [digitsFuel]; [exact H|].
  destruct (z <=? 0); [exact H|].
  apply IH. cbn [oneLine forallb]. fold (oneLine acc). rewrite H, andb_true_r.
  apply negb_true_iff, N.eqb_neq. unfold LF. lia.
Qed.

Lemma oneLine_decimal (z : Z) : oneLine (decimal z) = true.
Proof.
  unfold decimal. destruct (z <=? 0); [reflexivity|].
  now apply oneLine_digitsFuel.
Qed.

Lemma oneLine_zeros (n : Z) : oneLine (zeros n) = true.
Proof.
  unfold zeros. induction (Z.to_nat n) as [|k IH]; [reflexivity|].
  cbn. exact IH.
Qed.

Lemma oneLine_firstn (n : nat) (s : jsstring) :
  oneLine s = true -> oneLine (firstn n s) = true.
Proof.
  revert n. induction s as [|c s IH]; intros [|n] H; try reflexivity.
  cbn [firstn oneLine forallb] in *.
  apply andb_true_iff in H. destruct H as [-> H]. now apply IH.
Qed.

Lemma oneLine_skipn (n : nat) (s : jsstring) :
  oneLine s = true -> oneLine (skipn n s) = true.
Proof.
  revert n. induction s as [|c s IH]; intros [|n] H; try reflexivity; [exact H|].
  cbn [skipn]. cbn [oneLine forallb] in H.
  apply andb_true_iff in H. destruct H as [_ H]. now apply IH.
Qed.

Lemma oneLine_formatDigits (s k n : Z) : oneLine (formatDigits s k n) = true.
Proof.
  pose proof (oneLine_decimal s) as Hs.
  unfold formatDigits.
  repeat match goal with
         | |- context [if ?b then _ else _] => destruct b
         end;
    rewrite ?oneLine_app, ?oneLine_zeros, ?oneLine_decimal, ?Hs,
      ?(oneLine_firstn _ _ Hs), ?(oneLine_skipn _ _ Hs);
    reflexivity.
Qed.

Lemma oneLine_ToString (x : number) : oneLine (ToString x) = true.
Proof.
  destruct x as [s|s| |s m e]; cbn [ToString]; try reflexivity.
  - destruct s; reflexivity.
  - destruct (shortest _ _ _ _ _ _ _ _) as [[s' k] n].
    rewrite oneLine_app, oneLine_formatDigits. destruct s; reflexivity.
Qed.

(** ** Integers as numbers *)

Lemma shr_1_m (mrs : shr_record) :
  0 <= shr_m mrs -> shr_m (shr_1 mrs) = shr_m mrs / 2.
Proof.
  destruct mrs as [m r s]. cbn [shr_m]. intros H.
  rewrite <- Z.div2_div.
  destruct m as [|[p|p|]|p]; cbn; try reflexivity. lia.
Qed.

Lemma pow2_xO (k : positive) : 2 ^ Z.pos k~0 = 2 ^ Z.pos k * 2 ^ Z.pos k.
Proof. rewrite <- Z.pow_add_r by lia. f_equal. lia. Qed.

Lemma pow2_xI (k : positive) : 2 ^ Z.pos k~1 = 2 * (2 ^ Z.pos k * 2 ^ Z.pos k).
Proof.
  rewrite <- Z.pow_add_r, <- Z.pow_succ_r by lia. f_equal. lia.
Qed.

Lemma iter_shr_1_m (k : positive) :
  forall mrs, 0 <= shr_m mrs ->
    shr_m (iter_pos shr_1 k mrs) = shr_m mrs / 2 ^ Z.pos k.
Proof.
  induction k as [k IH|k IH|]; intros mrs H; cbn [iter_pos];
    try pose proof (Z.pow_pos_nonneg 2 (Z.pos k) ltac:(lia) ltac:(lia)) as Hk.
  - assert (H1 : 0 <= shr_m (shr_1 mrs))
      by (rewrite shr_1_m by exact H; apply Z.div_pos; lia).
    assert (H2 : 0 <= shr_m (iter_pos shr_1 k (shr_1 mrs)))
      by (rewrite IH by exact H1; apply Z.div_pos; lia).
    rewrite (IH _ H2), (IH _ H1), (shr_1_m _ H), pow2_xI.
    rewrite (Z.div_div _ 2) by lia.
    rewrite Z.div_div by lia. f_equal. lia.
  - assert (H1 : 0 <= shr_m (iter_pos shr_1 k mrs))
      by (rewrite IH by exact H; apply Z.div_pos; lia).
    rewrite (IH _ H1), (IH _ H), pow2_xO.
    rewrite Z.div_div by lia. reflexivity.
  - rewrite (shr_1_m _ H). reflexivity.
Qed.

Lemma digits2_bounds (p : positive) :
  2 ^ (Z.pos (digits2_pos p) - 1) <= Z.pos p < 2 ^ Z.pos (digits2_pos p).
Proof.
  induction p as [p IH|p IH|]; cbn [digits2_pos].
  - rewrite Pos2Z.inj_succ.
    replace (Z.succ (Z.pos (digits2_pos p)) - 1)
      with (Z.succ (Z.pos (digits2_pos p) - 1)) by lia.
    rewrite !Z.pow_succ_r by lia. lia.
  - rewrite Pos2Z.inj_succ.
    replace (Z.succ (Z.pos (digits2_pos p)) - 1)
      with (Z.succ (Z.pos (digits2_pos p) - 1)) by lia.
    rewrite !Z.pow_succ_r by lia. lia.
  - cbn. lia.
Qed.

Lemma digits2_shift (p k : positive) :
  digits2_pos (Pos.iter xO p k) = (digits2_pos p + k)%positive.
Proof.
  induction k as [|k IH] using Pos.peano_ind.
  - cbn. lia.
  - rewrite Pos.iter_succ. cbn [digits2_pos]. rewrite IH. lia.
Qed.

Lemma fexp_normal (x : Z) : -1021 <= x -> fexp prec emax x = x - 53.
Proof. unfold fexp, emin, prec, emax. lia. Qed.

(** A mantissa of 53 bits at an exponent in range is left as it is. *)
Lemma binary_round_aux_aligned (m : positive) (e : Z) :
  Z.pos (digits2_pos m) = 53 -> -1074 <= e <= 971 ->
  binary_round_aux prec emax false (Z.pos m) e loc_Exact = S754_finite false m e.
Proof.
  intros Hd He.
  assert (S : shr_fexp prec emax (Z.pos m) e loc_Exact
              = ({| shr_m := Z.pos m; shr_r := false; shr_s := false |}, e)).
  { unfold shr_fexp. cbn [Zdigits2]. rewrite Hd, fexp_normal by lia.
    replace (53 + e - 53 - e) with 0 by lia. reflexivity. }
  unfold binary_round_aux. rewrite S. cbn [shr_m loc_of_shr_record round_nearest_even].
  rewrite S. cbn [shr_m].
  destruct (Z.leb_spec e (emax - prec)); [reflexivity|]. unfold emax, prec in *. lia.
Qed.

Lemma iter_xO_value (p k : positive) :
  Z.pos (Pos.iter xO p k) = Z.pos p * 2 ^ Z.pos k.
Proof.
  induction k as [|k IH] using Pos.peano_ind.
  - cbn. lia.
  - rewrite Pos.iter_succ, Pos2Z.inj_xO, IH, Pos2Z.inj_succ, Z.pow_succ_r by lia.
    lia.
Qed.

(** An integer below [2^53] is a number: its mantissa is the integer
    shifted to 53 bits. *)
Lemma ofZ_small (p : positive) :
  let d := Z.pos (digits2_pos p) in
  d <= 53 ->
  exists m, ofZ (Z.pos p) = S754_finite false m (d - 53)
            /\ Z.pos m = Z.pos p * 2 ^ (53 - d)
            /\ Z.pos (digits2_pos m) = 53.
Proof.
  intros d Hd. unfold ofZ, binary_normalize, binary_round.
  rewrite Z.add_0_r, fexp_normal by lia. fold d.
  unfold shl_align.
  destruct (d - 53 - 0) as [|k|k] eqn:E; try lia.
  - exists p. replace (d - 53) with 0 by lia. split; [| split].
    + apply binary_round_aux_aligned; lia.
    + replace (53 - d) with 0 by lia. lia.
    + fold d. lia.
  - exists (Pos.iter xO p k). replace (d - 53) with (Z.neg k) by lia.
    split; [| split].
    + apply binary_round_aux_aligned; [| lia].
      rewrite digits2_shift. fold d. lia.
    + rewrite iter_xO_value. f_equal. f_equal. lia.
    + rewrite digits2_shift. fold d. lia.
Qed.

(** A larger integer is rounded to 53 bits: the result is a positive
    number with a positive exponent, or [Infinity]. *)
Lemma ofZ_large (p : positive) :
  let d := Z.pos (digits2_pos p) in
  53 < d ->
  ofZ (Z.pos p) = S754_infinity false
  \/ exists m e, ofZ (Z.pos p) = S754_finite false m e /\ d - 53 <= e.
Proof.
  intros d Hd. unfold ofZ, binary_normalize, binary_round.
  rewrite Z.add_0_r, fexp_normal by lia. fold d.
  unfold shl_align.
  destruct (d - 53 - 0) as [|k|k] eqn:E; try lia.
  unfold binary_round_aux.
  assert (S1 : shr_fexp prec emax (Z.pos p) 0 loc_Exact
               = (iter_pos shr_1 k {| shr_m := Z.pos p; shr_r := false; shr_s := false |},
                  Z.pos k)).
  { unfold shr_fexp. cbn [Zdigits2]. fold d. rewrite fexp_normal by lia.
    replace (d + 0 - 53 - 0) with (Z.pos k) by lia. reflexivity. }
  rewrite S1.
  set (mrs := iter_pos shr_1 k _).
  assert (Hm : 2 ^ 52 <= shr_m mrs).
  { unfold mrs. rewrite iter_shr_1_m by (cbn; lia). cbn [shr_m].
    pose proof (digits2_bounds p) as [Hlo _]. fold d in Hlo.
    apply Z.div_le_lower_bound; [apply Z.pow_pos_nonneg; lia|].
    rewrite <- Z.pow_add_r by lia.
    replace (Z.pos k + 52) with (d - 1) by lia. exact Hlo. }
  set (m1 := round_nearest_even (shr_m mrs) (loc_of_shr_record mrs)).
  assert (H1 : shr_m mrs <= m1).
  { unfold m1, round_nearest_even.
    destruct (loc_of_shr_record mrs) as [|[| |]]; try lia.
    destruct (Z.even (shr_m mrs)); lia. }
  destruct m1 as [|q|q] eqn:Eq; try lia.
  unfold shr_fexp. cbn [Zdigits2 shr_record_of_loc].
  rewrite fexp_normal by lia.
  set (k2 := Z.pos (digits2_pos q) + Z.pos k - 53 - Z.pos k).
  unfold shr.
  destruct k2 as [|j|j] eqn:Ek2.
  - cbn [shr_m]. destruct (Z.pos k <=? emax - prec); [right | left; reflexivity].
    exists q, (Z.pos k). split; [reflexivity | lia].
  - assert (Hq : 0 < shr_m (iter_pos shr_1 j
                                {| shr_m := Z.pos q; shr_r := false; shr_s := false |})).
    { rewrite iter_shr_1_m by (cbn; lia). cbn [shr_m].
      pose proof (digits2_bounds q) as [Hlo _].
      apply Z.div_str_pos. split; [apply Z.pow_pos_nonneg; lia|].
      eapply Z.le_trans; [| exact Hlo].
      apply Z.pow_le_mono_r; lia. }
    destruct (shr_m (iter_pos shr_1 j _)) as [|q'|q']; try lia.
    destruct (Z.pos k + Z.pos j <=? emax - prec); [right | left; reflexivity].
    exists q', (Z.pos k + Z.pos j). split; [reflexivity | lia].
  - cbn [shr_m]. destruct (Z.pos k <=? emax - prec); [right | left; reflexivity].
    exists q, (Z.pos k). split; [reflexivity | lia].
Qed.

Lemma ofZ_truthy (n : Z) : 0 < n -> ToBoolean (ofZ n) = true.
Proof.
  destruct n as [|p|p]; try lia. intros _.
  destruct (Z.le_gt_cases (Z.pos (digits2_pos p)) 53) as [H|H].
  - destruct (ofZ_small p H) as (m & -> & _). reflexivity.
  - destruct (ofZ_large p ltac:(lia)) as [-> | (m & e & -> & _)]; reflexivity.
Qed.

(** The guard [durationWeeks > 2] on an integer week count. *)
Lemma ofZ_gt_2 (n : Z) : 0 < n -> gt (ofZ n) (ofZ 2) = (2 <? n).
Proof.
  destruct n as [|p|p]; try lia. intros _.
  change (ofZ 2) with (S754_finite false 4503599627370496 (-51)).
  unfold gt, SFltb.
  destruct (Z.le_gt_cases (Z.pos (digits2_pos p)) 53) as [H|H].
  - destruct (ofZ_small p H) as (m & -> & Hm & _).
    pose proof (digits2_bounds p) as [Hlo Hhi].
    set (d := Z.pos (digits2_pos p)) in *.
    cbn [SFcompare].
    destruct (Z.compare_spec (-51) (d - 53)) as [E|E|E].
    + (* d = 2 : p is 2 or 3 *)
      replace d with 2 in * by lia.
      change (2 ^ (2 - 1)) with 2 in Hlo. change (2 ^ 2) with 4 in Hhi.
      change (2 ^ (53 - 2)) with 2251799813685248 in Hm.
      assert (C : p = 2%positive \/ p = 3%positive) by lia.
      destruct C as [-> | ->].
      * assert (m = 4503599627370496%positive) by lia. subst m. reflexivity.
      * assert (m = 6755399441055744%positive) by lia. subst m. reflexivity.
    + destruct (Z.ltb_spec 2 (Z.pos p)) as [|L]; [reflexivity|].
      assert (d <= 2); [| lia].
      destruct (Z.le_gt_cases d 2) as [|G]; [assumption|].
      assert (2 ^ 2 <= 2 ^ (d - 1)) by (apply Z.pow_le_mono_r; lia).
      change (2 ^ 2) with 4 in *. lia.
    + destruct (Z.ltb_spec 2 (Z.pos p)) as [L|]; [| reflexivity].
      assert (d = 1) by lia. replace d with 1 in * by lia.
      change (2 ^ 1) with 2 in Hhi. lia.
  - pose proof (digits2_bounds p) as [Hlo _].
    assert (L : 2 < Z.pos p).
    { assert (2 ^ 2 <= 2 ^ (Z.pos (digits2_pos p) - 1))
        by (apply Z.pow_le_mono_r; lia).
      change (2 ^ 2) with 4 in *. lia. }
    apply Z.ltb_lt in L. rewrite L.
    destruct (ofZ_large p ltac:(lia)) as [-> | (m & e & -> & He)]; [reflexivity|].
    cbn [SFcompare].
    destruct (Z.compare_spec (-51) e); try reflexivity; lia.
Qed.

(** The bit length is determined by the bounds. *)
Lemma digits2_unique (p : positive) (j : Z) :
  2 ^ (j - 1) <= Z.pos p < 2 ^ j -> Z.pos (digits2_pos p) = j.
Proof.
  intros [Hlo Hhi]. pose proof (digits2_bounds p) as [Dlo Dhi].
  set (d := Z.pos (digits2_pos p)) in *.
  assert (Hj : 0 < j).
  { destruct (Z.lt_ge_cases 0 j) as [|G]; [assumption|].
    rewrite (Z.pow_neg_r 2 (j - 1)) in Hlo by lia.
    destruct (Z.eq_dec j 0) as [->|]; [cbn in Hhi; lia|].
    rewrite (Z.pow_neg_r 2 j) in Hhi by lia. lia. }
  destruct (Z.lt_trichotomy d j) as [L | [E | G]]; [| exact E |].
  - assert (2 ^ d <= 2 ^ (j - 1)) by (apply Z.pow_le_mono_r; lia). lia.
  - assert (2 ^ j <= 2 ^ (d - 1)) by (apply Z.pow_le_mono_r; lia). lia.
Qed.

Lemma shr_1_exact (mrs : shr_record) :
  shr_r mrs = false -> shr_s mrs = false -> 0 <= shr_m mrs ->
  shr_m mrs mod 2 = 0 ->
  shr_r (shr_1 mrs) = false /\ shr_s (shr_1 mrs) = false.
Proof.
  destruct mrs as [m r s]. cbn [shr_m shr_r shr_s]. intros -> -> H E.
  destruct m as [|[p|p|]|p]; cbn; try (split; reflexivity); try lia.
  - rewrite Pos2Z.inj_xI in E.
    rewrite Z.add_comm, Z.mul_comm, Z.mod_add in E by lia. discriminate E.
  - discriminate E.
Qed.

(** Shifting out zero bits leaves no rounding information. *)
Lemma iter_shr_1_exact (k : positive) :
  forall mrs,
    shr_r mrs = false -> shr_s mrs = false -> 0 <= shr_m mrs ->
    (2 ^ Z.pos k | shr_m mrs) ->
    shr_r (iter_pos shr_1 k mrs) = false /\ shr_s (iter_pos shr_1 k mrs) = false.
Proof.
  assert (Half : forall j m, (2 ^ Z.pos j * 2 ^ Z.pos j | m) ->
                             (2 ^ Z.pos j | m) /\ (2 ^ Z.pos j | m / 2 ^ Z.pos j)).
  { intros j m [x Hx].
    pose proof (Z.pow_pos_nonneg 2 (Z.pos j) ltac:(lia) ltac:(lia)) as Hj.
    split.
    - exists (x * 2 ^ Z.pos j). lia.
    - exists x. subst m. rewrite Z.mul_assoc, Z.div_mul by lia. reflexivity. }
  induction k as [k IH|k IH|]; intros mrs Hr Hs Hm Hd; cbn [iter_pos].
  - rewrite pow2_xI in Hd.
    assert (E : shr_m mrs mod 2 = 0).
    { destruct Hd as [x Hx]. rewrite Hx.
      replace (x * (2 * (2 ^ Z.pos k * 2 ^ Z.pos k)))
        with (x * (2 ^ Z.pos k * 2 ^ Z.pos k) * 2) by lia.
      apply Z.mod_mul. lia. }
    destruct (shr_1_exact mrs Hr Hs Hm E) as [Hr1 Hs1].
    assert (Hm1 : 0 <= shr_m (shr_1 mrs))
      by (rewrite shr_1_m by exact Hm; apply Z.div_pos; lia).
    assert (Hd1 : (2 ^ Z.pos k * 2 ^ Z.pos k | shr_m (shr_1 mrs))).
    { rewrite shr_1_m by exact Hm. destruct Hd as [x Hx]. exists x.
      rewrite Hx.
      replace (x * (2 * (2 ^ Z.pos k * 2 ^ Z.pos k)))
        with (x * (2 ^ Z.pos k * 2 ^ Z.pos k) * 2) by lia.
      now rewrite Z.div_mul by lia. }
    destruct (Half _ _ Hd1) as [Ha Hb].
    destruct (IH _ Hr1 Hs1 Hm1 Ha) as [Hr2 Hs2].
    apply IH; try assumption.
    + rewrite iter_shr_1_m by exact Hm1. apply Z.div_pos; [exact Hm1|].
      apply Z.pow_pos_nonneg; lia.
    + now rewrite iter_shr_1_m by exact Hm1.
  - rewrite pow2_xO in Hd.
    destruct (Half _ _ Hd) as [Ha Hb].
    destruct (IH _ Hr Hs Hm Ha) as [Hr2 Hs2].
    apply IH; try assumption.
    + rewrite iter_shr_1_m by exact Hm. apply Z.div_pos; [exact Hm|].
      apply Z.pow_pos_nonneg; lia.
    + now rewrite iter_shr_1_m by exact Hm.
  - apply shr_1_exact; try assumption.
    destruct Hd as [x Hx]. rewrite Hx. change (2 ^ 1) with 2. apply Z.mod_mul. lia.
Qed.

Lemma shr_fexp_aligned (m : positive) (e : Z) :
  Z.pos (digits2_pos m) = 53 -> -1074 <= e ->
  shr_fexp prec emax (Z.pos m) e loc_Exact
  = ({| shr_m := Z.pos m; shr_r := false; shr_s := false |}, e).
Proof.
  intros Hd He. unfold shr_fexp. cbn [Zdigits2]. rewrite Hd, fexp_normal by lia.
  replace (53 + e - 53 - e) with 0 by lia. reflexivity.
Qed.

Lemma pow2_pos (j : Z) : 0 <= j -> 0 < 2 ^ j.
Proof. intros H. apply Z.pow_pos_nonneg; lia. Qed.

(** An integer below [2^53], given with trailing zero bits, rounds to
    itself. *)
Lemma binary_round_exact (p : positive) (j N : Z) :
  0 <= j -> Z.pos p = N * 2 ^ j -> 0 < N < 2 ^ 53 ->
  binary_round prec emax false p (- j) = ofZ N.
Proof.
  intros Hj Hp HN. destruct N as [|pn|pn]; try lia.
  pose proof (digits2_bounds pn) as [Nlo Nhi].
  set (dN := Z.pos (digits2_pos pn)) in *.
  assert (HdN : dN <= 53).
  { destruct (Z.le_gt_cases dN 53) as [|G]; [assumption|].
    assert (2 ^ 53 <= 2 ^ (dN - 1)) by (apply Z.pow_le_mono_r; lia). lia. }
  destruct (ofZ_small pn HdN) as (m & -> & Hm & Hdm). fold dN in Hm |- *.
  pose proof (pow2_pos j Hj) as J.
  assert (Hdp : Z.pos (digits2_pos p) = dN + j).
  { apply digits2_unique. rewrite Hp. split.
    - replace (dN + j - 1) with (dN - 1 + j) by lia.
      rewrite Z.pow_add_r by lia. apply Z.mul_le_mono_nonneg_r; lia.
    - rewrite Z.pow_add_r by lia. apply Z.mul_lt_mono_pos_r; lia. }
  unfold binary_round. rewrite Hdp.
  replace (dN + j + - j) with dN by lia. rewrite fexp_normal by lia.
  unfold shl_align.
  destruct (dN - 53 - - j) as [|diff|diff] eqn:E.
  - (* already aligned *)
    assert (p = m).
    { apply Pos2Z.inj. rewrite Hp, Hm. f_equal. f_equal. lia. }
    subst p. replace (- j) with (dN - 53) by lia.
    apply binary_round_aux_aligned; [exact Hdm | lia].
  - (* trailing zeros are shifted out *)
    assert (Hpm : Z.pos p = Z.pos m * 2 ^ Z.pos diff).
    { rewrite Hp, Hm, <- Z.mul_assoc, <- Z.pow_add_r by lia.
      f_equal. f_equal. lia. }
    pose proof (pow2_pos (Z.pos diff) ltac:(lia)) as D.
    unfold binary_round_aux.
    assert (S1 : shr_fexp prec emax (Z.pos p) (- j) loc_Exact
                 = ({| shr_m := Z.pos m; shr_r := false; shr_s := false |}, dN - 53)).
    { unfold shr_fexp. cbn [Zdigits2 shr_record_of_loc]. rewrite Hdp.
      replace (dN + j + - j) with dN by lia. rewrite fexp_normal by lia.
      rewrite E. cbn [shr]. f_equal; [| lia].
      set (r0 := {| shr_m := Z.pos p; shr_r := false; shr_s := false |}).
      pose proof (iter_shr_1_m diff r0 ltac:(cbn; lia)) as Hq.
      destruct (iter_shr_1_exact diff r0 eq_refl eq_refl ltac:(cbn; lia)) as [Hr Hs].
      { cbn [r0 shr_m]. exists (Z.pos m). exact Hpm. }
      cbn [r0 shr_m] in Hq. rewrite Hpm, Z.div_mul in Hq by lia.
      destruct (iter_pos shr_1 diff r0) as [m' r' s']. cbn in Hq, Hr, Hs.
      now subst. }
    rewrite S1. cbn [shr_m loc_of_shr_record round_nearest_even].
    rewrite (shr_fexp_aligned m (dN - 53) Hdm) by lia. cbn [shr_m].
    destruct (Z.leb_spec (dN - 53) (emax - prec)); [reflexivity|].
    unfold emax, prec in *. lia.
  - (* the mantissa is shifted left to 53 bits *)
    assert (Pos.iter xO p diff = m).
    { apply Pos2Z.inj. rewrite iter_xO_value, Hp, Hm, <- Z.mul_assoc.
      rewrite <- Z.pow_add_r by lia. f_equal. f_equal. lia. }
    rewrite H. apply binary_round_aux_aligned; [exact Hdm | lia].
Qed.

Lemma binary_round_integer (p : positive) (e N : Z) :
  e <= 0 -> Z.pos p = N * 2 ^ (- e) -> 0 < N < 2 ^ 53 ->
  binary_round prec emax false p e = ofZ N.
Proof.
  intros He Hp HN. rewrite <- (Z.opp_involutive e) at 1.
  apply binary_round_exact; [lia | exact Hp | exact HN].
Qed.

Lemma shl_align_value (m : positive) (e ez : Z) :
  ez <= e -> Z.pos (fst (shl_align m e ez)) = Z.pos m * 2 ^ (e - ez).
Proof.
  intros H. unfold shl_align.
  destruct (ez - e) as [|d|d] eqn:E; try lia; cbn [fst].
  - replace (e - ez) with 0 by lia. lia.
  - rewrite iter_xO_value. f_equal. f_equal. lia.
Qed.

(** A positive integer below [2^53] as a number: mantissa and exponent. *)
Lemma ofZ_finite (n : Z) :
  0 < n < 2 ^ 53 ->
  exists m e,
    ofZ n = S754_finite false m e /\ -52 <= e <= 0 /\ Z.pos m = n * 2 ^ (- e)
    /\ Z.pos (digits2_pos m) = 53.
Proof.
  intros Hn. destruct n as [|p|p]; try lia.
  pose proof (digits2_bounds p) as [Lo Hi].
  assert (Hd : Z.pos (digits2_pos p) <= 53).
  { destruct (Z.le_gt_cases (Z.pos (digits2_pos p)) 53) as [|G]; [assumption|].
    assert (2 ^ 53 <= 2 ^ (Z.pos (digits2_pos p) - 1))
      by (apply Z.pow_le_mono_r; lia). lia. }
  destruct (ofZ_small p Hd) as (m & E & Hm & Hdm).
  exists m, (Z.pos (digits2_pos p) - 53). repeat split; try assumption; try lia.
  rewrite Hm. f_equal. f_equal. lia.
Qed.

(** Integers add and subtract exactly below [2^53]. *)
Lemma add_ofZ (a b : Z) :
  0 < a -> 0 < b -> a + b < 2 ^ 53 -> add (ofZ a) (ofZ b) = ofZ (a + b).
Proof.
  intros Ha Hb Hab.
  destruct (ofZ_finite a ltac:(lia)) as (ma & ea & -> & Hea & Hma & _).
  destruct (ofZ_finite b ltac:(lia)) as (mb & eb & -> & Heb & Hmb & _).
  unfold add, SFadd. cbn [cond_Zopp].
  set (ez := Z.min ea eb).
  rewrite <- !Pos2Z.inj_add. unfold binary_normalize.
  apply binary_round_integer; [lia | | lia].
  rewrite Pos2Z.inj_add, !shl_align_value by lia.
  rewrite Hma, Hmb, <- !Z.mul_assoc, <- !Z.pow_add_r by lia.
  replace (- ea + (ea - ez)) with (- ez) by lia.
  replace (- eb + (eb - ez)) with (- ez) by lia. lia.
Qed.

Lemma sub_ofZ (a b : Z) :
  0 < b -> b <= a -> a < 2 ^ 53 -> sub (ofZ a) (ofZ b) = ofZ (a - b).
Proof.
  intros Hb Hba Ha.
  destruct (ofZ_finite a ltac:(lia)) as (ma & ea & -> & Hea & Hma & _).
  destruct (ofZ_finite b ltac:(lia)) as (mb & eb & -> & Heb & Hmb & _).
  unfold sub, SFsub. cbn [cond_Zopp].
  set (ez := Z.min ea eb).
  assert (V : Z.pos (fst (shl_align ma ea ez)) - Z.pos (fst (shl_align mb eb ez))
              = (a - b) * 2 ^ (- ez)).
  { rewrite !shl_align_value by lia.
    rewrite Hma, Hmb, <- !Z.mul_assoc, <- !Z.pow_add_r by lia.
    replace (- ea + (ea - ez)) with (- ez) by lia.
    replace (- eb + (eb - ez)) with (- ez) by lia. lia. }
  pose proof (pow2_pos (- ez) ltac:(lia)) as P.
  destruct (Z.eq_dec a b) as [->|Hne].
  - rewrite V, Z.sub_diag. reflexivity.
  - destruct (Z.pos (fst (shl_align ma ea ez)) - Z.pos (fst (shl_align mb eb ez)))
      as [|q|q] eqn:E.
    + assert (0 < (a - b) * 2 ^ (- ez)) by (apply Z.mul_pos_pos; lia). lia.
    + unfold binary_normalize.
      apply binary_round_integer; [lia | exact V | lia].
    + assert (0 < (a - b) * 2 ^ (- ez)) by (apply Z.mul_pos_pos; lia). lia.
Qed.

(** Rounding a mantissa of more than 53 bits: the mantissa is divided by
    [2^k], where [k] is the number of extra bits, and the quotient is kept
    or incremented; a carry into bit 54 is shifted out. *)
Lemma binary_round_aux_shift (P : positive) (e0 : Z) :
  let k := Z.pos (digits2_pos P) - 53 in
  0 < k -> -1021 - 53 <= e0 + k -> e0 + k + 1 <= 971 ->
  exists m1 : positive,
    Z.pos P / 2 ^ k <= Z.pos m1 <= Z.pos P / 2 ^ k + 1
    /\ 2 ^ 52 <= Z.pos m1 <= 2 ^ 53
    /\ ((Z.pos m1 < 2 ^ 53
         /\ binary_round_aux prec emax false (Z.pos P) e0 loc_Exact
            = S754_finite false m1 (e0 + k))
        \/ (Z.pos m1 = 2 ^ 53
            /\ binary_round_aux prec emax false (Z.pos P) e0 loc_Exact
               = S754_finite false 4503599627370496 (e0 + k + 1))).
Proof.
  intros k Hk Hlo Hhi.
  pose proof (digits2_bounds P) as [Plo Phi].
  set (dP := Z.pos (digits2_pos P)) in *.
  pose proof (pow2_pos k ltac:(lia)) as K.
  destruct k as [|kp|kp] eqn:Ek; try lia.
  set (r0 := {| shr_m := Z.pos P; shr_r := false; shr_s := false |}).
  assert (S1 : shr_fexp prec emax (Z.pos P) e0 loc_Exact
               = (iter_pos shr_1 kp r0, e0 + Z.pos kp)).
  { unfold shr_fexp. cbn [Zdigits2 shr_record_of_loc]. fold dP.
    rewrite fexp_normal by lia.
    replace (dP + e0 - 53 - e0) with (Z.pos kp) by lia. reflexivity. }
  set (mrs := iter_pos shr_1 kp r0) in *.
  assert (Hf : shr_m mrs = Z.pos P / 2 ^ Z.pos kp)
    by (unfold mrs; rewrite iter_shr_1_m by (cbn; lia); reflexivity).
  set (f := Z.pos P / 2 ^ Z.pos kp) in *.
  assert (Fb : 2 ^ 52 <= f < 2 ^ 53).
  { unfold f. split.
    - apply Z.div_le_lower_bound; [lia|].
      rewrite <- Z.pow_add_r by lia.
      replace (Z.pos kp + 52) with (dP - 1) by lia. exact Plo.
    - apply Z.div_lt_upper_bound; [lia|].
      rewrite <- Z.pow_add_r by lia.
      replace (Z.pos kp + 53) with dP by lia. exact Phi. }
  set (m1 := round_nearest_even (shr_m mrs) (loc_of_shr_record mrs)).
  assert (H1 : f <= m1 <= f + 1).
  { unfold m1, round_nearest_even. rewrite Hf.
    destruct (loc_of_shr_record mrs) as [|[| |]]; try lia.
    destruct (Z.even f); lia. }
  assert (P52 : 2 ^ 52 = 4503599627370496) by reflexivity.
  assert (P53 : 2 ^ 53 = 9007199254740992) by reflexivity.
  destruct m1 as [|q|q] eqn:Eq; try lia.
  exists q. split; [exact H1|]. split; [lia|].
  unfold binary_round_aux. rewrite S1. fold m1. rewrite Eq.
  destruct (Z.eq_dec (Z.pos q) (2 ^ 53)) as [E53|N53].
  - right. split; [exact E53|].
    assert (q = 9007199254740992%positive) by lia. subst q.
    unfold shr_fexp. cbn [Zdigits2 shr_record_of_loc].
    change (Z.pos (digits2_pos 9007199254740992)) with 54.
    rewrite fexp_normal by lia.
    replace (54 + (e0 + Z.pos kp) - 53 - (e0 + Z.pos kp)) with 1 by lia.
    cbn [shr iter_pos shr_1 shr_m].
    destruct (Z.leb_spec (e0 + Z.pos kp + 1) (emax - prec)); [reflexivity|].
    unfold emax, prec in *. lia.
  - left. split; [lia|].
    assert (Hdq : Z.pos (digits2_pos q) = 53)
      by (apply digits2_unique; change (53 - 1) with 52; lia).
    rewrite (shr_fexp_aligned q _ Hdq) by lia. cbn [shr_m].
    destruct (Z.leb_spec (e0 + Z.pos kp) (emax - prec)); [reflexivity|].
    unfold emax, prec in *. lia.
Qed.

(** [Math.ceil] of a positive number below 1 ulp resolution. *)
Lemma Math_ceil_finite (m : positive) (e c : Z) :
  e < 0 -> 0 < c < 2 ^ 53 ->
  (c - 1) * 2 ^ (- e) < Z.pos m <= c * 2 ^ (- e) ->
  Math_ceil (S754_finite false m e) = ofZ c.
Proof.
  intros He Hc [Lo Hi]. unfold Math_ceil.
  destruct (Z.leb_spec 0 e); [lia|].
  pose proof (pow2_pos (- e) ltac:(lia)) as D.
  set (d := 2 ^ (- e)) in *.
  pose proof (Z.div_mod (Z.pos m) d ltac:(lia)) as Hdm.
  pose proof (Z.mod_pos_bound (Z.pos m) d D) as Hr.
  fold (ofZ (if Z.pos m mod d =? 0 then Z.pos m / d else Z.pos m / d + 1)).
  f_equal.
  destruct (Z.eqb_spec (Z.pos m mod d) 0) as [E|E]; nia.
Qed.

Lemma ceilDiv_spec (a b : Z) :
  0 < b -> b * (ceilDiv a b - 1) < a <= b * ceilDiv a b.
Proof.
  intros Hb. unfold ceilDiv.
  pose proof (Z.div_mod (a + b - 1) b ltac:(lia)) as Hdm.
  pose proof (Z.mod_pos_bound (a + b - 1) b Hb) as Hm.
  lia.
Qed.

(** [Math.ceil(n * 0.7)] is the integer ceiling of [7n/10], for week
    counts below [2^48]. *)
Lemma ceil_mul_0_7 (n : Z) :
  0 < n < 2 ^ 48 ->
  Math_ceil (mul (ofZ n) lit_0_7) = ofZ (ceilDiv (7 * n) 10).
Proof.
  intros Hn.
  assert (P48 : 2 ^ 48 = 281474976710656) by reflexivity.
  assert (P52 : 2 ^ 52 = 4503599627370496) by reflexivity.
  assert (P53 : 2 ^ 53 = 9007199254740992) by reflexivity.
  pose proof (ceilDiv_spec (7 * n) 10 ltac:(lia)) as Hc.
  set (c := ceilDiv (7 * n) 10) in *.
  destruct (ofZ_finite n ltac:(lia)) as (mn & en & -> & Hen & Hmn & Hdn).
  pose proof (digits2_bounds mn) as [Mlo Mhi]. rewrite Hdn in Mlo, Mhi.
  change (53 - 1) with 52 in Mlo.
  pose proof (pow2_pos (- en) ltac:(lia)) as A.
  (* the exponent of [n] is at most -5 *)
  assert (Hen5 : en <= -5).
  { destruct (Z.le_gt_cases en (-5)) as [|G]; [assumption|].
    assert (2 ^ (- en) <= 2 ^ 4) by (apply Z.pow_le_mono_r; lia).
    change (2 ^ 4) with 16 in *. nia. }
  assert (A32 : 2 ^ 5 <= 2 ^ (- en)) by (apply Z.pow_le_mono_r; lia).
  change (2 ^ 5) with 32 in A32.
  set (a := 2 ^ (- en)) in *.
  unfold mul, SFmul, lit_0_7. cbn [xorb].
  set (P := (mn * 6305039478318694)%positive).
  assert (HP : Z.pos P = n * a * 6305039478318694)
    by (unfold P; rewrite Pos2Z.inj_mul, Hmn; reflexivity).
  pose proof (digits2_bounds P) as [Plo Phi].
  set (dP := Z.pos (digits2_pos P)) in *.
  assert (HdP : 105 <= dP <= 106).
  { split.
    - destruct (Z.le_gt_cases 105 dP) as [|G]; [assumption|].
      assert (2 ^ dP <= 2 ^ 104) by (apply Z.pow_le_mono_r; lia).
      assert (2 ^ 104 = 2 ^ 52 * 2 ^ 52) by reflexivity.
      assert (2 ^ 52 * 2 ^ 52 <= Z.pos P); [| lia].
      unfold P. rewrite Pos2Z.inj_mul. apply Z.mul_le_mono_nonneg; lia.
    - destruct (Z.le_gt_cases dP 106) as [|G]; [assumption|].
      assert (2 ^ 106 <= 2 ^ (dP - 1)) by (apply Z.pow_le_mono_r; lia).
      assert (2 ^ 106 = 2 ^ 53 * 2 ^ 53) by reflexivity.
      assert (Z.pos P < 2 ^ 53 * 2 ^ 53); [| lia].
      unfold P. rewrite Pos2Z.inj_mul. apply Z.mul_lt_mono_nonneg; lia. }
  destruct (binary_round_aux_shift P (en + -53)) as (m1 & Hm1 & Hb1 & Hres);
    fold dP; try lia.
  set (k := dP - 53) in *.
  pose proof (pow2_pos k ltac:(lia)) as K.
  (* the unit of the rounded mantissa *)
  set (e1 := en + -53 + k) in *.
  assert (He1 : e1 <= en) by lia.
  pose proof (pow2_pos (- e1) ltac:(lia)) as U.
  assert (HU : 2 ^ (- e1) * 2 ^ k = 2 ^ 53 * a).
  { unfold a. rewrite <- !Z.pow_add_r by lia. f_equal. lia. }
  assert (Kle : 2 ^ k <= 2 ^ 53) by (apply Z.pow_le_mono_r; lia).
  set (u := 2 ^ (- e1)) in *.
  set (f := Z.pos P / 2 ^ k) in *.
  (* the quotient lies strictly between (c-1) u and c u *)
  assert (Fhi : f < c * u).
  { apply Z.div_lt_upper_bound; [lia|].
    replace (2 ^ k * (c * u)) with (c * (u * 2 ^ k)) by lia.
    rewrite HU, HP.
    assert (n * 6305039478318694 < c * 2 ^ 53) by lia.
    nia. }
  assert (Flo : (c - 1) * u + 1 <= f).
  { apply Z.div_le_lower_bound; [lia|].
    replace (2 ^ k * ((c - 1) * u + 1)) with ((c - 1) * (u * 2 ^ k) + 2 ^ k) by lia.
    rewrite HU, HP.
    assert ((c - 1) * 2 ^ 53 + 2 ^ 48 <= n * 6305039478318694) by lia.
    assert (2 ^ k <= 2 ^ 48 * a) by lia.
    nia. }
  assert (Hc53 : 0 < c < 2 ^ 53) by lia.
  change (Z.pos (digits2_pos P) - 53) with k in Hm1, Hres. fold f in Hm1.
  fold e1 in Hres.
  destruct Hres as [[Hlt ->] | [Heq ->]].
  - apply Math_ceil_finite; [lia | exact Hc53 |]. fold u. lia.
  - apply Math_ceil_finite; [lia | exact Hc53 |].
    replace (- (e1 + 1)) with (- e1 - 1) by lia.
    assert (Hu2 : u = 2 * 2 ^ (- e1 - 1)).
    { unfold u. rewrite <- Z.pow_succ_r by lia. f_equal. lia. }
    change (Z.pos 4503599627370496) with (2 ^ 52). nia.
Qed.

(** ** Decimal numerals *)

Lemma digitsFuel_acc (fuel : nat) :
  forall z acc, digitsFuel fuel z acc = digitsFuel fuel z [] ++ acc.
Proof.
  induction fuel as [|fuel IH]; intros z acc; cbn [digitsFuel]; [reflexivity|].
  destruct (z <=? 0); [reflexivity|].
  rewrite (IH _ (_ :: acc)), (IH _ [_]), <- app_assoc. reflexivity.
Qed.

Lemma digitsFuel_enough (f1 : nat) :
  forall f2 z acc,
    z < 2 ^ Z.of_nat f1 -> z < 2 ^ Z.of_nat f2 ->
    digitsFuel f1 z acc = digitsFuel f2 z acc.
Proof.
  induction f1 as [|f1 IH]; intros f2 z acc H1 H2.
  - change (2 ^ Z.of_nat 0) with 1 in H1.
    destruct f2 as [|f2]; [reflexivity|]. cbn [digitsFuel].
    destruct (Z.leb_spec z 0); [reflexivity | lia].
  - destruct f2 as [|f2].
    + change (2 ^ Z.of_nat 0) with 1 in H2. cbn [digitsFuel].
      destruct (Z.leb_spec z 0); [reflexivity | lia].
    + cbn [digitsFuel]. destruct (Z.leb_spec z 0) as [|Hz]; [reflexivity|].
      rewrite Nat2Z.inj_succ, Z.pow_succ_r in H1, H2 by lia.
      apply IH; apply Z.div_lt_upper_bound; lia.
Qed.

Lemma lt_pow2_log2 (z : Z) : 0 < z -> z < 2 ^ Z.of_nat (S (Z.to_nat (Z.log2 z))).
Proof.
  intros H. rewrite Nat2Z.inj_succ, Z2Nat.id by apply Z.log2_nonneg.
  apply Z.log2_spec. exact H.
Qed.

Lemma digitsFuel_S (fuel : nat) (z : Z) (acc : jsstring) :
  digitsFuel (S fuel) z acc
  = if z <=? 0 then acc
    else digitsFuel fuel (z / 10) (N.add 48 (Z.to_N (z mod 10)) :: acc).
Proof. reflexivity. Qed.

(** The last digit of a numeral. *)
Lemma decimal_step (z : Z) :
  10 <= z -> decimal z = decimal (z / 10) ++ [N.add 48 (Z.to_N (z mod 10))].
Proof.
  intros H. unfold decimal.
  assert (Hq : 0 < z / 10) by (apply Z.div_str_pos; lia).
  destruct (Z.leb_spec z 0); [lia|]. destruct (Z.leb_spec (z / 10) 0); [lia|].
  rewrite (digitsFuel_S (Z.to_nat (Z.log2 z)) z []).
  destruct (Z.leb_spec z 0); [lia|].
  rewrite digitsFuel_acc. f_equal.
  apply digitsFuel_enough; [| now apply lt_pow2_log2].
  pose proof (lt_pow2_log2 z ltac:(lia)) as L.
  rewrite Nat2Z.inj_succ, Z.pow_succ_r in L by lia.
  apply Z.div_lt_upper_bound; lia.
Qed.

Lemma decimal_digit_one (z : Z) :
  0 < z < 10 -> decimal z = [N.add 48 (Z.to_N z)].
Proof.
  intros H. unfold decimal. destruct (Z.leb_spec z 0); [lia|].
  cbn [digitsFuel]. destruct (Z.leb_spec z 0); [lia|].
  rewrite Z.mod_small, Z.div_small by lia.
  destruct (Z.to_nat (Z.log2 z)); reflexivity.
Qed.

(** Appending a zero multiplies by ten. *)
Lemma decimal_times_10 (a : Z) : 0 < a -> decimal (a * 10) = decimal a ++ [48%N].
Proof.
  intros H. rewrite decimal_step by lia.
  now rewrite Z.div_mul, Z.mod_mul by lia.
Qed.

Lemma decimal_times_pow10 (a t : Z) :
  0 < a -> 0 <= t -> decimal (a * 10 ^ t) = decimal a ++ zeros t.
Proof.
  intros Ha Ht. revert t Ht.
  apply (natlike_ind (fun t => decimal (a * 10 ^ t) = decimal a ++ zeros t)).
  - rewrite Z.mul_1_r. cbn. now rewrite app_nil_r.
  - intros t Ht IH. rewrite Z.pow_succ_r by lia.
    replace (a * (10 * 10 ^ t)) with (a * 10 ^ t * 10) by lia.
    assert (0 < 10 ^ t) by (apply Z.pow_pos_nonneg; lia).
    rewrite decimal_times_10 by nia. rewrite IH, <- app_assoc. f_equal.
    unfold zeros. rewrite Z2Nat.inj_succ by lia.
    change [48%N] with (repeat 48%N 1).
    rewrite <- repeat_app. f_equal. lia.
Qed.

(** The number of digits of a numeral. *)
Lemma decimal_length (z : Z) :
  0 < z ->
  let D := Z.of_nat (List.length (decimal z)) in
  1 <= D /\ 10 ^ (D - 1) <= z < 10 ^ D.
Proof.
  induction z as [z IH] using (well_founded_induction (Z.lt_wf 1)).
  intros Hz D.
  destruct (Z.lt_ge_cases z 10) as [Small|Big].
  - unfold D. rewrite decimal_digit_one by lia. cbn. lia.
  - unfold D. rewrite decimal_step by exact Big.
    assert (Hq : 1 <= z / 10 < z).
    { split; [apply Z.div_le_lower_bound; lia|].
      apply Z.div_lt_upper_bound; lia. }
    destruct (IH (z / 10) Hq ltac:(lia)) as [D1 [Lo Hi]].
    rewrite length_app. cbn [List.length].
    replace (Z.of_nat (List.length (decimal (z / 10)) + 1))
      with (Z.succ (Z.of_nat (List.length (decimal (z / 10))))) by lia.
    set (d := Z.of_nat (List.length (decimal (z / 10)))) in *.
    pose proof (Z.div_mod z 10 ltac:(lia)) as Hdm.
    pose proof (Z.mod_pos_bound z 10 ltac:(lia)) as Hm.
    split; [lia|].
    replace (Z.succ d - 1) with (Z.succ (d - 1)) by lia.
    rewrite !Z.pow_succ_r by lia. lia.
Qed.

(** ** Printing an integer *)

Lemma div_rem (a den r : Z) : 0 <= r < den -> (a * den + r) / den = a.
Proof.
  intros H. rewrite Z.add_comm, Z.div_add by lia. rewrite Z.div_small; lia.
Qed.

Lemma pow10_pos (p : Z) : 0 <= p -> 0 < 10 ^ p.
Proof. intros H. apply Z.pow_pos_nonneg; lia. Qed.

Section Candidate.

(** The integer [k], in units of [1/U] with [U = 2^(-q) >= 4]; the ends
    of its rounding interval are less than one unit of [k] away. *)
Variables (closed : bool) (k q L : Z).
Hypothesis Hq : q <= -2.
Let U := 2 ^ (- q).
Hypothesis HL : L = k * U - 2 \/ L = k * U - 1.

Lemma U_ge_4 : 4 <= U.
Proof.
  unfold U. change 4 with (2 ^ 2). apply Z.pow_le_mono_r; lia.
Qed.

Lemma scaleL_int (s p : Z) : 0 <= p -> scaleL s p q = s * 10 ^ p * U.
Proof.
  intros Hp. unfold scaleL, U. now rewrite !Z.max_l by lia.
Qed.

Lemma scaleR_int (N p : Z) : 0 <= p -> scaleR N p q = N.
Proof.
  intros Hp. unfold scaleR. rewrite !Z.max_r by lia. cbn. lia.
Qed.

(** No [s * 10^p] fits when [10^p] does not divide [k]. *)
Lemma candidate_none (kk p : Z) :
  0 <= p -> k mod 10 ^ p <> 0 ->
  candidate closed L (k * U) (k * U + 2) q kk (p + kk) = None.
Proof.
  intros Hp Hb. pose proof U_ge_4 as HU. pose proof (pow10_pos p Hp) as T.
  unfold candidate. replace (p + kk - kk) with p by lia.
  rewrite !scaleR_int, scaleL_int by exact Hp.
  set (den := 1 * 10 ^ p * U).
  assert (Dpos : 0 < den) by (unfold den; nia).
  pose proof (Z.div_mod k (10 ^ p) ltac:(lia)) as Hdm.
  pose proof (Z.mod_pos_bound k (10 ^ p) T) as Hm.
  set (a := k / 10 ^ p) in *. set (b := k mod 10 ^ p) in *.
  assert (KU : k * U = a * den + b * U) by (unfold den; nia).
  assert (BU : U <= b * U <= den - U) by (unfold den; nia).
  assert (Smax : (if closed then (k * U + 2) / den
                  else (k * U + 2 + den - 1) / den - 1) = a).
  { destruct closed.
    - rewrite KU. replace (a * den + b * U + 2) with (a * den + (b * U + 2)) by lia.
      apply div_rem. lia.
    - rewrite KU.
      replace (a * den + b * U + 2 + den - 1)
        with ((a + 1) * den + (b * U + 1)) by lia.
      rewrite div_rem by lia. lia. }
  assert (Smin : (if closed then (L + den - 1) / den else L / den + 1) = a + 1).
  { destruct closed, HL as [-> | ->]; rewrite KU.
    - replace (a * den + b * U - 2 + den - 1)
        with ((a + 1) * den + (b * U - 3)) by lia.
      apply div_rem. lia.
    - replace (a * den + b * U - 1 + den - 1)
        with ((a + 1) * den + (b * U - 2)) by lia.
      apply div_rem. lia.
    - replace (a * den + b * U - 2) with (a * den + (b * U - 2)) by lia.
      rewrite div_rem by lia. lia.
    - replace (a * den + b * U - 1) with (a * den + (b * U - 1)) by lia.
      rewrite div_rem by lia. lia. }
  rewrite Smax, Smin.
  destruct (Z.ltb_spec (Z.min a (10 ^ kk - 1)) (Z.max (a + 1) (10 ^ (kk - 1))));
    [reflexivity | lia].
Qed.

(** When [10^p] divides [k] and the quotient has [kk] digits, the
    quotient is the one that fits. *)
Lemma candidate_some (kk p : Z) :
  0 <= p -> k mod 10 ^ p = 0 ->
  10 ^ (kk - 1) <= k / 10 ^ p <= 10 ^ kk - 1 ->
  candidate closed L (k * U) (k * U + 2) q kk (p + kk) = Some (k / 10 ^ p).
Proof.
  intros Hp Hb Hr. pose proof U_ge_4 as HU. pose proof (pow10_pos p Hp) as T.
  unfold candidate. replace (p + kk - kk) with p by lia.
  rewrite !scaleR_int, scaleL_int by exact Hp.
  set (den := 1 * 10 ^ p * U).
  assert (Dpos : 4 <= den) by (unfold den; nia).
  pose proof (Z.div_mod k (10 ^ p) ltac:(lia)) as Hdm.
  rewrite Hb in Hdm.
  set (a := k / 10 ^ p) in *.
  assert (KU : k * U = a * den) by (unfold den; nia).
  assert (Smax : (if closed then (k * U + 2) / den
                  else (k * U + 2 + den - 1) / den - 1) = a).
  { destruct closed; rewrite KU.
    - apply div_rem. lia.
    - replace (a * den + 2 + den - 1) with ((a + 1) * den + 1) by lia.
      rewrite div_rem by lia. lia. }
  assert (Smin : (if closed then (L + den - 1) / den else L / den + 1) = a).
  { destruct closed, HL as [-> | ->]; rewrite KU.
    - replace (a * den - 2 + den - 1) with (a * den + (den - 3)) by lia.
      apply div_rem. lia.
    - replace (a * den - 1 + den - 1) with (a * den + (den - 2)) by lia.
      apply div_rem. lia.
    - replace (a * den - 2) with ((a - 1) * den + (den - 2)) by lia.
      rewrite div_rem by lia. lia.
    - replace (a * den - 1) with ((a - 1) * den + (den - 1)) by lia.
      rewrite div_rem by lia. lia. }
  rewrite Smax, Smin.
  destruct (Z.ltb_spec (Z.min a (10 ^ kk - 1)) (Z.max a (10 ^ (kk - 1)))); [lia|].
  rewrite KU, Z.div_mul, Z.mod_mul by lia.
  replace (2 * 0 ?= den) with Lt by (symmetry; apply Z.compare_lt_iff; lia).
  f_equal. lia.
Qed.

End Candidate.

(** The search for the shortest digits of an integer [k] of [D] digits
    ends at the first [kk] for which [10^(D-kk)] divides [k], and what is
    printed is the numeral of [k]. *)
Lemma shortest_integer (closed : bool) (k q L : Z) :
  0 < k -> q <= -2 ->
  L = k * 2 ^ (- q) - 2 \/ L = k * 2 ^ (- q) - 1 ->
  let U := 2 ^ (- q) in
  let D := Z.of_nat (List.length (decimal k)) in
  D <= 21 ->
  forall (fuel : nat) (kk : Z),
    1 <= kk <= D -> D - kk < Z.of_nat fuel ->
    k mod 10 ^ (D - kk + 1) <> 0 ->
    let '(s, kk', n) := shortest fuel closed L (k * U) (k * U + 2) q D kk in
    formatDigits s kk' n = decimal k.
Proof.
  intros Hk Hq HL U D HD. subst U.
  destruct (decimal_length k Hk) as [D1 [Dlo Dhi]]. fold D in D1, Dlo, Dhi.
  induction fuel as [|fuel IH]; intros kk Hkk Hfuel Hprev; [lia|].
  cbn [shortest].
  pose proof (candidate_none closed k q L Hq HL kk (D - kk + 1) ltac:(lia) Hprev)
    as C2.
  replace (D - kk + 1 + kk) with (D + 1) in C2 by lia. rewrite C2.
  pose proof (pow10_pos (D - kk) ltac:(lia)) as T.
  destruct (Z.eq_dec (k mod 10 ^ (D - kk)) 0) as [Hdiv | Hndiv].
  - assert (Hr : 10 ^ (kk - 1) <= k / 10 ^ (D - kk) <= 10 ^ kk - 1).
    { split.
      - apply Z.div_le_lower_bound; [lia|].
        rewrite <- Z.pow_add_r by lia.
        replace (D - kk + (kk - 1)) with (D - 1) by lia. exact Dlo.
      - assert (k / 10 ^ (D - kk) < 10 ^ kk); [| lia].
        apply Z.div_lt_upper_bound; [lia|].
        rewrite <- Z.pow_add_r by lia.
        replace (D - kk + kk) with D by lia. exact Dhi. }
    pose proof (candidate_some closed k q L Hq HL kk (D - kk) ltac:(lia) Hdiv Hr)
      as C1.
    replace (D - kk + kk) with D in C1 by lia. rewrite C1.
    unfold formatDigits.
    destruct (Z.leb_spec kk D); [| lia]. destruct (Z.leb_spec D 21); [| lia].
    cbn [andb].
    assert (Ha : 0 < k / 10 ^ (D - kk)).
    { pose proof (pow10_pos (kk - 1) ltac:(lia)). lia. }
    rewrite <- decimal_times_pow10 by lia. f_equal.
    pose proof (Z.div_mod k (10 ^ (D - kk)) ltac:(lia)) as Hdm.
    rewrite Hdiv in Hdm. lia.
  - pose proof (candidate_none closed k q L Hq HL kk (D - kk) ltac:(lia) Hndiv)
      as C1.
    replace (D - kk + kk) with D in C1 by lia. rewrite C1.
    assert (kk < D).
    { destruct (Z.eq_dec kk D) as [->|]; [| lia].
      rewrite Z.sub_diag in Hndiv. cbn in Hndiv. rewrite Z.mod_1_r in Hndiv. lia. }
    apply IH; [lia | lia |].
    replace (D - (kk + 1) + 1) with (D - kk) by lia. exact Hndiv.
Qed.

(** An integer up to [2^53] is printed as its decimal numeral. *)
Lemma ToString_ofZ (k : Z) : 0 <= k < 2 ^ 53 -> ToString (ofZ k) = decimal k.
Proof.
  intros Hk. destruct (Z.eq_dec k 0) as [->|Hnz]; [reflexivity|].
  destruct (ofZ_finite k ltac:(lia)) as (m & e & -> & He & Hm & Hdm).
  cbn [ToString].
  set (q := e - 2).
  pose proof (pow2_pos (- e) ltac:(lia)) as E.
  assert (HU : 2 ^ (- q) = 4 * 2 ^ (- e)).
  { unfold q. replace (- (e - 2)) with (2 + - e) by lia.
    now rewrite Z.pow_add_r by lia. }
  assert (HX : 4 * Z.pos m = k * 2 ^ (- q)) by (rewrite HU, Hm; lia).
  destruct (decimal_length k ltac:(lia)) as [D1 [Dlo Dhi]].
  set (D := Z.of_nat (List.length (decimal k))) in *.
  assert (HD : D <= 21).
  { destruct (Z.le_gt_cases D 21) as [|G]; [assumption|].
    assert (10 ^ 21 <= 10 ^ (D - 1)) by (apply Z.pow_le_mono_r; lia).
    assert (2 ^ 53 < 10 ^ 21) by reflexivity. lia. }
  assert (Mag : magnitude (4 * Z.pos m) q = D).
  { unfold magnitude. destruct (Z.leb_spec 0 q); [lia|].
    rewrite HX, Z.div_mul by (rewrite HU; lia).
    destruct (Z.leb_spec 1 k); [reflexivity | lia]. }
  rewrite Mag.
  set (L := if (Z.pos m =? 2 ^ (prec - 1)) && (emin prec emax <? e)
            then 4 * Z.pos m - 1 else 4 * Z.pos m - 2).
  assert (HL : L = k * 2 ^ (- q) - 2 \/ L = k * 2 ^ (- q) - 1).
  { unfold L. destruct (_ && _); lia. }
  assert (S1 : D - 1 < Z.of_nat 17).
  { destruct (Z.le_gt_cases D 17) as [|G]; [lia|].
    assert (10 ^ 17 <= 10 ^ (D - 1)) by (apply Z.pow_le_mono_r; lia).
    assert (2 ^ 53 < 10 ^ 17) by reflexivity. lia. }
  assert (S2 : k mod 10 ^ (D - 1 + 1) <> 0).
  { replace (D - 1 + 1) with D by lia. rewrite Z.mod_small; lia. }
  pose proof (shortest_integer (Z.even (Z.pos m)) k q L ltac:(lia) ltac:(lia) HL HD
                17 1 ltac:(lia) S1 S2) as S.
  rewrite HX. revert S. fold D.
  destruct (shortest 17 _ _ _ _ _ _ _) as [[s kk] n].
  intros S. exact S.
Qed.

(** ** Parsing the week count *)

Lemma match_digits_none (s : jsstring) :
  Forall (fun c => isDigit c = false) s -> match_digits s = None.
Proof.
  induction 1 as [|c s Hc _ IH]; [reflexivity|].
  cbn [match_digits]. now rewrite Hc.
Qed.

Lemma no_digit_weeks (duration : jsstring) :
  Forall (fun c => isDigit c = false) duration ->
  durationWeeksOf duration = ofZ 4.
Proof.
  intros H. unfold durationWeeksOf. rewrite (match_digits_none _ H).
  reflexivity.
Qed.

Lemma zero_weeks (duration ds : jsstring) (s : bool) :
  match_digits duration = Some ds -> parseInt ds = S754_zero s ->
  durationWeeksOf duration = ofZ 4.
Proof.
  intros Hm Hp. unfold durationWeeksOf. rewrite Hm. cbn [ToString_match].
  rewrite Hp. reflexivity.
Qed.

Lemma digit_cases (c : N) :
  isDigit c = true ->
  (c = 48 \/ c = 49 \/ c = 50 \/ c = 51 \/ c = 52
   \/ c = 53 \/ c = 54 \/ c = 55 \/ c = 56 \/ c = 57)%N.
Proof.
  unfold isDigit, inRange. intros H. apply andb_true_iff in H.
  destruct H as [H1 H2]. apply N.leb_le in H1, H2. lia.
Qed.

(** A run of digits, handed to [parseInt], is read in radix 10. *)
Lemma parseInt_digits (ds : jsstring) :
  ds <> [] -> forallb isDigit ds = true ->
  parseInt ds
  = match parseDigits 10 ds None with
    | None => NaN
    | Some mathInt =>
        if mathInt =? 0 then S754_zero false else ofZ mathInt
    end.
Proof.
  destruct ds as [|c ds]; [congruence|]. intros _ H.
  cbn [forallb] in H. apply andb_true_iff in H. destruct H as [Hc Hds].
  assert (Hx : match ds with d :: _ => isDigit d = true | [] => True end).
  { destruct ds as [|d ds]; [exact I|]. cbn [forallb] in Hds.
    now apply andb_true_iff in Hds. }
  unfold parseInt.
  apply digit_cases in Hc.
  repeat (destruct Hc as [-> | Hc]; [| ]); subst; cbn [trimStart isWhiteSpace];
    try reflexivity.
  destruct ds as [|d ds]; [reflexivity|].
  apply digit_cases in Hx.
  repeat (destruct Hx as [-> | Hx]; [reflexivity|]). subst d. reflexivity.
Qed.

(** A run of zeros parses to 0. *)
Lemma parseDigits_zeros (ds : jsstring) :
  Forall (fun c => c = 48%N) ds ->
  forall acc, (acc = None \/ acc = Some 0) -> ds <> [] \/ acc = Some 0 ->
  parseDigits 10 ds acc = Some 0.
Proof.
  induction 1 as [|c ds Hc _ IH]; intros acc Hacc Hne.
  - destruct Hne as [Hne | ->]; [congruence | reflexivity].
  - subst c. cbn [parseDigits]. change (digitValue 10 48) with (Some 0).
    apply IH; [right | right].
    + destruct Hacc as [-> | ->]; reflexivity.
    + destruct Hacc as [-> | ->]; reflexivity.
Qed.

Lemma parseInt_zeros (ds : jsstring) :
  ds <> [] -> Forall (fun c => c = 48%N) ds -> parseInt ds = S754_zero false.
Proof.
  intros Hne H. rewrite parseInt_digits; [| exact Hne |].
  - rewrite (parseDigits_zeros ds H None); auto.
  - clear Hne. induction H as [|c ds Hc _ IH]; [reflexivity|]. subst c. exact IH.
Qed.

(** ** Comparisons *)

Lemma SFcompare_antisym (x y : number) :
  SFcompare y x = option_map CompOpp (SFcompare x y).
Proof.
  destruct x as [s|s| |s m e], y as [s'|s'| |s' m' e']; cbn;
    try reflexivity;
    try (destruct s; reflexivity);
    try (destruct s'; reflexivity);
    try (destruct s, s'; reflexivity).
  destruct s, s'; try reflexivity;
    rewrite (Z.compare_antisym e e');
    destruct (e ?= e') eqn:E; cbn; try reflexivity;
    rewrite (Pos.compare_cont_antisym m m' Eq); cbn;
    try rewrite CompOpp_involutive; reflexivity.
Qed.

Lemma leq_not_gt (x y : number) : leq x y = true -> gt x y = false.
Proof.
  unfold leq, gt, SFleb, SFltb. rewrite (SFcompare_antisym x y).
  destruct (SFcompare x y) as [[| |]|]; cbn; congruence.
Qed.

Lemma durationWeeks_not_nan (duration : jsstring) :
  durationWeeksOf duration <> NaN.
Proof.
  unfold durationWeeksOf, or_else.
  destruct (parseInt _) as [s|s| |s m e]; cbn; discriminate.
Qed.

(** The two cases of the template's guard are exhaustive. *)
Lemma durationWeeks_le_or_gt (duration : jsstring) :
  leq (durationWeeksOf duration) (ofZ 2) = true
  \/ gt (durationWeeksOf duration) (ofZ 2) = true.
Proof.
  pose proof (durationWeeks_not_nan duration) as Hn. revert Hn.
  generalize (durationWeeksOf duration). intros w Hn.
  unfold leq, gt, SFleb, SFltb.
  rewrite (SFcompare_antisym w (ofZ 2)).
  change (ofZ 2) with (S754_finite false 4503599627370496 (-51)).
  destruct w as [s|s| |s m e]; [| | now contradiction Hn |];
    cbn -[Z.compare Pos.compare_cont].
  - destruct s; auto.
  - destruct s; auto.
  - destruct s; [auto|].
    destruct (e ?= -51); [| auto | auto].
    destruct (Pos.compare_cont Eq m 4503599627370496); auto.
Qed.

(** ** Decimal digits and their parse *)

Lemma decimal_digit (r : Z) :
  0 <= r < 10 ->
  digitValue 10 (48 + Z.to_N r) = Some r /\ isDigit (48 + Z.to_N r) = true.
Proof.
  intros H.
  assert (C : r = 0 \/ r = 1 \/ r = 2 \/ r = 3 \/ r = 4
              \/ r = 5 \/ r = 6 \/ r = 7 \/ r = 8 \/ r = 9) by lia.
  repeat (destruct C as [-> | C]; [split; reflexivity|]).
  subst r. split; reflexivity.
Qed.

Lemma digitsFuel_allDigits (fuel : nat) :
  forall z acc, 0 <= z -> forallb isDigit acc = true ->
    forallb isDigit (digitsFuel fuel z acc) = true.
Proof.
  induction fuel as [|fuel IH]; intros z acc Hz H; cbn [digitsFuel]; [exact H|].
  destruct (z <=? 0); [exact H|].
  apply IH; [apply Z.div_pos; lia|].
  cbn [forallb]. rewrite H, andb_true_r.
  apply decimal_digit. apply Z.mod_pos_bound. lia.
Qed.

Lemma digitsFuel_not_nil (fuel : nat) :
  forall z acc, acc <> [] -> digitsFuel fuel z acc <> [].
Proof.
  induction fuel as [|fuel IH]; intros z acc H; cbn [digitsFuel]; [exact H|].
  destruct (z <=? 0); [exact H|]. apply IH. discriminate.
Qed.

Lemma decimal_allDigits (z : Z) : forallb isDigit (decimal z) = true.
Proof.
  unfold decimal. destruct (z <=? 0) eqn:E; [reflexivity|].
  apply digitsFuel_allDigits; [apply Z.leb_gt in E; lia | reflexivity].
Qed.

Lemma decimal_not_nil (z : Z) : decimal z <> [].
Proof.
  unfold decimal. destruct (z <=? 0) eqn:E; [discriminate|].
  cbn [digitsFuel]. rewrite E. apply digitsFuel_not_nil. discriminate.
Qed.

Lemma parseDigits_digitsFuel (fuel : nat) :
  forall z acc, 0 <= z < 2 ^ Z.of_nat fuel ->
    parseDigits 10 (digitsFuel fuel z acc) None
    = parseDigits 10 acc (if z =? 0 then None else Some z).
Proof.
  induction fuel as [|fuel IH]; intros z acc Hz; cbn [digitsFuel].
  - change (2 ^ Z.of_nat 0) with 1 in Hz.
    replace z with 0 by lia. reflexivity.
  - destruct (z <=? 0) eqn:E.
    + apply Z.leb_le in E. replace z with 0 by lia. reflexivity.
    + apply Z.leb_gt in E.
      rewrite Nat2Z.inj_succ, Z.pow_succ_r in Hz by lia.
      assert (Hq : 0 <= z / 10 < 2 ^ Z.of_nat fuel).
      { split; [apply Z.div_pos; lia|].
        apply Z.div_lt_upper_bound; lia. }
      rewrite (IH _ _ Hq). cbn [parseDigits].
      destruct (decimal_digit (z mod 10)) as [-> _];
        [apply Z.mod_pos_bound; lia|].
      pose proof (Z.div_mod z 10 ltac:(lia)) as Hdm.
      destruct (Z.eqb_spec z 0) as [|_]; [lia|].
      destruct (Z.eqb_spec (z / 10) 0) as [Hz0|_]; do 2 f_equal; lia.
Qed.

Lemma parseDigits_decimal (n : Z) : 0 < n -> parseDigits 10 (decimal n) None = Some n.
Proof.
  intros H. unfold decimal.
  destruct (Z.leb_spec n 0) as [|_]; [lia|].
  rewrite parseDigits_digitsFuel.
  - destruct (Z.eqb_spec n 0); [lia | reflexivity].
  - rewrite Nat2Z.inj_succ, Z2Nat.id by apply Z.log2_nonneg.
    pose proof (Z.log2_spec n H). lia.
Qed.

Lemma parseInt_decimal (n : Z) : 0 < n -> parseInt (decimal n) = ofZ n.
Proof.
  intros H. rewrite parseInt_digits.
  - rewrite (parseDigits_decimal n H).
    destruct (Z.eqb_spec n 0); [lia | reflexivity].
  - apply decimal_not_nil.
  - apply decimal_allDigits.
Qed.

Lemma takeDigits_app (ds post : jsstring) :
  forallb isDigit ds = true -> noLeadingDigit post ->
  takeDigits (ds ++ post) = ds.
Proof.
  intros Hds Hpost. induction ds as [|c ds IH].
  - destruct post as [|c post]; [reflexivity|].
    cbn in *. now rewrite Hpost.
  - cbn [forallb] in Hds. apply andb_true_iff in Hds. destruct Hds as [Hc Hds].
    cbn [app takeDigits]. rewrite Hc. f_equal. now apply IH.
Qed.

Lemma match_digits_app (pre ds post : jsstring) :
  Forall (fun c => isDigit c = false) pre ->
  ds <> [] -> forallb isDigit ds = true -> noLeadingDigit post ->
  match_digits (pre ++ ds ++ post) = Some ds.
Proof.
  intros Hpre Hne Hds Hpost. induction Hpre as [|c pre Hc _ IH].
  - destruct ds as [|d ds]; [congruence|].
    pose proof (takeDigits_app _ _ Hds Hpost) as Ht.
    cbn [forallb] in Hds. apply andb_true_iff in Hds. destruct Hds as [Hd _].
    cbn [app match_digits]. rewrite Hd. f_equal. exact Ht.
  - cbn [app match_digits]. now rewrite Hc.
Qed.

(** ** The week count is an integer *)

Lemma takeDigits_allDigits (s : jsstring) : forallb isDigit (takeDigits s) = true.
Proof.
  induction s as [|c s IH]; [reflexivity|].
  cbn [takeDigits]. destruct (isDigit c) eqn:E; [| reflexivity].
  cbn [forallb]. now rewrite E, IH.
Qed.

Lemma match_digits_some (s ds : jsstring) :
  match_digits s = Some ds -> ds <> [] /\ forallb isDigit ds = true.
Proof.
  induction s as [|c s IH]; [discriminate|].
  cbn [match_digits]. destruct (isDigit c) eqn:E; [| exact IH].
  intros H. injection H as H. rewrite <- H. clear IH H.
  cbn [takeDigits]. rewrite E. split; [discriminate|].
  cbn [forallb]. now rewrite E, takeDigits_allDigits.
Qed.

Lemma parseDigits_nonneg (ds : jsstring) :
  forall acc n,
    match acc with Some a => 0 <= a | None => True end ->
    parseDigits 10 ds acc = Some n -> 0 <= n.
Proof.
  induction ds as [|c ds IH]; intros acc n Hacc H; cbn [parseDigits] in H.
  - subst acc. exact Hacc.
  - destruct (digitValue 10 c) as [v|] eqn:E.
    + refine (IH _ _ _ H). cbn beta iota.
      assert (0 <= v).
      { unfold digitValue in E.
        destruct (inRange 48 57 c) eqn:R1;
          [| destruct (inRange 97 122 c) eqn:R2;
             [| destruct (inRange 65 90 c) eqn:R3; [| discriminate]]].
        all: match type of E with
             | (if ?b then _ else _) = _ => destruct b; [| discriminate]
             end; injection E as <-.
        all: unfold inRange in *;
          match goal with
          | R : (_ && _)%bool = true |- _ =>
              apply andb_true_iff in R; destruct R as [R _];
              apply N.leb_le in R; lia
          end. }
      destruct acc as [a|]; cbv beta iota in *; lia.
    + subst acc. exact Hacc.
Qed.

(** The number [durationWeeks] is the integer [weekCount], for every
    duration. *)
Lemma durationWeeks_weekCount (duration : jsstring) :
  durationWeeksOf duration = ofZ (weekCount duration) /\ 1 <= weekCount duration.
Proof.
  unfold durationWeeksOf, weekCount.
  destruct (match_digits duration) as [ds|] eqn:E; [| split; [reflexivity | lia]].
  cbn [ToString_match].
  destruct (match_digits_some _ _ E) as [Hne Hds].
  rewrite (parseInt_digits ds Hne Hds).
  destruct (parseDigits 10 ds None) as [n|] eqn:P; [| split; [reflexivity | lia]].
  pose proof (parseDigits_nonneg ds None n I P) as Hn.
  destruct (Z.eqb_spec n 0) as [|Hz]; [split; [reflexivity | lia]|].
  split; [| lia].
  unfold or_else. now rewrite ofZ_truthy by lia.
Qed.

Lemma weekCount_no_digit (duration : jsstring) :
  Forall (fun c => isDigit c = false) duration -> weekCount duration = 4.
Proof. intros H. unfold weekCount. now rewrite (match_digits_none _ H). Qed.

(** The week count of a duration whose first run of digits is the
    numeral of [n >= 1] is [n]. *)
Lemma weekCount_numeral (pre post : jsstring) (n : Z) :
  Forall (fun c => isDigit c = false) pre -> noLeadingDigit post -> 0 < n ->
  weekCount (pre ++ decimal n ++ post) = n.
Proof.
  intros Hpre Hpost Hn. unfold weekCount.
  rewrite (match_digits_app pre (decimal n) post Hpre (decimal_not_nil n)
             (decimal_allDigits n) Hpost).
  rewrite (parseDigits_decimal n Hn).
  destruct (Z.eqb_spec n 0); [lia | reflexivity].
Qed.

(** The template's guard on the integer week count. *)
Lemma weekCount_guard (duration : jsstring) :
  gt (durationWeeksOf duration) (ofZ 2) = (2 <? weekCount duration).
Proof.
  destruct (durationWeeks_weekCount duration) as [-> H].
  apply ofZ_gt_2. lia.
Qed.

(** For a week count below [2^48] the numbers the template computes are
    the integers [ceil (7n/10)], [ceil (7n/10) + 1] and [n - 1], and they
    are printed in decimal. *)
Lemma phase_numbers_exact (n : Z) :
  0 < n < 2 ^ 48 ->
  let w := ofZ n in
  let c := Math_ceil (mul w lit_0_7) in
  let k := ceilDiv (7 * n) 10 in
  ToString c = decimal k
  /\ ToString (add c (ofZ 1)) = decimal (k + 1)
  /\ ToString (sub w (ofZ 1)) = decimal (n - 1).
Proof.
  intros Hn w c k.
  assert (P48 : 2 ^ 48 = 281474976710656) by reflexivity.
  assert (P53 : 2 ^ 53 = 9007199254740992) by reflexivity.
  pose proof (ceilDiv_spec (7 * n) 10 ltac:(lia)) as Hk. fold k in Hk.
  assert (Hc : c = ofZ k) by (apply ceil_mul_0_7; exact Hn).
  rewrite Hc. split; [| split].
  - apply ToString_ofZ. lia.
  - rewrite add_ofZ by lia. apply ToString_ofZ. lia.
  - unfold w. rewrite sub_ofZ by lia. apply ToString_ofZ. lia.
Qed.

(** Beyond that bound the product [n * 0.7] is rounded to a number that
    can lie below the integer under it: for [n = 2^50 + 9] the code
    computes 788129934789843, one less than [ceil (7n/10)]. *)
Remark ceil_differs_for_huge_week_counts :
  ToString (Math_ceil (mul (ofZ 1125899906842633) lit_0_7))
  = lit "788129934789843"
  /\ decimal (ceilDiv (7 * 1125899906842633) 10) = lit "788129934789844".
Proof. split; vm_compute; reflexivity. Qed.

(** A first run of digits that parses to 0 has the value 0. *)
Lemma weekCount_zero (duration ds : jsstring) (s : bool) :
  match_digits duration = Some ds -> parseInt ds = S754_zero s ->
  weekCount duration = 4.
Proof.
  intros Hm Hp. unfold weekCount. rewrite Hm.
  destruct (match_digits_some _ _ Hm) as [Hne Hds].
  rewrite (parseInt_digits ds Hne Hds) in Hp.
  destruct (parseDigits 10 ds None) as [n|] eqn:P; [| reflexivity].
  destruct (Z.eqb_spec n 0) as [|Hnz]; [reflexivity|].
  pose proof (parseDigits_nonneg ds None n I P) as Hn.
  pose proof (ofZ_truthy n ltac:(lia)) as T. rewrite Hp in T. discriminate T.
Qed.

(** ** The fallback plan *)

Ltac one_line :=
  cbn [firstn forallb];
  repeat match goal with
         | |- context [if ?b then _ else _] => destruct b
         end;
  rewrite ?oneLine_app, ?oneLine_ToString; reflexivity.

(** The entry at position [length pre] of the body is line [length pre]
    after the header, when it and the entries before it have no line
    feed. *)
Lemma bodyLine_entry (subject level duration goals : jsstring)
    (pre : list jsstring) (e : jsstring) (post : list jsstring) :
  planBody (durationWeeksOf duration) = pre ++ e :: post ->
  forallb oneLine pre = true -> oneLine e = true ->
  bodyLine subject level duration goals (List.length pre) = Some e.
Proof.
  intros E Hpre He. rewrite bodyLine_planBody, E.
  now apply nth_concat_lines.
Qed.

(** When no field contains a line feed the header occupies three lines,
    and body line [i] is line [3 + i] of the plan. *)
Lemma bodyLine_absolute (subject level duration goals : jsstring) (i : nat) :
  oneLine subject = true -> oneLine level = true ->
  oneLine duration = true -> oneLine goals = true ->
  bodyLine subject level duration goals i
  = nth_error (lines (generateFallbackPlan subject level duration goals)) (3 + i).
Proof.
  intros Hs Hl Hd Hg. unfold bodyLine.
  rewrite lines_joinLines by discriminate.
  rewrite concat_lines_oneLine; [reflexivity|].
  cbn [planHeader forallb]. rewrite !oneLine_app, Hs, Hl, Hd, Hg. reflexivity.
Qed.

Lemma phase1_line_short (subject level duration goals : jsstring) :
  let w := durationWeeksOf duration in
  leq w (ofZ 2) = true ->
  bodyLine subject level duration goals 3
  = Some (lit "Phase 1: Foundation (Week 1)").
Proof.
  intros w H. apply leq_not_gt in H.
  apply (bodyLine_entry subject level duration goals
           (firstn 3 (planBody w)) _ (skipn 4 (planBody w))).
  - unfold planBody. fold w. rewrite H. reflexivity.
  - reflexivity.
  - reflexivity.
Qed.

Lemma phase1_line_long (subject level duration goals : jsstring) :
  let w := durationWeeksOf duration in
  gt w (ofZ 2) = true ->
  bodyLine subject level duration goals 3
  = Some (lit "Phase 1: Foundation (Week 1-2)").
Proof.
  intros w H.
  apply (bodyLine_entry subject level duration goals
           (firstn 3 (planBody w)) _ (skipn 4 (planBody w))).
  - unfold planBody. fold w. rewrite H. reflexivity.
  - reflexivity.
  - reflexivity.
Qed.

(** C5.  For every week count the generator parses: when it is at most 2
    the Phase 1 line is "Phase 1: Foundation (Week 1)", with no range; when
    it is greater than 2 the line is "Phase 1: Foundation (Week 1-2)".  The
    week count is compared as the number [w] the code holds, and as the
    integer [weekCount] that number stands for. *)
Theorem phase1_week_reference (subject level duration goals : jsstring) :
  let w := durationWeeksOf duration in
  let n := weekCount duration in
  w = ofZ n
  /\ (leq w (ofZ 2) = true ->
      bodyLine subject level duration goals 3
      = Some (lit "Phase 1: Foundation (Week 1)"))
  /\ (gt w (ofZ 2) = true ->
      bodyLine subject level duration goals 3
      = Some (lit "Phase 1: Foundation (Week 1-2)"))
  /\ (n <= 2 ->
      bodyLine subject level duration goals 3
      = Some (lit "Phase 1: Foundation (Week 1)"))
  /\ (2 < n ->
      bodyLine subject level duration goals 3
      = Some (lit "Phase 1: Foundation (Week 1-2)")).
Proof.
  intros w n. pose proof (weekCount_guard duration) as G. fold w n in G.
  split; [apply durationWeeks_weekCount|].
  split; [apply phase1_line_short|]. split; [apply phase1_line_long|].
  split; intros H.
  - destruct (durationWeeks_le_or_gt duration) as [Hle | Hgt].
    + now apply phase1_line_short.
    + fold w in Hgt. rewrite G in Hgt. apply Z.ltb_lt in Hgt. lia.
  - apply phase1_line_long. fold w. rewrite G. now apply Z.ltb_lt.
Qed.

Lemma phase1_week_reference_witness :
  bodyLine Sample.subject Sample.level (lit "2 weeks") Sample.goals 3
  = Some (lit "Phase 1: Foundation (Week 1)")
  /\ bodyLine Sample.subject Sample.level (lit "12 weeks") Sample.goals 3
     = Some (lit "Phase 1: Foundation (Week 1-2)").
Proof.
  split.
  - apply (phase1_week_reference Sample.subject Sample.level (lit "2 weeks")
             Sample.goals).
    vm_compute. discriminate.
  - apply (phase1_week_reference Sample.subject Sample.level (lit "12 weeks")
             Sample.goals).
    reflexivity.
Defined.

Lemma phase2_line_long (subject level duration goals : jsstring) :
  let w := durationWeeksOf duration in
  gt w (ofZ 2) = true ->
  bodyLine subject level duration goals 9
  = Some (lit "Phase 2: Core Learning (Week 3-"
          ++ ToString (Math_ceil (mul w lit_0_7)) ++ lit ")").
Proof.
  intros w H.
  apply (bodyLine_entry subject level duration goals
           (firstn 9 (planBody w)) _ (skipn 10 (planBody w))).
  - unfold planBody. fold w. rewrite H. reflexivity.
  - unfold planBody. rewrite H. one_line.
  - one_line.
Qed.

Lemma phase2_line_short (subject level duration goals : jsstring) :
  let w := durationWeeksOf duration in
  leq w (ofZ 2) = true ->
  bodyLine subject level duration goals 9
  = Some (lit "Phase 2: Core Learning (Week 2)").
Proof.
  intros w H. apply leq_not_gt in H.
  apply (bodyLine_entry subject level duration goals
           (firstn 9 (planBody w)) _ (skipn 10 (planBody w))).
  - unfold planBody. fold w. rewrite H. reflexivity.
  - unfold planBody. rewrite H. one_line.
  - one_line.
Qed.

Lemma phase3_line (subject level duration goals : jsstring) :
  let w := durationWeeksOf duration in
  bodyLine subject level duration goals 14
  = Some (lit "Phase 3: Advanced Application (Week "
          ++ ToString (add (Math_ceil (mul w lit_0_7)) (ofZ 1))
          ++ lit "-" ++ ToString (sub w (ofZ 1)) ++ lit ")").
Proof.
  intros w.
  apply (bodyLine_entry subject level duration goals
           (firstn 14 (planBody w)) _ (skipn 15 (planBody w))).
  - reflexivity.
  - unfold planBody. one_line.
  - one_line.
Qed.

Lemma phase4_line (subject level duration goals : jsstring) :
  bodyLine subject level duration goals 19
  = Some (lit "Phase 4: Review & Mastery (Final Week)").
Proof.
  apply (bodyLine_entry subject level duration goals
           (firstn 19 (planBody (durationWeeksOf duration))) _
           (skipn 20 (planBody (durationWeeksOf duration)))).
  - reflexivity.
  - unfold planBody. one_line.
  - one_line.
Qed.

(** C6, as the code has it.  With [w] the parsed week count, and the
    numbers computed and printed as JavaScript does:
    - when [w > 2] the Phase 2 line is "Week 3-" followed by
      [Math.ceil(w * 0.7)]; when [w <= 2] it is "Week 2";
    - the Phase 3 line runs from [Math.ceil(w * 0.7) + 1] to [w - 1];
    - the Phase 4 line is "Phase 4: Review & Mastery (Final Week)".
    When the integer week count [n] is below [2^48], these numbers are the
    integers [ceil (7n/10)], [ceil (7n/10) + 1] and [n - 1], printed in
    decimal. *)
Theorem phase_lines_as_computed (subject level duration goals : jsstring) :
  let w := durationWeeksOf duration in
  let c := Math_ceil (mul w lit_0_7) in
  let n := weekCount duration in
  let k := ceilDiv (7 * n) 10 in
  (gt w (ofZ 2) = true ->
   bodyLine subject level duration goals 9
   = Some (lit "Phase 2: Core Learning (Week 3-" ++ ToString c ++ lit ")"))
  /\ (leq w (ofZ 2) = true ->
      bodyLine subject level duration goals 9
      = Some (lit "Phase 2: Core Learning (Week 2)"))
  /\ bodyLine subject level duration goals 14
     = Some (lit "Phase 3: Advanced Application (Week "
             ++ ToString (add c (ofZ 1)) ++ lit "-"
             ++ ToString (sub w (ofZ 1)) ++ lit ")")
  /\ bodyLine subject level duration goals 19
     = Some (lit "Phase 4: Review & Mastery (Final Week)")
  /\ 10 * (k - 1) < 7 * n <= 10 * k
  /\ (2 < n -> n < 2 ^ 48 ->
      bodyLine subject level duration goals 9
      = Some (lit "Phase 2: Core Learning (Week 3-" ++ decimal k ++ lit ")"))
  /\ (n <= 2 ->
      bodyLine subject level duration goals 9
      = Some (lit "Phase 2: Core Learning (Week 2)"))
  /\ (n < 2 ^ 48 ->
      bodyLine subject level duration goals 14
      = Some (lit "Phase 3: Advanced Application (Week "
              ++ decimal (k + 1) ++ lit "-" ++ decimal (n - 1) ++ lit ")")).
Proof.
  intros w c n k.
  split; [apply phase2_line_long|]. split; [apply phase2_line_short|].
  split; [apply phase3_line|]. split; [apply phase4_line|].
  split; [apply ceilDiv_spec; lia|].
  destruct (durationWeeks_weekCount duration) as [Hw H1]. fold w n in Hw, H1.
  pose proof (weekCount_guard duration) as G. fold w n in G.
  split; [| split].
  - intros H Hn.
    destruct (phase_numbers_exact n ltac:(lia)) as (Hc & _). fold k in Hc.
    rewrite <- Hc, <- Hw. apply phase2_line_long.
    fold w. rewrite G. now apply Z.ltb_lt.
  - intros H. apply phase2_line_short.
    destruct (durationWeeks_le_or_gt duration) as [Hle | Hgt]; [exact Hle|].
    fold w in Hgt. rewrite G in Hgt. apply Z.ltb_lt in Hgt. lia.
  - intros Hn.
    destruct (phase_numbers_exact n ltac:(lia)) as (_ & Hc1 & Hn1). fold k in Hc1.
    rewrite <- Hc1, <- Hn1, <- Hw. apply phase3_line.
Qed.

Lemma phase_lines_as_computed_witness :
  bodyLine Sample.subject Sample.level (lit "about 10 weeks") Sample.goals 9
  = Some (lit "Phase 2: Core Learning (Week 3-7)")
  /\ bodyLine Sample.subject Sample.level (lit "about 10 weeks") Sample.goals 14
     = Some (lit "Phase 3: Advanced Application (Week 8-9)")
  /\ bodyLine Sample.subject Sample.level (lit "2 weeks") Sample.goals 9
     = Some (lit "Phase 2: Core Learning (Week 2)").
Proof.
  pose proof (phase_lines_as_computed Sample.subject Sample.level
                (lit "about 10 weeks") Sample.goals)
    as (_ & _ & _ & _ & _ & H2 & _ & H3).
  split; [apply H2; reflexivity | split; [apply H3; reflexivity|]].
  apply (proj1 (proj2 (phase_lines_as_computed Sample.subject Sample.level
                         (lit "2 weeks") Sample.goals))).
  reflexivity.
Defined.

(** C6, as stated, fails for a week count of 1: [Math.ceil(1 * 0.7)] is 1,
    and the Phase 2 line names week 2; no text followed by "1)" is that
    line. *)
Lemma phase2_of_one_week_ends_at_two :
  durationWeeksOf (lit "1 week") = ofZ 1
  /\ ToString (Math_ceil (mul (ofZ 1) lit_0_7)) = lit "1"
  /\ bodyLine Sample.subject Sample.level (lit "1 week") Sample.goals 9
     = Some (lit "Phase 2: Core Learning (Week 2)")
  /\ ~ (exists front,
         bodyLine Sample.subject Sample.level (lit "1 week") Sample.goals 9
         = Some (front ++ ToString (Math_ceil (mul (ofZ 1) lit_0_7)) ++ lit ")")).
Proof.
  assert (L : bodyLine Sample.subject Sample.level (lit "1 week") Sample.goals 9
              = Some (lit "Phase 2: Core Learning (Week 2)"))
    by (apply phase2_line_short; reflexivity).
  split; [reflexivity|]. split; [reflexivity|]. split; [exact L|].
  intros [front H]. rewrite L in H.
  assert (E : ToString (Math_ceil (mul (ofZ 1) lit_0_7)) = lit "1")
    by (vm_compute; reflexivity).
  rewrite E in H.
  apply (f_equal (fun o => match o with Some x => rev x | None => [] end)) in H.
  cbn beta iota in H. rewrite rev_app_distr in H.
  vm_compute in H. discriminate H.
Qed.

(** C7.  For every duration that contains no digit, the week count is 4
    and the plan is the template filled in for a week count of 4. *)
Theorem no_digit_means_four_weeks (subject level duration goals : jsstring) :
  Forall (fun c => isDigit c = false) duration ->
  durationWeeksOf duration = ofZ 4
  /\ weekCount duration = 4
  /\ generateFallbackPlan subject level duration goals
     = planTemplate subject level duration goals (ofZ 4).
Proof.
  intros H. pose proof (no_digit_weeks duration H) as E.
  split; [exact E|]. split; [now apply weekCount_no_digit|].
  unfold generateFallbackPlan. now rewrite E.
Qed.

Lemma no_digit_means_four_weeks_witness :
  durationWeeksOf (lit "one month") = ofZ 4
  /\ generateFallbackPlan Sample.subject Sample.level (lit "one month") Sample.goals
     = planTemplate Sample.subject Sample.level (lit "one month") Sample.goals (ofZ 4).
Proof.
  destruct (no_digit_means_four_weeks Sample.subject Sample.level (lit "one month")
              Sample.goals ltac:(repeat constructor)) as (H1 & _ & H2).
  split; [exact H1 | exact H2].
Defined.

(** C10.  For every duration whose first run of digits parses to 0, the
    week count is 4 and the plan is the template filled in for a week
    count of 4, as it is for every duration without a digit. *)
Theorem zero_means_four_weeks (subject level duration goals ds : jsstring) (s : bool) :
  match_digits duration = Some ds -> parseInt ds = S754_zero s ->
  durationWeeksOf duration = ofZ 4
  /\ weekCount duration = 4
  /\ generateFallbackPlan subject level duration goals
     = planTemplate subject level duration goals (ofZ 4)
  /\ (forall d, Forall (fun c => isDigit c = false) d ->
        durationWeeksOf d = durationWeeksOf duration).
Proof.
  intros Hm Hp. pose proof (zero_weeks duration ds s Hm Hp) as E.
  split; [exact E|]. split; [exact (weekCount_zero duration ds s Hm Hp)|]. split.
  - unfold generateFallbackPlan. now rewrite E.
  - intros d Hd. rewrite E. now apply no_digit_weeks.
Qed.

Lemma zero_means_four_weeks_witness :
  durationWeeksOf (lit "0 weeks") = ofZ 4
  /\ generateFallbackPlan Sample.subject Sample.level (lit "0 weeks") Sample.goals
     = planTemplate Sample.subject Sample.level (lit "0 weeks") Sample.goals (ofZ 4).
Proof.
  destruct (zero_means_four_weeks Sample.subject Sample.level (lit "0 weeks")
              Sample.goals (lit "0") false eq_refl eq_refl)
    as (H1 & _ & H2 & _).
  split; [exact H1 | exact H2].
Defined.

(** A reply with [isAiGenerated] false carries the fallback plan of the
    request's fields. *)
Lemma fallback_reply_plan (svc : Services) (body : Body.t) (w : World) (r : Reply.t) :
  json (fst (post_generate_plan svc body w)) = PlanJson r ->
  Reply.isAiGenerated r = false ->
  Reply.plan r
  = generateFallbackPlan (fieldText (Body.subject body)) (fieldText (Body.level body))
      (fieldText (Body.duration body)) (fieldText (Body.goals body)).
Proof.
  unfold post_generate_plan.
  destruct (_ || _); [discriminate|].
  destruct (tryModels _ _ _ _ _ _ _ _ _) as [[[resp|] vars'] w'] eqn:E.
  - apply tryModels_returns in E.
    destruct E as (m & t & id & w0 & _ & _ & _ & -> & _).
    cbn. intros [= <-]. discriminate.
  - split_on_add svc; cbn; intros [= <-] _; reflexivity.
Qed.

(** C9.  The generator is a function of its four arguments: equal
    arguments give equal texts, code unit by code unit.  In particular its
    result does not depend on the world: two runs of the handler on the
    same request, with any services and from any worlds, that both answer
    with [isAiGenerated] false, send the same plan. *)
Theorem fallback_plan_deterministic :
  (forall subject level duration goals subject' level' duration' goals' : jsstring,
      subject = subject' -> level = level' -> duration = duration' -> goals = goals' ->
      generateFallbackPlan subject level duration goals
      = generateFallbackPlan subject' level' duration' goals')
  /\ (forall (svc1 svc2 : Services) (w1 w2 : World) (body : Body.t) (r1 r2 : Reply.t),
      json (fst (post_generate_plan svc1 body w1)) = PlanJson r1 ->
      json (fst (post_generate_plan svc2 body w2)) = PlanJson r2 ->
      Reply.isAiGenerated r1 = false -> Reply.isAiGenerated r2 = false ->
      Reply.plan r1 = Reply.plan r2).
Proof.
  split.
  - intros; subst; reflexivity.
  - intros svc1 svc2 w1 w2 body r1 r2 H1 H2 A1 A2.
    rewrite (fallback_reply_plan svc1 body w1 r1 H1 A1).
    rewrite (fallback_reply_plan svc2 body w2 r2 H2 A2).
    reflexivity.
Qed.

Lemma fallback_plan_deterministic_witness :
  let plan :=
    generateFallbackPlan Sample.subject Sample.level Sample.duration Sample.goals in
  let r1 :=
    Reply.mk true plan (Some (lit "doc-3")) (lit "fallback") false
      (Some (lit "AI service unavailable, fallback used")) None in
  let r2 :=
    Reply.mk true plan None (lit "fallback") false None
      (Some (lit "Fallback plan not saved due to DB error")) in
  json (fst (post_generate_plan Sample.modelsDown Sample.body Sample.emptyWorld))
  = PlanJson r1
  /\ json (fst (post_generate_plan Sample.allDown Sample.body
                  (snd (post_generate_plan Sample.modelsDown Sample.body
                          Sample.emptyWorld))))
     = PlanJson r2
  /\ Reply.plan r1 = Reply.plan r2.
Proof.
  intros plan r1 r2.
  assert (H1 : json (fst (post_generate_plan Sample.modelsDown Sample.body
                            Sample.emptyWorld)) = PlanJson r1)
    by (vm_compute; reflexivity).
  assert (H2 : json (fst (post_generate_plan Sample.allDown Sample.body
                            (snd (post_generate_plan Sample.modelsDown Sample.body
                                    Sample.emptyWorld)))) = PlanJson r2)
    by (vm_compute; reflexivity).
  split; [exact H1|]. split; [exact H2|].
  exact (proj2 fallback_plan_deterministic _ _ _ _ _ r1 r2 H1 H2 eq_refl eq_refl).
Defined.

(** ** What a request does to the world *)

Lemma textCalls_app (a b : list Call) : textCalls (a ++ b) = textCalls a ++ textCalls b.
Proof.
  induction a as [|[model inputs|record] a IH]; cbn; [reflexivity | | assumption].
  now rewrite IH.
Qed.

Lemma writes_app (a b : list Call) : writes (a ++ b) = writes a ++ writes b.
Proof.
  induction a as [|[model inputs|record] a IH]; cbn; [reflexivity | assumption |].
  now rewrite IH.
Qed.

Section Effects.

Variable svc : Services.
Variables subject level duration goals prompt : jsstring.

(** The loop, whatever the services answer: it calls the first [k]
    candidates, once each and in the order of the list, and attempts at
    most one write per call.  When it runs to its end it has called every
    candidate and stored nothing; when it returns, the response names the
    last candidate called and the collection has grown by the record of
    that response. *)
Lemma tryModels_effects (ms : list jsstring) :
  forall (vars : Locals) (w : World),
    exists (k : nat) (trace : list Call),
      let out := tryModels svc subject level duration goals prompt ms vars w in
      calls (snd out) = calls w ++ trace
      /\ (k <= List.length ms)%nat
      /\ textCalls trace = map (fun m => (m, prompt)) (firstn k ms)
      /\ (List.length (writes trace) <= k)%nat
      /\ match fst (fst out) with
         | None => k = List.length ms /\ studyPlans (snd out) = studyPlans w
         | Some r =>
             exists m t id,
               let generatedText := trim (replace_first_empty prompt t) in
               nth_error ms (Nat.pred k) = Some m /\ (0 < k)%nat
               /\ 100 <= strlen t
               /\ r = res_json (PlanJson
                        (Reply.mk true generatedText (Some id) m true None None))
               /\ studyPlans (snd out)
                  = studyPlans w
                    ++ [(id, PlanRecord.mk subject level duration goals generatedText m
                               PlanRecord.serverTimestamp true)]
         end.
Proof.
  induction ms as [|m ms IH]; intros vars w.
  - exists 0%nat, []. cbn. rewrite app_nil_r. repeat split; lia.
  - assert (Next : forall vars1 w1 pre,
               calls w1 = calls w ++ TextGeneration m prompt :: pre ->
               (List.length (writes pre) <= 1)%nat ->
               textCalls pre = [] ->
               studyPlans w1 = studyPlans w ->
               exists (k : nat) (trace : list Call),
                 let out := tryModels svc subject level duration goals prompt ms vars1 w1 in
                 calls (snd out) = calls w ++ trace
                 /\ (k <= List.length (m :: ms))%nat
                 /\ textCalls trace = map (fun m => (m, prompt)) (firstn k (m :: ms))
                 /\ (List.length (writes trace) <= k)%nat
                 /\ match fst (fst out) with
                    | None => k = List.length (m :: ms)
                              /\ studyPlans (snd out) = studyPlans w
                    | Some r =>
                        exists m' t id,
                          let generatedText := trim (replace_first_empty prompt t) in
                          nth_error (m :: ms) (Nat.pred k) = Some m' /\ (0 < k)%nat
                          /\ 100 <= strlen t
                          /\ r = res_json (PlanJson
                                   (Reply.mk true generatedText (Some id) m' true None None))
                          /\ studyPlans (snd out)
                             = studyPlans w
                               ++ [(id, PlanRecord.mk subject level duration goals
                                          generatedText m' PlanRecord.serverTimestamp true)]
                    end).
    { intros vars1 w1 pre Hc Hw Ht Hs.
      destruct (IH vars1 w1) as (k & trace & H). cbv zeta in H.
      destruct H as (H1 & H2 & H3 & H4 & H5).
      exists (S k), (TextGeneration m prompt :: pre ++ trace). cbv zeta.
      split; [| split; [| split; [| split]]].
      - rewrite H1, Hc, <- app_assoc. reflexivity.
      - cbn [List.length]. lia.
      - cbn [textCalls firstn map]. rewrite textCalls_app, Ht, H3. reflexivity.
      - cbn [writes]. rewrite writes_app, length_app. lia.
      - destruct (fst (fst (tryModels svc subject level duration goals prompt ms vars1 w1)))
          as [r|].
        + destruct H5 as (m' & t & id & E1 & E2 & E3 & E4 & E5).
          exists m', t, id. cbv zeta. rewrite <- Hs.
          repeat split; try assumption; try lia.
          destruct k as [|k]; [lia | exact E1].
        + destruct H5 as [E1 E2]. cbn [List.length]. rewrite <- Hs. split; [lia | exact E2]. }
    cbn [tryModels await_textGeneration].
    destruct (textGeneration svc w m prompt) as [response|e] eqn:Et.
    2:{ apply (Next _ _ []); cbn; auto. }
    destruct (acceptable response) eqn:A.
    2:{ apply (Next _ _ []); cbn; auto. }
    apply acceptable_length in A. destruct A as [t [-> Hlen]].
    cbn [generated_text]. unfold await_add.
    match goal with
    | |- context [collectionAdd svc ?w1 ?rec] =>
        destruct (collectionAdd svc w1 rec) as [id|e] eqn:Ea
    end.
    + exists 1%nat.
      eexists [TextGeneration m prompt; CollectionAdd _].
      cbn [fst snd store issue calls studyPlans]. rewrite <- app_assoc.
      split; [reflexivity|]. split; [cbn [List.length]; lia|].
      split; [reflexivity|]. split; [cbn; lia|].
      exists m, t, id. cbv zeta. repeat split; try assumption; lia.
    + eapply (Next _ _ [CollectionAdd _]); cbn; auto.
      rewrite <- app_assoc. reflexivity.
Qed.

End Effects.

Lemma allFieldsTruthy_guard (body : Body.t) :
  negb (truthy (Body.subject body)) || negb (truthy (Body.level body))
  || negb (truthy (Body.duration body)) || negb (truthy (Body.goals body))
  = negb (allFieldsTruthy body).
Proof.
  unfold allFieldsTruthy.
  destruct (truthy (Body.subject body)), (truthy (Body.level body)),
    (truthy (Body.duration body)), (truthy (Body.goals body)); reflexivity.
Qed.

(** The handler in terms of the loop: the guard, then the loop, then the
    fallback write. *)
Ltac open_handler svc body w :=
  unfold post_generate_plan; rewrite allFieldsTruthy_guard;
  destruct (allFieldsTruthy body) eqn:Valid; cbn [negb];
  [ destruct (tryModels_effects svc (fieldText (Body.subject body))
                (fieldText (Body.level body)) (fieldText (Body.duration body))
                (fieldText (Body.goals body)) (promptOfBody body) models
                {| lastError := None; modelUsed := None |} w) as (k & trace & Loop);
    cbv zeta in Loop; unfold promptOfBody in Loop;
    destruct Loop as (Calls & Bound & Texts & Writes & Result);
    destruct (tryModels svc (fieldText (Body.subject body))
                (fieldText (Body.level body)) (fieldText (Body.duration body))
                (fieldText (Body.goals body))
                (promptOf (fieldText (Body.subject body)) (fieldText (Body.level body))
                   (fieldText (Body.duration body)) (fieldText (Body.goals body)))
                models {| lastError := None; modelUsed := None |} w)
      as [[[r|] vars'] w1];
    cbn [fst snd] in Calls, Result;
    [ destruct Result as (m & t & id & Hm & Hk & Hlen & -> & Store)
    | destruct Result as [-> Store]; unfold await_add;
      match goal with
      | |- context [collectionAdd svc ?w0 ?rec] =>
          destruct (collectionAdd svc w0 rec) as [id|e] eqn:Ea
      end ]
  | ].

(** X1.  [POST /generate-plan] answers 400 with the body
    [{error: 'All fields are required'}], and leaves the world as it was,
    exactly when one of the four fields is absent or is the empty string.
    Every other request is answered with status 200 and a plan reply
    whose [success] is true, whatever the two services do: the handler
    has no other error response. *)
Theorem generate_plan_status (svc : Services) (body : Body.t) (w : World) :
  let out := post_generate_plan svc body w in
  if allFieldsTruthy body
  then statusCode (fst out) = 200
       /\ exists reply, json (fst out) = PlanJson reply /\ Reply.success reply = true
  else fst out = res_status_json 400 (ErrorJson (lit "All fields are required"))
       /\ snd out = w.
Proof.
  cbv zeta. open_handler svc body w.
  - split; [reflexivity | eexists; split; reflexivity].
  - split; [reflexivity | eexists; split; reflexivity].
  - split; [reflexivity | eexists; split; reflexivity].
  - split; reflexivity.
Qed.

(** X2.  A plan reply has one of three shapes.  An AI reply has
    [isAiGenerated] true, names one of the five candidates in [modelUsed],
    carries a [planId] and neither [message] nor [warning].  A fallback
    reply has [isAiGenerated] false, [modelUsed] "fallback" and the plan of
    [generateFallbackPlan]; it carries either a [planId] and the message
    "AI service unavailable, fallback used", or no [planId] and the warning
    "Fallback plan not saved due to DB error".  An error body is sent only
    to a request that fails the validation. *)
Theorem reply_is_ai_or_fallback (svc : Services) (body : Body.t) (w : World) :
  match json (fst (post_generate_plan svc body w)) with
  | ErrorJson _ => allFieldsTruthy body = false
  | PlanJson reply =>
      if Reply.isAiGenerated reply
      then In (Reply.modelUsed reply) models
           /\ (exists id, Reply.planId reply = Some id)
           /\ Reply.message reply = None /\ Reply.warning reply = None
      else Reply.modelUsed reply = lit "fallback"
           /\ Reply.plan reply
              = generateFallbackPlan (fieldText (Body.subject body))
                  (fieldText (Body.level body)) (fieldText (Body.duration body))
                  (fieldText (Body.goals body))
           /\ match Reply.planId reply with
              | Some _ =>
                  Reply.message reply = Some (lit "AI service unavailable, fallback used")
                  /\ Reply.warning reply = None
              | None =>
                  Reply.message reply = None
                  /\ Reply.warning reply
                     = Some (lit "Fallback plan not saved due to DB error")
              end
  end.
Proof.
  open_handler svc body w; cbn [fst json res_json res_status_json].
  - cbn [Reply.isAiGenerated Reply.modelUsed Reply.planId Reply.message Reply.warning].
    repeat split; [| now exists id].
    eapply nth_error_In. exact Hm.
  - cbn. repeat split.
  - cbn. repeat split.
  - reflexivity.
Qed.

(** X3.  A request stores at most one document and never touches the
    documents already stored.  When the reply carries a [planId], the
    collection after the request is the collection before it followed by
    one document, stored under that id, whose fields are those of the
    request and whose plan, [modelUsed] and [isAiGenerated] are those of
    the reply; when the reply carries no [planId], and when the request is
    refused, the collection is unchanged. *)
Theorem one_document_per_planId (svc : Services) (body : Body.t) (w : World) :
  let out := post_generate_plan svc body w in
  match json (fst out) with
  | PlanJson reply =>
      match Reply.planId reply with
      | Some id => studyPlans (snd out) = studyPlans w ++ [(id, recordOf body reply)]
      | None => studyPlans (snd out) = studyPlans w
      end
  | ErrorJson _ => studyPlans (snd out) = studyPlans w
  end.
Proof.
  cbv zeta. open_handler svc body w; cbn [fst snd json res_json res_status_json].
  - cbn [Reply.planId]. exact Store.
  - cbn [Reply.planId store issue studyPlans]. now rewrite Store.
  - cbn [Reply.planId store issue studyPlans]. exact Store.
  - reflexivity.
Qed.

(** X4.  The calls of a request.  The text-generation calls go to the
    first [k] of the five candidates, once each, in the order of the list
    and all with the prompt of the request; there are at most [k + 1]
    write attempts, so at most five inference calls and six writes.  An AI
    reply names the last candidate called; a fallback reply is sent only
    after all five were called; a refused request calls nothing. *)
Theorem candidates_called_in_order (svc : Services) (body : Body.t) (w : World) :
  let out := post_generate_plan svc body w in
  exists (k : nat) (trace : list Call),
    calls (snd out) = calls w ++ trace
    /\ (k <= 5)%nat
    /\ textCalls trace = map (fun m => (m, promptOfBody body)) (firstn k models)
    /\ (List.length (writes trace) <= k + 1)%nat
    /\ match json (fst out) with
       | PlanJson reply =>
           if Reply.isAiGenerated reply
           then nth_error models (Nat.pred k) = Some (Reply.modelUsed reply)
                /\ (0 < k)%nat
           else k = 5%nat
       | ErrorJson _ => trace = []
       end.
Proof.
  cbv zeta. open_handler svc body w; cbn [fst snd json res_json res_status_json].
  - exists k, trace. cbn [Reply.isAiGenerated Reply.modelUsed].
    repeat split; try assumption. lia.
  - exists 5%nat, (trace ++ [CollectionAdd
                      (PlanRecord.mk (fieldText (Body.subject body))
                         (fieldText (Body.level body)) (fieldText (Body.duration body))
                         (fieldText (Body.goals body))
                         (generateFallbackPlan (fieldText (Body.subject body))
                            (fieldText (Body.level body)) (fieldText (Body.duration body))
                            (fieldText (Body.goals body)))
                         (lit "fallback") PlanRecord.serverTimestamp false)]).
    cbn [store issue calls Reply.isAiGenerated].
    rewrite Calls, <- app_assoc, textCalls_app, writes_app, length_app, Texts.
    cbn [textCalls writes List.length]. rewrite app_nil_r.
    change (List.length models) with 5%nat in Writes.
    repeat split; try reflexivity; lia.
  - exists 5%nat, (trace ++ [CollectionAdd
                      (PlanRecord.mk (fieldText (Body.subject body))
                         (fieldText (Body.level body)) (fieldText (Body.duration body))
                         (fieldText (Body.goals body))
                         (generateFallbackPlan (fieldText (Body.subject body))
                            (fieldText (Body.level body)) (fieldText (Body.duration body))
                            (fieldText (Body.goals body)))
                         (lit "fallback") PlanRecord.serverTimestamp false)]).
    cbn [store issue calls Reply.isAiGenerated].
    rewrite Calls, <- app_assoc, textCalls_app, writes_app, length_app, Texts.
    cbn [textCalls writes List.length]. rewrite app_nil_r.
    change (List.length models) with 5%nat in Writes.
    repeat split; try reflexivity; lia.
  - exists 0%nat, []. rewrite app_nil_r. cbn [writes List.length].
    repeat split; try reflexivity; lia.
Qed.

(** ** The text of an AI plan *)

Lemma startsWith_app (p t : jsstring) : startsWith p (p ++ t) = true.
Proof.
  induction p as [|c p IH]; [reflexivity|].
  cbn [app startsWith]. now rewrite N.eqb_refl, IH.
Qed.

(** A text that begins with the pattern loses exactly that prefix. *)
Lemma replace_first_empty_prefix (p t : jsstring) :
  replace_first_empty p (p ++ t) = t.
Proof.
  pose proof (startsWith_app p t) as H.
  assert (S : skipn (List.length p) (p ++ t) = t).
  { rewrite skipn_app, skipn_all, Nat.sub_diag. reflexivity. }
  destruct (p ++ t) as [|c s]; cbn [replace_first_empty]; now rewrite H.
Qed.

(** The prompt alone is longer than the threshold of the guard. *)
Lemma prompt_length (subject level duration goals : jsstring) :
  strlen (promptOf subject level duration goals)
  = 196 + strlen subject + strlen level + strlen duration + strlen goals.
Proof.
  unfold strlen, promptOf. cbn [joinLines].
  repeat (rewrite ?length_app; cbn [List.length lit]).
  lia.
Qed.

Lemma trimStart_head (s : jsstring) (c : N) (r : jsstring) :
  trimStart s = c :: r -> isWhiteSpace c = false.
Proof.
  induction s as [|d s IH]; [discriminate|].
  cbn [trimStart]. destruct (isWhiteSpace d) eqn:E; [exact IH|].
  intros H. injection H as <- _. exact E.
Qed.

Lemma trimStart_fixed (c : N) (s : jsstring) :
  isWhiteSpace c = false -> trimStart (c :: s) = c :: s.
Proof. intros H. cbn [trimStart]. now rewrite H. Qed.

Lemma trimStart_snoc (a : jsstring) (c : N) :
  isWhiteSpace c = false -> trimStart (a ++ [c]) = trimStart a ++ [c].
Proof.
  intros H. induction a as [|d a IH]; cbn [app trimStart].
  - now rewrite H.
  - destruct (isWhiteSpace d); [exact IH | reflexivity].
Qed.

Lemma trimEnd_cons (c : N) (s : jsstring) :
  isWhiteSpace c = false -> trimEnd (c :: s) = c :: trimEnd s.
Proof.
  intros H. unfold trimEnd. cbn [rev].
  rewrite (trimStart_snoc _ _ H), rev_app_distr. reflexivity.
Qed.

(** A trimmed text neither begins nor ends with white space. *)
Lemma trim_first (s : jsstring) (c : N) (r : jsstring) :
  trim s = c :: r -> isWhiteSpace c = false.
Proof.
  unfold trim. destruct (trimStart s) as [|d u] eqn:E; [discriminate|].
  pose proof (trimStart_head _ _ _ E) as Hd.
  rewrite (trimEnd_cons _ _ Hd). intros H. injection H as <- _. exact Hd.
Qed.

Lemma trim_last (s front : jsstring) (c : N) :
  trim s = front ++ [c] -> isWhiteSpace c = false.
Proof.
  unfold trim, trimEnd. intros H.
  apply (f_equal (@rev N)) in H. rewrite rev_involutive, rev_app_distr in H.
  cbn [rev app] in H. exact (trimStart_head _ _ _ H).
Qed.

Lemma trim_fixed (s : jsstring) :
  (forall c r, s = c :: r -> isWhiteSpace c = false) ->
  (forall front c, s = front ++ [c] -> isWhiteSpace c = false) ->
  trim s = s.
Proof.
  intros First Last. unfold trim.
  assert (E : trimStart s = s).
  { destruct s as [|c r]; [reflexivity|].
    apply trimStart_fixed. now apply (First c r). }
  rewrite E. unfold trimEnd.
  destruct (rev s) as [|c u] eqn:R.
  - apply (f_equal (@rev N)) in R. rewrite rev_involutive in R. now rewrite R.
  - assert (S : s = rev u ++ [c]).
    { apply (f_equal (@rev N)) in R. now rewrite rev_involutive in R. }
    rewrite (trimStart_fixed c u (Last _ _ S)). cbn [rev]. now rewrite S.
Qed.

Lemma trim_idempotent (s : jsstring) : trim (trim s) = trim s.
Proof.
  apply trim_fixed.
  - intros c r. apply trim_first.
  - intros front c. apply trim_last.
Qed.

(** X5.  A candidate that echoes the prompt is always accepted, and the
    plan is what follows the echo.  For a request that carries its four
    fields: when the candidates before [m] are declined, [m] answers the
    prompt followed by any text [t], and the write of the record
    succeeds, the response is the AI reply of [m] and its plan is [t]
    trimmed.  The guard of 100 code units puts no condition on [t]: the
    prompt is longer than that, so an echo followed by nothing is
    accepted and gives an empty plan. *)
Theorem echoed_prompt_is_stripped (svc : Services)
    (subject level duration goals : jsstring)
    (pre : list jsstring) (m : jsstring) (post : list jsstring)
    (t id : jsstring) (w : World) :
  subject <> [] -> level <> [] -> duration <> [] -> goals <> [] ->
  let prompt := promptOf subject level duration goals in
  let body := Body.mk (Some subject) (Some level) (Some duration) (Some goals) in
  let w1 := afterCalls prompt pre w in
  let record :=
    PlanRecord.mk subject level duration goals (trim t) m
      PlanRecord.serverTimestamp true in
  models = pre ++ m :: post ->
  allDeclined svc prompt pre w ->
  textGeneration svc w1 m prompt = Fulfilled (Some (prompt ++ t)) ->
  collectionAdd svc (issue (TextGeneration m prompt) w1) record = Fulfilled id ->
  fst (post_generate_plan svc body w)
  = res_json (PlanJson (Reply.mk true (trim t) (Some id) m true None None)).
Proof.
  intros Hs Hl Hd Hg prompt body w1 record Hm Hpre Ht Hadd.
  unfold body. enter_handler Hs Hl Hd Hg. fold prompt. rewrite Hm.
  assert (Hlen : 100 <= strlen (prompt ++ t)).
  { unfold strlen. rewrite length_app.
    pose proof (prompt_length subject level duration goals) as P.
    fold prompt in P. unfold strlen in P. lia. }
  destruct (tryModels_first_acceptable svc subject level duration goals prompt
              pre m post (prompt ++ t) id
              {| lastError := None; modelUsed := None |} w Hpre) as [vars' E].
  - exact Ht.
  - exact Hlen.
  - rewrite replace_first_empty_prefix. exact Hadd.
  - rewrite E, replace_first_empty_prefix. reflexivity.
Qed.

Lemma echoed_prompt_is_stripped_witness :
  fst (post_generate_plan Scenario.bareEcho Sample.body Sample.emptyWorld)
  = res_json (PlanJson
      (Reply.mk true [] (Some (lit "doc-4")) Sample.mistral true None None)).
Proof.
  apply (echoed_prompt_is_stripped Scenario.bareEcho Sample.subject Sample.level
           Sample.duration Sample.goals [] Sample.mistral (tl models)
           [] (lit "doc-4") Sample.emptyWorld);
    try discriminate; try reflexivity.
  apply allDeclined_nil.
Defined.

Lemma replace_first_empty_absent (pat s : jsstring) :
  occurs pat s = false -> replace_first_empty pat s = s.
Proof.
  induction s as [|c s IH]; cbn [occurs replace_first_empty]; intros H;
    apply orb_false_iff in H; destruct H as [H1 H2]; rewrite H1; [reflexivity|].
  f_equal. now apply IH.
Qed.

(** X6.  A text in which the prompt does not occur is only trimmed.  For
    a request that carries its four fields: when the candidates before
    [m] are declined, [m] answers a text [t] of at least 100 code units
    that does not contain the prompt, and the write of the record
    succeeds, the plan of the response is [t] trimmed. *)
Theorem text_without_echo_is_only_trimmed (svc : Services)
    (subject level duration goals : jsstring)
    (pre : list jsstring) (m : jsstring) (post : list jsstring)
    (t id : jsstring) (w : World) :
  subject <> [] -> level <> [] -> duration <> [] -> goals <> [] ->
  let prompt := promptOf subject level duration goals in
  let body := Body.mk (Some subject) (Some level) (Some duration) (Some goals) in
  let w1 := afterCalls prompt pre w in
  let record :=
    PlanRecord.mk subject level duration goals (trim t) m
      PlanRecord.serverTimestamp true in
  models = pre ++ m :: post ->
  allDeclined svc prompt pre w ->
  textGeneration svc w1 m prompt = Fulfilled (Some t) ->
  100 <= strlen t ->
  occurs prompt t = false ->
  collectionAdd svc (issue (TextGeneration m prompt) w1) record = Fulfilled id ->
  fst (post_generate_plan svc body w)
  = res_json (PlanJson (Reply.mk true (trim t) (Some id) m true None None)).
Proof.
  intros Hs Hl Hd Hg prompt body w1 record Hm Hpre Ht Hlen Hno Hadd.
  unfold body. enter_handler Hs Hl Hd Hg. fold prompt. rewrite Hm.
  destruct (tryModels_first_acceptable svc subject level duration goals prompt
              pre m post t id
              {| lastError := None; modelUsed := None |} w Hpre) as [vars' E].
  - exact Ht.
  - exact Hlen.
  - rewrite (replace_first_empty_absent _ _ Hno). exact Hadd.
  - rewrite E, (replace_first_empty_absent _ _ Hno). reflexivity.
Qed.

Lemma text_without_echo_is_only_trimmed_witness :
  fst (post_generate_plan Scenario.answering Sample.body Sample.emptyWorld)
  = res_json (PlanJson
      (Reply.mk true (trim Sample.longText) (Some (lit "doc-6")) Sample.mistral
         true None None)).
Proof.
  apply (text_without_echo_is_only_trimmed Scenario.answering Sample.subject
           Sample.level Sample.duration Sample.goals [] Sample.mistral (tl models)
           Sample.longText (lit "doc-6") Sample.emptyWorld);
    try discriminate; try reflexivity.
  apply allDeclined_nil.
Defined.

(** X7.  The plan of an AI reply is a trimmed text: it neither begins
    nor ends with a white-space code unit, and trimming it again gives
    the same text. *)
Theorem ai_plan_is_trimmed (svc : Services) (body : Body.t) (w : World)
    (reply : Reply.t) :
  json (fst (post_generate_plan svc body w)) = PlanJson reply ->
  Reply.isAiGenerated reply = true ->
  trim (Reply.plan reply) = Reply.plan reply
  /\ (forall c rest, Reply.plan reply = c :: rest -> isWhiteSpace c = false)
  /\ (forall front c, Reply.plan reply = front ++ [c] -> isWhiteSpace c = false).
Proof.
  open_handler svc body w; cbn [fst json res_json res_status_json];
    intros E Ai; try discriminate E; injection E as <-; try discriminate Ai.
  cbn [Reply.plan]. split; [apply trim_idempotent|].
  split; [intros c rest; apply trim_first | intros front c; apply trim_last].
Qed.

Lemma ai_plan_is_trimmed_witness :
  trim (lit "Week 1: read.") = lit "Week 1: read."
  /\ (forall c rest, lit "Week 1: read." = c :: rest -> isWhiteSpace c = false)
  /\ (forall front c, lit "Week 1: read." = front ++ [c] -> isWhiteSpace c = false).
Proof.
  apply (ai_plan_is_trimmed Scenario.padded Sample.body Sample.emptyWorld
           (Reply.mk true (lit "Week 1: read.") (Some (lit "doc-5")) Sample.mistral
              true None None));
    reflexivity.
Defined.

(** ** More on the fallback plan *)

(** *** The first run of digits, with leading zeros *)

Lemma parseDigits_Some_0 (ds : jsstring) :
  ds <> [] -> forallb isDigit ds = true ->
  parseDigits 10 ds (Some 0) = parseDigits 10 ds None.
Proof.
  destruct ds as [|c ds]; [congruence|]. intros _ H.
  cbn [forallb] in H. apply andb_true_iff in H. destruct H as [Hc _].
  apply digit_cases in Hc.
  repeat (destruct Hc as [-> | Hc]; [reflexivity|]). subst c. reflexivity.
Qed.

Lemma parseDigits_leading_zeros (z : nat) (ds : jsstring) :
  ds <> [] -> forallb isDigit ds = true ->
  parseDigits 10 (repeat 48%N z ++ ds) None = parseDigits 10 ds None.
Proof.
  intros Hne Hds.
  assert (G : forall acc, acc = None \/ acc = Some 0 ->
                parseDigits 10 (repeat 48%N z ++ ds) acc = parseDigits 10 ds None).
  { induction z as [|z IH]; intros acc Hacc; cbn [repeat app].
    - destruct Hacc as [-> | ->]; [reflexivity | now apply parseDigits_Some_0].
    - cbn [parseDigits]. change (digitValue 10 48) with (Some 0).
      apply IH. right. destruct Hacc as [-> | ->]; reflexivity. }
  apply G. now left.
Qed.

Lemma forallb_isDigit_app (a b : jsstring) :
  forallb isDigit a = true -> forallb isDigit b = true ->
  forallb isDigit (a ++ b) = true.
Proof. intros Ha Hb. now rewrite forallb_app, Ha, Hb. Qed.

Lemma zeros_allDigits (z : Z) : forallb isDigit (zeros z) = true.
Proof.
  unfold zeros. induction (Z.to_nat z) as [|k IH]; [reflexivity | exact IH].
Qed.

(** X8.  The week count is read from the first run of digits of the
    duration, in base 10.  What stands before the run (a sign included)
    and what follows it (a decimal fraction or a second number included)
    is ignored, and so are leading zeros: for every text [pre] without a
    digit, every number of leading zeros, every integer [n >= 1] and every
    text [post] that does not begin with a digit, the week count of
    [pre ++ zeros ++ numeral of n ++ post] is [n]. *)
Theorem week_count_is_first_digit_run (pre post : jsstring) (z n : Z) :
  Forall (fun c => isDigit c = false) pre -> noLeadingDigit post -> 0 < n ->
  durationWeeksOf (pre ++ zeros z ++ decimal n ++ post) = ofZ n
  /\ weekCount (pre ++ zeros z ++ decimal n ++ post) = n.
Proof.
  intros Hpre Hpost Hn.
  assert (Hne : zeros z ++ decimal n <> []).
  { intros E. apply app_eq_nil in E. destruct E as [_ E].
    exact (decimal_not_nil n E). }
  assert (Hds : forallb isDigit (zeros z ++ decimal n) = true)
    by (apply forallb_isDigit_app; [apply zeros_allDigits | apply decimal_allDigits]).
  assert (M : match_digits (pre ++ zeros z ++ decimal n ++ post)
              = Some (zeros z ++ decimal n)).
  { rewrite (app_assoc (zeros z)). now apply match_digits_app. }
  assert (P : parseDigits 10 (zeros z ++ decimal n) None = Some n).
  { unfold zeros.
    rewrite parseDigits_leading_zeros
      by (try apply decimal_not_nil; apply decimal_allDigits).
    now apply parseDigits_decimal. }
  assert (W : weekCount (pre ++ zeros z ++ decimal n ++ post) = n).
  { unfold weekCount. rewrite M, P.
    destruct (Z.eqb_spec n 0); [lia | reflexivity]. }
  split; [| exact W].
  destruct (durationWeeks_weekCount (pre ++ zeros z ++ decimal n ++ post)) as [-> _].
  now rewrite W.
Qed.

Lemma week_count_is_first_digit_run_witness :
  durationWeeksOf (lit "about -007.5 to 9 weeks") = ofZ 7
  /\ weekCount (lit "about -007.5 to 9 weeks") = 7.
Proof.
  apply (week_count_is_first_digit_run (lit "about -") (lit ".5 to 9 weeks") 2 7).
  - repeat constructor.
  - reflexivity.
  - lia.
Defined.

(** *** Comparing integers as numbers *)

(** [a > b] on the numbers of two positive integers, the second below
    [2^53], is the comparison of the integers. *)
Lemma ofZ_gt (a b : Z) :
  0 < a -> 0 < b < 2 ^ 53 -> gt (ofZ a) (ofZ b) = (b <? a).
Proof.
  intros Ha Hb.
  destruct a as [|p|p]; try lia. destruct b as [|q|q]; try lia.
  pose proof (digits2_bounds p) as [Plo Phi].
  pose proof (digits2_bounds q) as [Qlo Qhi].
  assert (Hdq : Z.pos (digits2_pos q) <= 53).
  { destruct (Z.le_gt_cases (Z.pos (digits2_pos q)) 53) as [|G]; [assumption|].
    assert (2 ^ 53 <= 2 ^ (Z.pos (digits2_pos q) - 1))
      by (apply Z.pow_le_mono_r; lia). lia. }
  destruct (ofZ_small q Hdq) as (mq & -> & Hmq & _).
  set (dq := Z.pos (digits2_pos q)) in *.
  unfold gt, SFltb.
  destruct (Z.le_gt_cases (Z.pos (digits2_pos p)) 53) as [H|H].
  - destruct (ofZ_small p H) as (mp & -> & Hmp & _).
    set (dp := Z.pos (digits2_pos p)) in *.
    cbn [SFcompare].
    destruct (Z.compare_spec (dq - 53) (dp - 53)) as [E|E|E].
    + replace dq with dp in * by lia.
      pose proof (Z.pow_pos_nonneg 2 (53 - dp) ltac:(lia) ltac:(lia)) as Pw.
      rewrite Pos.compare_cont_spec. cbn [Pos.switch_Eq].
      change (Pos.compare mq mp) with (Z.compare (Z.pos mq) (Z.pos mp)).
      rewrite Hmq, Hmp.
      destruct (Z.compare_spec (Z.pos q * 2 ^ (53 - dp)) (Z.pos p * 2 ^ (53 - dp)))
        as [C|C|C];
        destruct (Z.ltb_spec (Z.pos q) (Z.pos p)) as [L|L];
        try reflexivity; nia.
    + assert (L : Z.pos q < Z.pos p).
      { assert (2 ^ dq <= 2 ^ (dp - 1)) by (apply Z.pow_le_mono_r; lia). lia. }
      apply Z.ltb_lt in L. now rewrite L.
    + assert (L : Z.pos p <= Z.pos q).
      { assert (2 ^ dp <= 2 ^ (dq - 1)) by (apply Z.pow_le_mono_r; lia). lia. }
      apply Z.ltb_ge in L. now rewrite L.
  - assert (L : Z.pos q < Z.pos p).
    { assert (2 ^ 53 <= 2 ^ (Z.pos (digits2_pos p) - 1))
        by (apply Z.pow_le_mono_r; lia). lia. }
    apply Z.ltb_lt in L. rewrite L.
    destruct (ofZ_large p ltac:(lia)) as [-> | (m & e & -> & He)]; [reflexivity|].
    cbn [SFcompare].
    destruct (Z.compare_spec (dq - 53) e); try reflexivity; lia.
Qed.

(** The template's guards on the integer week count. *)
Lemma weekCount_guard_3 (duration : jsstring) :
  gt (durationWeeksOf duration) (ofZ 3) = (3 <? weekCount duration).
Proof.
  destruct (durationWeeks_weekCount duration) as [-> H].
  apply ofZ_gt; [lia | split; reflexivity].
Qed.

(** *** Lines of an entry that spans several lines *)

Lemma nth_concat_lines_from (pre : list jsstring) (e : jsstring)
    (post : list jsstring) (j : nat) :
  forallb oneLine pre = true ->
  nth_error (List.concat (map lines (pre ++ e :: post))) (List.length pre + j)
  = nth_error (lines e ++ List.concat (map lines post)) j.
Proof.
  intros Hpre.
  rewrite map_app, List.concat_app, (concat_lines_oneLine _ Hpre).
  cbn [map List.concat].
  rewrite nth_error_app2 by lia. f_equal. lia.
Qed.

(** X9.  The weekly milestones of the plan.  "Week 1: Foundation" and
    "Week 2: Core modules" are listed for every week count, a plan of one
    week included; "Week 3: Applications" is listed exactly when the week
    count is greater than 2 and "Week 4: Mastery" exactly when it is
    greater than 3; no week beyond the fourth is ever listed, and the
    list ends with "Final Week: Goal ready!" followed by an empty line
    and "Tips:".  The lines are those from line 32 after the header. *)
Theorem weekly_milestones (subject level duration goals : jsstring) :
  let n := weekCount duration in
  let block :=
    [lit "Week 1: Foundation"; lit "Week 2: Core modules"]
    ++ (if 2 <? n then [lit "Week 3: Applications"] else [])
    ++ (if 3 <? n then [lit "Week 4: Mastery"] else [])
    ++ [lit "Final Week: Goal ready!"; []; lit "Tips:"] in
  map (bodyLine subject level duration goals) (seq 32 (List.length block))
  = map Some block.
Proof.
  intros n block.
  pose proof (weekCount_guard duration) as G2. fold n in G2.
  pose proof (weekCount_guard_3 duration) as G3. fold n in G3.
  set (w := durationWeeksOf duration) in *.
  assert (L : forall j,
             bodyLine subject level duration goals (32 + j)
             = nth_error (List.concat (map lines (skipn 32 (planBody w)))) j).
  { intros j. rewrite bodyLine_planBody. fold w.
    assert (E : planBody w
                = firstn 32 (planBody w) ++ lit "Week 1: Foundation"
                  :: skipn 33 (planBody w)) by reflexivity.
    rewrite E at 1.
    change (32 + j)%nat with (List.length (firstn 32 (planBody w)) + j)%nat.
    rewrite nth_concat_lines_from by (unfold planBody; one_line).
    reflexivity. }
  assert (M : forall k,
             map (bodyLine subject level duration goals) (seq 32 k)
             = map (nth_error (List.concat (map lines (skipn 32 (planBody w)))))
                 (seq 0 k)).
  { intros k. rewrite <- (seq_shift k 31), <- seq_shift, !map_map.
    do 30 rewrite <- seq_shift, map_map.
    apply map_ext. intros j. apply (L j). }
  rewrite M. unfold planBody. cbn [skipn]. rewrite G2, G3.
  subst block. destruct (2 <? n), (3 <? n); reflexivity.
Qed.

(** X10.  The week range of Phase 3.  For a week count [n] below [2^48]
    the Phase 3 line reads "Week a-b" with [a = ceil (7n/10) + 1] and
    [b = n - 1].  The range is in order ([a <= b]) exactly when [n >= 7];
    for the week counts 1 to 6 it runs backwards (a plan of one week reads
    "Week 2-0").  The range of Phase 2, printed when [n > 2], is always in
    order: [3 <= ceil (7n/10) <= n]. *)
Theorem phase3_range_in_order_from_seven_weeks
    (subject level duration goals : jsstring) :
  let n := weekCount duration in
  let k := ceilDiv (7 * n) 10 in
  n < 2 ^ 48 ->
  bodyLine subject level duration goals 14
  = Some (lit "Phase 3: Advanced Application (Week "
          ++ decimal (k + 1) ++ lit "-" ++ decimal (n - 1) ++ lit ")")
  /\ (k + 1 <= n - 1 <-> 7 <= n)
  /\ (2 < n -> 3 <= k <= n).
Proof.
  intros n k Hn.
  destruct (durationWeeks_weekCount duration) as [Hw H1]. fold n in Hw, H1.
  pose proof (ceilDiv_spec (7 * n) 10 ltac:(lia)) as Hk. fold k in Hk.
  split; [| split; [split |]]; try lia.
  destruct (phase_numbers_exact n ltac:(lia)) as (_ & Hc1 & Hn1). fold k in Hc1.
  rewrite <- Hc1, <- Hn1, <- Hw. apply phase3_line.
Qed.

Lemma phase3_range_in_order_from_seven_weeks_witness :
  bodyLine Sample.subject Sample.level (lit "6 weeks") Sample.goals 14
  = Some (lit "Phase 3: Advanced Application (Week 6-5)")
  /\ bodyLine Sample.subject Sample.level (lit "1 week") Sample.goals 14
     = Some (lit "Phase 3: Advanced Application (Week 2-0)").
Proof.
  split.
  - apply (phase3_range_in_order_from_seven_weeks Sample.subject Sample.level
             (lit "6 weeks") Sample.goals). reflexivity.
  - apply (phase3_range_in_order_from_seven_weeks Sample.subject Sample.level
             (lit "1 week") Sample.goals). reflexivity.
Defined.

(** X11.  Below its header the fallback plan depends on the week count
    alone.  The subject, the level and the goals appear in the three
    header lines and nowhere else, and the duration acts on the rest only
    through the week count read from it: two requests whose durations
    give the same week count get, line by line, the same plan after the
    header. *)
Theorem plan_body_depends_on_week_count_only
    (subject level duration goals subject' level' duration' goals' : jsstring) :
  weekCount duration = weekCount duration' ->
  forall i,
    bodyLine subject level duration goals i
    = bodyLine subject' level' duration' goals' i.
Proof.
  intros H i. rewrite !bodyLine_planBody.
  destruct (durationWeeks_weekCount duration) as [-> _].
  destruct (durationWeeks_weekCount duration') as [-> _].
  now rewrite H.
Qed.

Lemma plan_body_depends_on_week_count_only_witness :
  bodyLine Sample.subject Sample.level (lit "4 weeks") Sample.goals 14
  = bodyLine (lit "Cooking") (lit "Expert") (lit "a month") (lit "Bake bread") 14.
Proof.
  apply (plan_body_depends_on_week_count_only Sample.subject Sample.level
           (lit "4 weeks") Sample.goals (lit "Cooking") (lit "Expert")
           (lit "a month") (lit "Bake bread")).
  reflexivity.
Defined.

(** ** [GET /check-models] *)

Lemma jsstring_eqb_eq (a b : jsstring) : jsstring_eqb a b = true <-> a = b.
Proof.
  revert b. induction a as [|x a IH]; intros [|y b]; cbn [jsstring_eqb];
    try (split; [discriminate | congruence]); [split; reflexivity|].
  rewrite andb_true_iff, N.eqb_eq, IH. split.
  - intros [-> ->]. reflexivity.
  - intros E. injection E as -> ->. split; reflexivity.
Qed.

Lemma jsstring_eqb_refl (a : jsstring) : jsstring_eqb a a = true.
Proof. now apply jsstring_eqb_eq. Qed.

Lemma jsstring_eqb_neq (a b : jsstring) : a <> b -> jsstring_eqb a b = false.
Proof.
  intros H. destruct (jsstring_eqb a b) eqn:E; [| reflexivity].
  apply jsstring_eqb_eq in E. contradiction.
Qed.

(** A key that the object does not have is added last. *)
Lemma setProperty_fresh (key value : jsstring) (obj : JsObject) :
  ~ In key (map fst obj) -> setProperty key value obj = obj ++ [(key, value)].
Proof.
  induction obj as [|[k v] obj IH]; intros H; cbn [setProperty app]; [reflexivity|].
  cbn [map fst In] in H.
  rewrite jsstring_eqb_neq by tauto. f_equal. apply IH. tauto.
Qed.

Lemma getProperty_nth (obj : JsObject) (i : nat) (key value : jsstring) :
  NoDup (map fst obj) -> nth_error obj i = Some (key, value) ->
  getProperty key obj = Some value.
Proof.
  revert i. induction obj as [|[k v] obj IH]; intros i Hnd Hi.
  - destruct i; discriminate Hi.
  - cbn [map fst] in Hnd. inversion Hnd as [|? ? Hk Hrest]; subst.
    cbn [getProperty]. destruct i as [|i]; cbn [nth_error] in Hi.
    + injection Hi as -> ->. now rewrite jsstring_eqb_refl.
    + rewrite jsstring_eqb_neq; [now apply (IH i)|].
      intros ->. apply Hk.
      apply nth_error_In in Hi. now apply (in_map fst) in Hi.
Qed.

(** The loop, model by model: the object grows by one entry per model, in
    the order of the list, and each entry is the verdict on the call made
    for its model, after the calls for the models before it. *)
Lemma probeModels_report (svc : Services) (ms : list jsstring) :
  forall (obj : JsObject) (w : World),
    NoDup (map fst obj ++ ms) ->
    exists report,
      probeModels svc ms obj w = (obj ++ report, afterCalls (lit "Hello") ms w)
      /\ map fst report = ms
      /\ forall pre m post, ms = pre ++ m :: post ->
           nth_error report (List.length pre)
           = Some (m, verdict (textGeneration svc (afterCalls (lit "Hello") pre w)
                                 m (lit "Hello"))).
Proof.
  induction ms as [|m ms IH]; intros obj w Hnd.
  - exists []. cbn. rewrite app_nil_r. split; [reflexivity|]. split; [reflexivity|].
    intros [|? ?] ? ? E; discriminate E.
  - set (v := verdict (textGeneration svc w m (lit "Hello"))).
    assert (Fresh : ~ In m (map fst obj)).
    { intros Hin. apply NoDup_remove_2 in Hnd. apply Hnd.
      apply in_or_app. now left. }
    assert (Step : probeModels svc (m :: ms) obj w
                   = probeModels svc ms (obj ++ [(m, v)])
                       (issue (TextGeneration m (lit "Hello")) w)).
    { cbn [probeModels await_textGeneration]. subst v.
      destruct (textGeneration svc w m (lit "Hello")); cbn [verdict];
        now rewrite setProperty_fresh. }
    destruct (IH (obj ++ [(m, v)]) (issue (TextGeneration m (lit "Hello")) w))
      as (report & E & Keys & Entries).
    { rewrite map_app, <- app_assoc. exact Hnd. }
    exists ((m, v) :: report). rewrite Step, E, <- app_assoc.
    split; [reflexivity|]. split; [cbn [map fst]; now rewrite Keys|].
    intros [|m0 pre] m' post Hsplit; cbn [app] in Hsplit;
      injection Hsplit as <- Hms; [reflexivity|].
    cbn [List.length nth_error]. exact (Entries pre m' post Hms).
Qed.

Lemma models_NoDup : NoDup models.
Proof.
  unfold models.
  repeat (constructor; [cbn [In]; intros H;
                        repeat (destruct H as [H|H]; [discriminate H|]); exact H|]).
  constructor.
Qed.

(** X12.  [GET /check-models] answers 200 with [{timestamp, modelStatus}]
    where [modelStatus] has one entry per candidate, keyed by the model
    id, in the order of the list.  The entry of a model is "Available"
    when the call made for it resolved, whatever the response carries (a
    response without text counts), and "Unavailable: " followed by the
    message of the error when the call rejected. *)
Theorem check_models_reports_each_candidate (svc : Services) (now : jsstring)
    (w : World) :
  exists modelStatus,
    fst (get_check_models svc now w) = api_json (ModelStatusJson now modelStatus)
    /\ map fst modelStatus = models
    /\ forall pre m post, models = pre ++ m :: post ->
         getProperty m modelStatus
         = Some (verdict (textGeneration svc (afterCalls (lit "Hello") pre w)
                            m (lit "Hello"))).
Proof.
  destruct (probeModels_report svc models [] w models_NoDup)
    as (report & E & Keys & Entries).
  exists report. unfold get_check_models. rewrite E. cbn [app fst].
  split; [reflexivity|]. split; [exact Keys|].
  intros pre m post Hsplit.
  apply (getProperty_nth report (List.length pre)).
  - rewrite Keys. exact models_NoDup.
  - now apply (Entries pre m post).
Qed.

(** X13.  [GET /check-models] calls every candidate once, in the order of
    the list and with the input "Hello", whether the earlier calls
    resolved or rejected: there is no early exit.  It writes nothing: the
    collection is as it was. *)
Theorem check_models_probes_all_candidates (svc : Services) (now : jsstring)
    (w : World) :
  calls (snd (get_check_models svc now w))
  = calls w ++ map (fun m => TextGeneration m (lit "Hello")) models
  /\ studyPlans (snd (get_check_models svc now w)) = studyPlans w.
Proof.
  destruct (probeModels_report svc models [] w models_NoDup) as (report & E & _).
  unfold get_check_models. rewrite E. cbn [snd].
  split; [apply afterCalls_calls | apply afterCalls_studyPlans].
Qed.

(** ** Reading stored plans *)

Lemma find_hasId_none (id : jsstring) (docs : list (jsstring * PlanRecord.t)) :
  existsb (hasId id) docs = false -> find (hasId id) docs = None.
Proof.
  induction docs as [|d docs IH]; [reflexivity|].
  cbn [existsb find]. destruct (hasId id d); [discriminate | exact IH].
Qed.

Lemma find_hasId_some (id : jsstring) (docs : list (jsstring * PlanRecord.t)) :
  existsb (hasId id) docs = true ->
  exists data, find (hasId id) docs = Some (id, data) /\ In (id, data) docs.
Proof.
  induction docs as [|[k data] docs IH]; [discriminate|].
  cbn [existsb find]. destruct (hasId id (k, data)) eqn:E.
  - intros _. unfold hasId in E. cbn [fst] in E. apply jsstring_eqb_eq in E. subst k.
    exists data. split; [reflexivity | now left].
  - intros H. destruct (IH H) as (data' & F & Hin).
    exists data'. split; [exact F | now right].
Qed.

Lemma find_hasId_last (id : jsstring) (data : PlanRecord.t)
    (docs : list (jsstring * PlanRecord.t)) :
  existsb (hasId id) docs = false ->
  find (hasId id) (docs ++ [(id, data)]) = Some (id, data).
Proof.
  induction docs as [|d docs IH]; cbn [existsb app find].
  - intros _. unfold hasId. cbn [fst]. now rewrite jsstring_eqb_refl.
  - destruct (hasId id d); [discriminate | exact IH].
Qed.

(** X14.  [GET /study-plan/:id].  When the read of the document is
    rejected the answer is 500 with [{success: false, error}] carrying the
    message of the error as it is, also for an id that is not stored.
    When the read is served: the answer is 404 with [{success: false,
    error: 'Not found'}] exactly when no stored document has the id, and
    otherwise 200 with a stored document of that id, sent with its id and
    with [createdAt] as a date. *)
Theorem study_plan_by_id_outcomes (rd : Reads) (id : jsstring) (w : World) :
  match docRead rd w id with
  | Rejected message =>
      get_study_plan rd id w = api_status_json 500 (FailureJson message)
  | Fulfilled _ =>
      if existsb (hasId id) (studyPlans w)
      then exists data,
             In (id, data) (studyPlans w)
             /\ get_study_plan rd id w = api_json (OnePlanJson (viewOf rd id data))
      else get_study_plan rd id w
           = api_status_json 404 (FailureJson (lit "Not found"))
  end.
Proof.
  unfold get_study_plan, await_doc_get.
  destruct (docRead rd w id) as [[]|message]; [| reflexivity].
  cbn [snapshot_data snapshot_id].
  destruct (existsb (hasId id) (studyPlans w)) eqn:E.
  - destruct (find_hasId_some id _ E) as (data & F & Hin).
    exists data. rewrite F. split; [exact Hin | reflexivity].
  - now rewrite (find_hasId_none id _ E).
Qed.

(** X15.  A plan that [POST /generate-plan] stored can be fetched by the
    [planId] of the reply.  When the id the store gave to the document is
    new to the collection and the read is served, [GET /study-plan/:id]
    answers 200 with that id, the four fields of the request, and the
    plan, [modelUsed] and [isAiGenerated] of the reply. *)
Theorem generated_plan_can_be_fetched (svc : Services) (rd : Reads)
    (body : Body.t) (w : World) (reply : Reply.t) (pid : jsstring) :
  let out := post_generate_plan svc body w in
  json (fst out) = PlanJson reply ->
  Reply.planId reply = Some pid ->
  existsb (hasId pid) (studyPlans w) = false ->
  docRead rd (snd out) pid = Fulfilled tt ->
  get_study_plan rd pid (snd out)
  = api_json (OnePlanJson
      (PlanView.mk pid (fieldText (Body.subject body)) (fieldText (Body.level body))
         (fieldText (Body.duration body)) (fieldText (Body.goals body))
         (Reply.plan reply) (Reply.modelUsed reply) (toDate (commitTime rd pid))
         (Reply.isAiGenerated reply))).
Proof.
  cbv zeta. unfold get_study_plan, await_doc_get.
  open_handler svc body w; cbn [fst snd json res_json res_status_json];
    intros E Hid Fresh Hread; try discriminate E; injection E as <-;
    try discriminate Hid; cbn [Reply.planId] in Hid; injection Hid as <-;
    rewrite Hread; cbn [snapshot_data snapshot_id store issue studyPlans];
    rewrite Store, (find_hasId_last _ _ _ Fresh); reflexivity.
Qed.

Lemma generated_plan_can_be_fetched_witness :
  get_study_plan Scenario.served (lit "doc-3")
    (snd (post_generate_plan Sample.modelsDown Sample.body Sample.emptyWorld))
  = api_json (OnePlanJson
      (PlanView.mk (lit "doc-3") Sample.subject Sample.level Sample.duration
         Sample.goals
         (generateFallbackPlan Sample.subject Sample.level Sample.duration Sample.goals)
         (lit "fallback") (toDate 5) false)).
Proof.
  apply (generated_plan_can_be_fetched Sample.modelsDown Scenario.served Sample.body
           Sample.emptyWorld
           (Reply.mk true
              (generateFallbackPlan Sample.subject Sample.level Sample.duration
                 Sample.goals)
              (Some (lit "doc-3")) (lit "fallback") false
              (Some (lit "AI service unavailable, fallback used")) None)
           (lit "doc-3"));
    reflexivity.
Defined.

(** *** The query of [GET /study-plans] *)

Section Query.

Variable rd : Reads.

Lemma insertDoc_Permutation (d : jsstring * PlanRecord.t)
    (l : list (jsstring * PlanRecord.t)) :
  Permutation (insertDoc rd d l) (d :: l).
Proof.
  induction l as [|e l IH]; cbn [insertDoc]; [reflexivity|].
  destruct (listedBefore rd e d); [| reflexivity].
  rewrite IH. apply perm_swap.
Qed.

Lemma orderBy_Permutation (docs : list (jsstring * PlanRecord.t)) :
  Permutation (orderBy_createdAt_desc rd docs) docs.
Proof.
  induction docs as [|d docs IH]; [reflexivity|].
  cbn [orderBy_createdAt_desc fold_right].
  rewrite insertDoc_Permutation. now constructor.
Qed.

Lemma listedBefore_notOlder (a b : jsstring * PlanRecord.t) :
  listedBefore rd a b = true -> notOlder rd a b.
Proof.
  unfold listedBefore, notOlder. cbv zeta. intros H.
  apply orb_true_iff in H. destruct H as [H|H].
  - apply Z.ltb_lt in H. lia.
  - apply andb_true_iff in H. destruct H as [H _]. apply Z.eqb_eq in H. lia.
Qed.

Lemma not_listedBefore_notOlder (a b : jsstring * PlanRecord.t) :
  listedBefore rd a b = false -> notOlder rd b a.
Proof.
  unfold listedBefore, notOlder. cbv zeta. intros H.
  apply orb_false_iff in H. destruct H as [H _]. apply Z.ltb_ge in H. exact H.
Qed.

Lemma insertDoc_sorted (d : jsstring * PlanRecord.t)
    (l : list (jsstring * PlanRecord.t)) :
  StronglySorted (notOlder rd) l -> StronglySorted (notOlder rd) (insertDoc rd d l).
Proof.
  induction 1 as [|e l Hl IH He]; cbn [insertDoc].
  - constructor; constructor.
  - destruct (listedBefore rd e d) eqn:B.
    + constructor; [exact IH|].
      apply (Permutation_Forall (Permutation_sym (insertDoc_Permutation d l))).
      constructor; [now apply listedBefore_notOlder | exact He].
    + apply not_listedBefore_notOlder in B.
      constructor; [now constructor|].
      constructor; [exact B|].
      apply (Forall_impl (P := notOlder rd e)); [| exact He].
      intros x Hx. unfold notOlder in *. lia.
Qed.

Lemma orderBy_sorted (docs : list (jsstring * PlanRecord.t)) :
  StronglySorted (notOlder rd) (orderBy_createdAt_desc rd docs).
Proof.
  induction docs as [|d docs IH]; [constructor|].
  cbn [orderBy_createdAt_desc fold_right]. now apply insertDoc_sorted.
Qed.

Lemma sorted_app_bound (a b : list (jsstring * PlanRecord.t)) :
  StronglySorted (notOlder rd) (a ++ b) ->
  StronglySorted (notOlder rd) a
  /\ forall x y, In x a -> In y b -> notOlder rd x y.
Proof.
  induction a as [|e a IH]; cbn [app]; intros H.
  - split; [constructor | intros x y []].
  - inversion H as [|? ? Hs Hf]; subst.
    destruct (IH Hs) as [Sa Bound].
    rewrite Forall_app in Hf. destruct Hf as [Fa Fb].
    split; [now constructor|].
    intros x y [<-|Hx] Hy; [| now apply Bound].
    rewrite Forall_forall in Fb. now apply Fb.
Qed.

(** The document that is newer than every other one is listed first. *)
Lemma sorted_newest_first (x : jsstring * PlanRecord.t)
    (l : list (jsstring * PlanRecord.t)) :
  StronglySorted (notOlder rd) l -> In x l ->
  (forall y, In y l -> y = x \/ commitTime rd (fst y) < commitTime rd (fst x)) ->
  exists rest, l = x :: rest.
Proof.
  intros Hs Hin Hmax. destruct l as [|h rest]; [destruct Hin|].
  destruct (Hmax h (or_introl eq_refl)) as [-> | Hlt]; [now exists rest|].
  destruct Hin as [-> | Hin]; [now exists rest|].
  inversion Hs as [|? ? _ Hf]; subst.
  rewrite Forall_forall in Hf. specialize (Hf x Hin). unfold notOlder in Hf. lia.
Qed.

(** X16.  [GET /study-plans].  When the query is rejected the answer is
    500 with the message of the error.  When it is served the answer is
    200 with [{success: true, plans}], where: there are at most 50 plans,
    and all the stored ones when the collection has fewer than 50; the
    plans are in descending order of [createdAt]; every plan is a stored
    document, sent with its id; and a stored document is left out only
    when 50 plans are listed, none of which is older than it. *)
Theorem study_plans_lists_newest_fifty (w : World) :
  match queryRead rd w with
  | Rejected message =>
      get_study_plans rd w = api_status_json 500 (FailureJson message)
  | Fulfilled _ =>
      exists plans,
        get_study_plans rd w = api_json (PlansJson plans)
        /\ List.length plans = Nat.min 50 (List.length (studyPlans w))
        /\ StronglySorted (fun p q => createdAtTime q <= createdAtTime p) plans
        /\ (forall p, In p plans ->
              exists data, In (PlanView.id p, data) (studyPlans w)
                           /\ p = viewOf rd (PlanView.id p) data)
        /\ (forall d, In d (studyPlans w) ->
              In (viewOf rd (fst d) (snd d)) plans
              \/ (List.length plans = 50%nat
                  /\ forall p, In p plans ->
                       commitTime rd (fst d) <= createdAtTime p))
  end.
Proof.
  unfold get_study_plans, await_query_get.
  destruct (queryRead rd w) as [[]|message]; [| reflexivity].
  set (all := orderBy_createdAt_desc rd (studyPlans w)).
  set (view := fun doc : jsstring * PlanRecord.t => viewOf rd (fst doc) (snd doc)).
  pose proof (orderBy_Permutation (studyPlans w)) as Perm. fold all in Perm.
  pose proof (Permutation_length Perm) as Len.
  pose proof (orderBy_sorted (studyPlans w)) as Sorted. fold all in Sorted.
  rewrite <- (firstn_skipn 50 all) in Perm, Sorted.
  destruct (sorted_app_bound _ _ Sorted) as [SortedListed Bound].
  exists (map view (limit 50 all)). unfold limit.
  split; [reflexivity|].
  split; [now rewrite length_map, length_firstn, Len|].
  split; [| split].
  - clear -SortedListed. induction SortedListed as [|e l Hl IH He]; [constructor|].
    cbn [map]. constructor; [exact IH|].
    rewrite Forall_forall in *. intros p Hp.
    apply in_map_iff in Hp. destruct Hp as (d & <- & Hd).
    exact (He d Hd).
  - intros p Hp. apply in_map_iff in Hp. destruct Hp as ([k data] & <- & Hd).
    exists data. split; [| reflexivity].
    cbn [view viewOf PlanView.id fst].
    apply (Permutation_in _ Perm). apply in_or_app. now left.
  - intros d Hd.
    apply (Permutation_in _ (Permutation_sym Perm)) in Hd.
    apply in_app_or in Hd. destruct Hd as [Hd|Hd].
    + left. now apply (in_map view).
    + right. split.
      * rewrite length_map, length_firstn.
        destruct (Nat.le_gt_cases 50 (List.length all)) as [|Short]; [lia|].
        rewrite skipn_all2 in Hd by lia. destruct Hd.
      * intros p Hp. apply in_map_iff in Hp. destruct Hp as (e & <- & He).
        exact (Bound e d He Hd).
Qed.

End Query.

(** X17.  A plan that was just generated is the first of the list.  When
    [POST /generate-plan] stored a document and the store stamped it with
    a time later than that of every document it held, [GET /study-plans],
    when served, lists the new plan first: its id is the [planId], and
    its fields are those of the request and of the reply. *)
Theorem new_plan_is_listed_first (svc : Services) (rd : Reads)
    (body : Body.t) (w : World) (reply : Reply.t) (pid : jsstring) :
  let out := post_generate_plan svc body w in
  json (fst out) = PlanJson reply ->
  Reply.planId reply = Some pid ->
  (forall d, In d (studyPlans w) -> commitTime rd (fst d) < commitTime rd pid) ->
  queryRead rd (snd out) = Fulfilled tt ->
  exists others,
    get_study_plans rd (snd out)
    = api_json (PlansJson (viewOf rd pid (recordOf body reply) :: others)).
Proof.
  cbv zeta. intros E Hid Newest Hread.
  assert (Store : studyPlans (snd (post_generate_plan svc body w))
                  = studyPlans w ++ [(pid, recordOf body reply)]).
  { revert E Hid. clear Newest Hread.
    open_handler svc body w; cbn [fst snd json res_json res_status_json];
      intros E Hid; try discriminate E; injection E as <-;
      try discriminate Hid; cbn [Reply.planId] in Hid; injection Hid as <-;
      cbn [store issue studyPlans]; now rewrite Store. }
  unfold get_study_plans, await_query_get. rewrite Hread, Store.
  set (docs := studyPlans w ++ [(pid, recordOf body reply)]).
  destruct (sorted_newest_first rd (pid, recordOf body reply)
              (orderBy_createdAt_desc rd docs)) as [rest Hrest].
  - apply orderBy_sorted.
  - apply (Permutation_in _ (Permutation_sym (orderBy_Permutation rd docs))).
    apply in_or_app. right. now left.
  - intros y Hy. apply (Permutation_in _ (orderBy_Permutation rd docs)) in Hy.
    apply in_app_or in Hy. destruct Hy as [Hy | [<- | []]]; [right | now left].
    exact (Newest y Hy).
  - rewrite Hrest. unfold limit. cbn [firstn map fst snd]. eexists. reflexivity.
Qed.

Lemma new_plan_is_listed_first_witness :
  exists others,
    get_study_plans Scenario.served
      (snd (post_generate_plan Sample.modelsDown Sample.body Scenario.oneStored))
    = api_json (PlansJson
        (PlanView.mk (lit "doc-3") Sample.subject Sample.level Sample.duration
           Sample.goals
           (generateFallbackPlan Sample.subject Sample.level Sample.duration
              Sample.goals)
           (lit "fallback") (toDate 5) false
         :: others)).
Proof.
  apply (new_plan_is_listed_first Sample.modelsDown Scenario.served Sample.body
           Scenario.oneStored
           (Reply.mk true
              (generateFallbackPlan Sample.subject Sample.level Sample.duration
                 Sample.goals)
              (Some (lit "doc-3")) (lit "fallback") false
              (Some (lit "AI service unavailable, fallback used")) None)
           (lit "doc-3")); try reflexivity.
  intros d [<- | []]. reflexivity.
Defined.

(** ** The collection over a sequence of requests *)

Lemma post_generate_plan_appends (svc : Services) (body : Body.t) (w : World) :
  exists added,
    studyPlans (snd (post_generate_plan svc body w)) = studyPlans w ++ added
    /\ (List.length added <= 1)%nat
    /\ Forall (fun d => writtenByHandler (snd d)) added.
Proof.
  open_handler svc body w; cbn [fst snd store issue studyPlans].
  - eexists. split; [exact Store|]. split; [cbn; lia|].
    constructor; [| constructor]. split; [reflexivity|].
    cbn [snd PlanRecord.isAiGenerated PlanRecord.modelUsed].
    eapply nth_error_In. exact Hm.
  - eexists. rewrite Store. split; [reflexivity|]. split; [cbn; lia|].
    constructor; [| constructor]. split; [reflexivity|].
    cbn [snd PlanRecord.isAiGenerated]. split; reflexivity.
  - exists []. rewrite app_nil_r. split; [exact Store|]. split; [cbn; lia|].
    constructor.
  - exists []. rewrite app_nil_r. split; [reflexivity|]. split; [cbn; lia|].
    constructor.
Qed.

Lemma serve_appends (svc : Services) (rd : Reads) (req : Request) (w : World) :
  exists added,
    studyPlans (snd (serve svc rd req w)) = studyPlans w ++ added
    /\ (List.length added <= if isPost req then 1 else 0)%nat
    /\ Forall (fun d => writtenByHandler (snd d)) added.
Proof.
  destruct req as [body|now| |id|now|]; cbn [serve isPost];
    try (exists []; rewrite app_nil_r;
         split; [reflexivity | split; [cbn; lia | constructor]]).
  - destruct (post_generate_plan svc body w) as [response after] eqn:E.
    pose proof (post_generate_plan_appends svc body w) as H.
    rewrite E in H. exact H.
  - exists []. rewrite app_nil_r. split; [| split; [cbn; lia | constructor]].
    destruct (probeModels_report svc models [] w models_NoDup) as (report & E & _).
    unfold get_check_models. rewrite E. cbn [snd]. apply afterCalls_studyPlans.
Qed.

(** X18.  The collection only grows, and only through
    [POST /generate-plan].  Over any sequence of requests, served one
    after the other by the routes of the file and with any behaviour of
    the services: the documents stored before are still there, unchanged
    and in their place; at most one document was added per
    [POST /generate-plan]; and every document added has [createdAt] set to
    the server timestamp and is either the record of an AI plan, naming
    one of the five candidates, or a fallback record, with [modelUsed]
    "fallback" and the fallback plan of its own fields. *)
Theorem collection_is_append_only (svc : Services) (rd : Reads)
    (reqs : list Request) (w : World) :
  exists added,
    studyPlans (worldAfterAll svc rd reqs w) = studyPlans w ++ added
    /\ (List.length added <= List.length (filter isPost reqs))%nat
    /\ Forall (fun d => writtenByHandler (snd d)) added.
Proof.
  revert w. induction reqs as [|req reqs IH]; intros w.
  - exists []. cbn. rewrite app_nil_r. repeat split; [lia | constructor].
  - destruct (serve_appends svc rd req w) as (a1 & E1 & L1 & F1).
    destruct (IH (snd (serve svc rd req w))) as (a2 & E2 & L2 & F2).
    exists (a1 ++ a2). unfold worldAfterAll in *. cbn [fold_left filter].
    rewrite E2, E1, <- app_assoc. split; [reflexivity|].
    split; [| now apply Forall_app].
    rewrite length_app. destruct (isPost req); cbn [List.length]; lia.
Qed.

